(** * A shallow embedding of the in-memory knowledge-graph tools of PatientMap

    Source: src/src/patientmap/tools/kg_tools.py.

    The tools keep a NetworkX [DiGraph] serialised in node-link form under
    the session-state key [kg_data]; every tool deserialises it with
    [_get_graph], works on the graph and serialises it back with
    [_save_graph].  The model:
    - attribute values are JSON values ([Value]); attribute dictionaries are
      [gmap string Value];
    - a [DiGraph] is its node dictionary (node id -> attribute dictionary) and
      its edge dictionary ((source, target) -> attribute dictionary); a
      DiGraph has at most one edge per ordered pair, as in NetworkX;
    - node ids are strings (the tool signatures declare them [str]); the
      one tool that can add other ids, [bulk_add_nodes], is modelled with
      ids of any hashable type in the module [AnyIds];
    - a Python [str] is the [string] of its UTF-8 bytes;
    - a tool is a function from the graph it reads to its reply and the graph
      it leaves in the state; a tool that returns or raises before
      [_save_graph] leaves the state as it was.
    Iteration order of NetworkX dictionaries (insertion order) is replaced by
    the key order of [gmap]; no statement below depends on it. *)

From Stdlib Require Import QArith Qround Sorted.
From stdpp Require Import base gmap strings list fin_maps pretty.

Open Scope string_scope.
Open Scope list_scope.
#[local] Set Warnings "-register-all".

(** ** JSON values and attribute dictionaries *)

Inductive Value : Type :=
| VNull
| VBool (b : bool)
| VInt (z : Z)
| VFloat (q : Q)
| VStr (s : string)
| VList (l : list Value)
| VObj (kvs : list (string * Value)).

(** Python truthiness: [None], [False], [0], [0.0], [""], [[]], [{}] are
    false. *)
Definition truthy (v : Value) : bool :=
  match v with
  | VNull => false
  | VBool b => b
  | VInt z => negb (Z.eqb z 0)
  | VFloat q => negb (Qeq_bool q 0)
  | VStr s => negb (String.eqb s "")
  | VList l => negb (Nat.eqb (length l) 0)
  | VObj kvs => negb (Nat.eqb (length kvs) 0)
  end.

Abbreviation attrs := (gmap string Value).

(** [dict.get(k)] *)
Definition get (a : attrs) (k : string) : Value :=
  match a !! k with Some v => v | None => VNull end.

(** A JSON object read back as a Python dict: a later duplicate key wins. *)
Definition obj_to_attrs (kvs : list (string * Value)) : attrs :=
  foldl (fun m kv => <[kv.1 := kv.2]> m) ∅ kvs.

(** ** NetworkX DiGraph *)

Record DiGraph : Type := mkDiGraph {
  g_nodes : gmap string attrs;
  g_edges : gmap (string * string) attrs
}.

Definition empty_graph : DiGraph := mkDiGraph ∅ ∅.

Definition has_node (g : DiGraph) (n : string) : bool :=
  bool_decide (is_Some (g_nodes g !! n)).

Definition has_edge (g : DiGraph) (u v : string) : bool :=
  bool_decide (is_Some (g_edges g !! (u, v))).

Definition number_of_nodes (g : DiGraph) : nat := size (g_nodes g).
Definition number_of_edges (g : DiGraph) : nat := size (g_edges g).

Definition node_data (g : DiGraph) (n : string) : attrs :=
  match g_nodes g !! n with Some a => a | None => ∅ end.

(** [G.add_node(n, **attr)]: a new node gets [attr]; an existing node's
    dictionary is [update]d with [attr] (the new values win). *)
Definition add_node_nx (n : string) (attr : attrs) (g : DiGraph) : DiGraph :=
  mkDiGraph (<[n := attr ∪ node_data g n]> (g_nodes g)) (g_edges g).

(** [G.add_edge(u, v, **attr)]: missing endpoints are added with an empty
    dictionary; the edge dictionary is created or [update]d with [attr]. *)
Definition add_edge_nx (u v : string) (attr : attrs) (g : DiGraph) : DiGraph :=
  let ns1 := match g_nodes g !! u with Some _ => g_nodes g | None => <[u := ∅]> (g_nodes g) end in
  let ns2 := match ns1 !! v with Some _ => ns1 | None => <[v := ∅]> ns1 end in
  let old := match g_edges g !! (u, v) with Some a => a | None => ∅ end in
  mkDiGraph ns2 (<[(u, v) := attr ∪ old]> (g_edges g)).

(** [G.remove_node(n)]: the node and every edge touching it. *)
Definition remove_node_nx (n : string) (g : DiGraph) : DiGraph :=
  mkDiGraph (delete n (g_nodes g))
            (filter (fun kv : (string * string) * attrs => kv.1.1 ≠ n ∧ kv.1.2 ≠ n) (g_edges g)).

Definition remove_edge_nx (u v : string) (g : DiGraph) : DiGraph :=
  mkDiGraph (g_nodes g) (delete (u, v) (g_edges g)).

Definition edge_list (g : DiGraph) : list ((string * string) * attrs) :=
  map_to_list (g_edges g).

(** [G.in_edges(n)] and [G.out_edges(n)] as (source, target) pairs. *)
Definition in_edges (g : DiGraph) (n : string) : list (string * string) :=
  map fst (filter (fun kv : (string * string) * attrs => kv.1.2 = n) (edge_list g)).
Definition out_edges (g : DiGraph) (n : string) : list (string * string) :=
  map fst (filter (fun kv : (string * string) * attrs => kv.1.1 = n) (edge_list g)).

(** [G.predecessors(n)], [G.successors(n)] (= [G.neighbors(n)]). *)
Definition predecessors (g : DiGraph) (n : string) : list string := map fst (in_edges g n).
Definition successors (g : DiGraph) (n : string) : list string := map snd (out_edges g n).

(** [G.degree(n)] of a DiGraph: in-degree plus out-degree. *)
Definition degree (g : DiGraph) (n : string) : nat :=
  length (in_edges g n) + length (out_edges g n).

Definition edge_data (g : DiGraph) (u v : string) : attrs :=
  match g_edges g !! (u, v) with Some a => a | None => ∅ end.

(** ** Node-link serialisation ([nx.node_link_data] / [nx.node_link_graph]) *)

(** [{**G.nodes[n], "id": n}] *)
Definition node_entry (n : string) (a : attrs) : Value :=
  VObj (map_to_list (<["id" := VStr n]> a)).

(** [{**d, "source": u, "target": v}] *)
Definition link_entry (u v : string) (a : attrs) : Value :=
  VObj (map_to_list (<["target" := VStr v]> (<["source" := VStr u]> a))).

(** [edges] is the key the edge list is stored under: [_save_graph] passes
    [edges="links"], [save_graph_to_disk] calls [nx.node_link_data(graph)]
    with the default of the installed networkx, ["edges"]. *)
Definition node_link_data (edges : string) (g : DiGraph) : Value :=
  VObj [("directed", VBool true); ("multigraph", VBool false); ("graph", VObj []);
        ("nodes", VList (map (fun na => node_entry na.1 na.2) (map_to_list (g_nodes g))));
        (edges, VList (map (fun ea => link_entry ea.1.1 ea.1.2 ea.2) (map_to_list (g_edges g))))].

(** One entry of ["nodes"]: [graph.add_node(d["id"])] and then the node
    dictionary is updated with every key of [d] but ["id"].  The graphs of
    this model have string ids, and [node_link_data] writes no other; an
    entry with another id gives [None] here ([AnyIds.load_node] reads it). *)
Definition load_node (og : option DiGraph) (d : Value) : option DiGraph :=
  match og, d with
  | Some g, VObj kvs =>
      let a := obj_to_attrs kvs in
      match a !! "id" with
      | Some (VStr n) => Some (add_node_nx n (delete "id" a) g)
      | _ => None
      end
  | _, _ => None
  end.

(** One entry of the edge list: [graph.add_edge(d["source"], d["target"], **rest)]. *)
Definition load_link (og : option DiGraph) (d : Value) : option DiGraph :=
  match og, d with
  | Some g, VObj kvs =>
      let a := obj_to_attrs kvs in
      match a !! "source", a !! "target" with
      | Some (VStr u), Some (VStr v) => Some (add_edge_nx u v (delete "target" (delete "source" a)) g)
      | _, _ => None
      end
  | _, _ => None
  end.

(** [nx.node_link_graph(data, directed=True, edges=edges)]; [None] stands
    for the exception a malformed document raises. *)
Definition node_link_graph (edges : string) (data : Value) : option DiGraph :=
  match data with
  | VObj top =>
      let m := obj_to_attrs top in
      match m !! "nodes", m !! edges with
      | Some (VList ns), Some (VList ls) => foldl load_link (foldl load_node (Some empty_graph) ns) ls
      | _, _ => None
      end
  | _ => None
  end.

(** ** Session state *)

(** [_save_graph] stores [node_link_data graph] under [kg_data]; the next
    tool call reads it back with [_get_graph] ([node_link_graph]).  The
    graph a tool leaves for the next call is therefore the one below. *)
Definition save_graph (g : DiGraph) : DiGraph :=
  match node_link_graph "links" (node_link_data "links" g) with
  | Some g' => g'
  | None => g
  end.

(** ** Tool replies *)

(** An entry of the [errors] list of a bulk tool. *)
Inductive BulkError : Type :=
| MissingField (i : nat) (field : string)
| EndpointMissing (i : nat) (role : string) (id : Value)
| Raised (i : nat).

Inductive Reply : Type :=
| ErrNotInitialized
| ErrNodeNotFound (role : string) (id : string)
| ErrNoEdge (source target : string)
| ErrSameNode
| OkAddedNode (node_type : string) (id : string)
| OkAddedRel (source target relationship_type : string)
| OkBulk (added : list string) (errors : list BulkError)
| OkDeletedNode (id : string) (edges_removed : nat)
| OkDeletedEdge (source target : string)
| OkMerged (primary duplicate : string) (edges_transferred : nat) (merged_attributes : list string)
| Joined (first second : Reply)
| Raises (exception : string).

(** A reply that is (or contains) an error message, or an exception the
    tool lets through. *)
Fixpoint is_error (r : Reply) : bool :=
  match r with
  | ErrNotInitialized | ErrNodeNotFound _ _ | ErrNoEdge _ _ | ErrSameNode | Raises _ => true
  | Joined r1 r2 => is_error r1 || is_error r2
  | _ => false
  end.

Definition not_initialized (r : Reply) : bool :=
  match r with ErrNotInitialized => true | _ => false end.

Definition node_not_found (r : Reply) : bool :=
  match r with ErrNodeNotFound _ _ => true | _ => false end.

(** ** Mutation tools *)

Definition initialize_patient_graph (patient_id patient_name : string) (g : DiGraph) : Reply * DiGraph :=
  let g1 := add_node_nx patient_id
              (<["node_type" := VStr "patient"]> (<["name" := VStr patient_name]>
                 (<["label" := VStr ("Patient: " +:+ patient_name)]> ∅))) g in
  (OkAddedNode "patient" patient_id, save_graph g1).

(** The named parameters of [G.add_node(self, node_for_adding, **attr)] and
    [G.add_edge(self, u_of_edge, v_of_edge, **attr)]. *)
Definition add_node_params : list string := ["self"; "node_for_adding"].
Definition add_edge_params : list string := ["self"; "u_of_edge"; "v_of_edge"].

(** [f(x, **attrs)] raises [TypeError] (multiple values for an argument)
    when a key of [attrs] is the name of a parameter of [f]. *)
Definition kwargs_clash (params : list string) (a : attrs) : bool :=
  existsb (fun k => bool_decide (is_Some (a !! k))) params.

Definition add_node (node_id node_type label : string) (properties : option attrs) (g : DiGraph)
  : Reply * DiGraph :=
  if Nat.eqb (number_of_nodes g) 0 then (ErrNotInitialized, g) else
  let base := <["node_type" := VStr node_type]> (<["label" := VStr label]> ∅) in
  let a := match properties with
           | Some p => if bool_decide (p = ∅) then base else p ∪ base
           | None => base
           end in
  if kwargs_clash add_node_params a then (Raises "TypeError", g) else
  (OkAddedNode node_type node_id, save_graph (add_node_nx node_id a g)).

Definition add_relationship (source_id target_id relationship_type : string)
  (properties : option attrs) (g : DiGraph) : Reply * DiGraph :=
  if negb (has_node g source_id) then (ErrNodeNotFound "Source" source_id, g) else
  if negb (has_node g target_id) then (ErrNodeNotFound "Target" target_id, g) else
  let base := <["relationship_type" := VStr relationship_type]> ∅ in
  let a := match properties with
           | Some p => if bool_decide (p = ∅) then base else p ∪ base
           | None => base
           end in
  if kwargs_clash add_edge_params a then (Raises "TypeError", g) else
  (OkAddedRel source_id target_id relationship_type, save_graph (add_edge_nx source_id target_id a g)).

(** UTF-8: a byte [10xxxxxx] continues the character before it. *)
Definition continuation_byte (c : Ascii.ascii) : bool :=
  let n := Ascii.nat_of_ascii c in (Nat.leb 128 n && Nat.ltb n 192)%bool.

(** [len(s)]: the number of characters. *)
Fixpoint py_len (s : string) : nat :=
  match s with
  | EmptyString => 0
  | String c rest => (if continuation_byte c then 0 else 1) + py_len rest
  end.

(** The continuation bytes at the head of [s], and what follows them. *)
Fixpoint split_continuation (s : string) : string * string :=
  match s with
  | EmptyString => (EmptyString, EmptyString)
  | String c rest =>
      if continuation_byte c then let '(a, b) := split_continuation rest in (String c a, b)
      else (EmptyString, s)
  end.

(** [(s[0], s[1:])] for a non-empty string. *)
Definition first_char (s : string) : string * string :=
  match s with
  | EmptyString => (EmptyString, EmptyString)
  | String c rest => let '(a, b) := split_continuation rest in (String c a, b)
  end.

(** [list(d)] for a JSON object read as a dict: its keys, each once, in the
    order of their first appearance. *)
Fixpoint obj_keys (kvs : list (string * Value)) : list string :=
  match kvs with
  | [] => []
  | (k, _) :: rest => k :: filter (fun k' => k' ≠ k) (obj_keys rest)
  end.

(** [attrs.update(properties)] inside the bulk tools, where [properties] is
    whatever the entry holds under ["properties"] (default [{}]): a mapping
    updates; a list updates element by element, each element unpacking to
    [(key, value)]: a list of two values, a string of two characters or an
    object with two keys (the pair of its keys); anything else truthy
    raises.  A key that is not a string is hashable or raises here, and in
    the first case the following [G.add_node(n, **attrs)] or
    [G.add_edge(u, v, **attrs)] raises [TypeError] (keywords must be
    strings).  [None]: an exception, caught by the loop's [except]. *)
Fixpoint pairs_update (l : list Value) (a : attrs) : option attrs :=
  match l with
  | [] => Some a
  | VList [VStr k; v] :: rest => pairs_update rest (<[k := v]> a)
  | VStr s :: rest =>
      if Nat.eqb (py_len s) 2 then let '(k, v) := first_char s in pairs_update rest (<[k := VStr v]> a)
      else None
  | VObj kvs :: rest =>
      match obj_keys kvs with
      | [k; v] => pairs_update rest (<[k := VStr v]> a)
      | _ => None
      end
  | _ :: _ => None
  end.

Definition update_with (a : attrs) (properties : Value) : option attrs :=
  if negb (truthy properties) then Some a else
  match properties with
  | VObj kvs => Some (obj_to_attrs kvs ∪ a)
  | VList l => pairs_update l a
  | _ => None
  end.

Definition get_default (d : attrs) (k : string) (dflt : Value) : Value :=
  match d !! k with Some v => v | None => dflt end.

(** [bulk_add_nodes] is modelled in [AnyIds] below: it is the one tool
    whose node ids can be other values than strings. *)



(** [x in graph] for a JSON value [x]: only a string can name a node; for
    a list or an object (unhashable) NetworkX answers [False]. *)
Definition endpoint (g : DiGraph) (x : Value) : option string :=
  match x with
  | VStr s => if has_node g s then Some s else None
  | _ => None
  end.

(** One iteration of the loop of [bulk_add_relationships] on entry [i]. *)
Definition bulk_rel_step (i : nat) (rel_data : attrs)
  (acc : list string * list BulkError * DiGraph) : list string * list BulkError * DiGraph :=
  let '(added, errors, g) := acc in
  if negb (bool_decide (is_Some (rel_data !! "source_id"))) then (added, errors ++ [MissingField i "source_id"], g) else
  if negb (bool_decide (is_Some (rel_data !! "target_id"))) then (added, errors ++ [MissingField i "target_id"], g) else
  if negb (bool_decide (is_Some (rel_data !! "relationship_type"))) then (added, errors ++ [MissingField i "relationship_type"], g) else
  let source_id := get rel_data "source_id" in
  let target_id := get rel_data "target_id" in
  let properties := get_default rel_data "properties" (VObj []) in
  match endpoint g source_id with
  | None => (added, errors ++ [EndpointMissing i "Source" source_id], g)
  | Some s =>
      match endpoint g target_id with
      | None => (added, errors ++ [EndpointMissing i "Target" target_id], g)
      | Some t =>
          match update_with (<["relationship_type" := get rel_data "relationship_type"]> ∅) properties with
          | Some a =>
              if kwargs_clash add_edge_params a then (added, errors ++ [Raised i], g)
              else (added ++ [s], errors, add_edge_nx s t a g)
          | None => (added, errors ++ [Raised i], g)
          end
      end
  end.

Fixpoint bulk_rels_loop (i : nat) (rels : list attrs) (acc : list string * list BulkError * DiGraph)
  : list string * list BulkError * DiGraph :=
  match rels with
  | [] => acc
  | rd :: rest => bulk_rels_loop (S i) rest (bulk_rel_step i rd acc)
  end.

(** No "not initialized" guard in the source. *)
Definition bulk_add_relationships (relationships : list attrs) (g : DiGraph) : Reply * DiGraph :=
  let '(added, errors, g1) := bulk_rels_loop 0 relationships ([], [], g) in
  (OkBulk added errors, save_graph g1).

(** [str.lower] covers the whole of Unicode; the tools that use it take the
    lowering function as an argument [lower].  [ascii_lower] is [str.lower]
    on ASCII strings (and leaves every other byte alone). *)
Definition lower_ascii (c : Ascii.ascii) : Ascii.ascii :=
  let n := Ascii.nat_of_ascii c in
  if (Nat.leb 65 n && Nat.leb n 90)%bool then Ascii.ascii_of_nat (n + 32)%nat else c.

Fixpoint ascii_lower (s : string) : string :=
  match s with
  | EmptyString => EmptyString
  | String c rest => String (lower_ascii c) (ascii_lower rest)
  end.

(** [s.replace(' ', '_')] *)
Fixpoint replace_space (s : string) : string :=
  match s with
  | EmptyString => EmptyString
  | String c rest =>
      String (if Ascii.eqb c (Ascii.ascii_of_nat 32) then Ascii.ascii_of_nat 95 else c) (replace_space rest)
  end.

(** [name.lower().replace(' ', '_')] *)
Definition lower_replace (lower : string → string) (s : string) : string := replace_space (lower s).

(** [add_node] and [add_relationship] are called in turn; an exception of
    the first goes through, the second is not reached. *)
Definition add_patient_condition (lower : string → string) (patient_id condition_name : string)
  (icd_code : option string) (symptoms : option (list string)) (g : DiGraph) : Reply * DiGraph :=
  let condition_id := "condition_" +:+ lower_replace lower condition_name in
  let p1 := match icd_code with
            | Some c => if String.eqb c "" then ∅ else <["icd_code" := VStr c]> ∅
            | None => ∅ end in
  let p2 := match symptoms with
            | Some (_ :: _ as l) => <["symptoms" := VList (map VStr l)]> p1
            | _ => p1 end in
  let '(result, g1) := add_node condition_id "condition" condition_name (Some p2) g in
  match result with
  | Raises e => (Raises e, g1)
  | _ =>
      let '(relationship_result, g2) := add_relationship patient_id condition_id "HAS_CONDITION" None g1 in
      (Joined result relationship_result, g2)
  end.

Definition delete_node (node_id : string) (g : DiGraph) : Reply * DiGraph :=
  if negb (has_node g node_id) then (ErrNodeNotFound "Node" node_id, g) else
  let total_edges := length (in_edges g node_id) + length (out_edges g node_id) in
  (OkDeletedNode node_id total_edges, save_graph (remove_node_nx node_id g)).

Definition delete_relationship (source_node target_node : string) (g : DiGraph) : Reply * DiGraph :=
  if negb (has_node g source_node) then (ErrNodeNotFound "Source" source_node, g) else
  if negb (has_node g target_node) then (ErrNodeNotFound "Target" target_node, g) else
  if negb (has_edge g source_node target_node) then (ErrNoEdge source_node target_node, g) else
  (OkDeletedEdge source_node target_node, save_graph (remove_edge_nx source_node target_node g)).

(** ** [merge_duplicate_nodes] *)

Definition missing_or_none (pd : attrs) (k : string) : bool :=
  match pd !! k with None => true | Some VNull => true | Some _ => false end.

(** [for key, value in duplicate_data.items():
       if key not in primary_data or primary_data[key] is None:
           primary_data[key] = value] *)
Definition merge_attrs (primary_data duplicate_data : attrs) : attrs :=
  foldl (fun pd kv => if missing_or_none pd kv.1 then <[kv.1 := kv.2]> pd else pd)
        primary_data (map_to_list duplicate_data).

(** The loop over the incoming edges of the duplicate. *)
Definition transfer_in (primary duplicate : string) (acc : DiGraph * nat) (e : string * string)
  : DiGraph * nat :=
  let '(g, n) := acc in
  let source := e.1 in
  if String.eqb source primary then (g, n) else
  let ed := edge_data g source duplicate in
  if has_edge g source primary then (g, n) else (add_edge_nx source primary ed g, S n).

(** The loop over the outgoing edges of the duplicate. *)
Definition transfer_out (primary duplicate : string) (acc : DiGraph * nat) (e : string * string)
  : DiGraph * nat :=
  let '(g, n) := acc in
  let target := e.2 in
  if String.eqb target primary then (g, n) else
  let ed := edge_data g duplicate target in
  if has_edge g primary target then (g, n) else (add_edge_nx primary target ed g, S n).

Definition merge_duplicate_nodes (primary_node_id duplicate_node_id : string) (g : DiGraph)
  : Reply * DiGraph :=
  if negb (has_node g primary_node_id) then (ErrNodeNotFound "Primary" primary_node_id, g) else
  if negb (has_node g duplicate_node_id) then (ErrNodeNotFound "Duplicate" duplicate_node_id, g) else
  if String.eqb primary_node_id duplicate_node_id then (ErrSameNode, g) else
  let primary_data := node_data g primary_node_id in
  let duplicate_data := node_data g duplicate_node_id in
  let pd := merge_attrs primary_data duplicate_data in
  (* graph.nodes[primary_node_id].update(primary_data) *)
  let g1 := mkDiGraph (<[primary_node_id := pd ∪ primary_data]> (g_nodes g)) (g_edges g) in
  let '(g2, n1) := foldl (transfer_in primary_node_id duplicate_node_id) (g1, 0)
                         (in_edges g1 duplicate_node_id) in
  let '(g3, n2) := foldl (transfer_out primary_node_id duplicate_node_id) (g2, n1)
                         (out_edges g2 duplicate_node_id) in
  let g4 := remove_node_nx duplicate_node_id g3 in
  (OkMerged primary_node_id duplicate_node_id n2 (map fst (map_to_list duplicate_data)),
   save_graph g4).

(** ** [get_patient_overview] *)

Record Overview : Type := mkOverview {
  ov_patient_id : string;
  ov_conditions : list string;
  ov_medications : list string;
  ov_research_articles_count : nat;
  ov_total_nodes : nat;
  ov_total_relationships : nat
}.

Definition node_type_is (g : DiGraph) (n t : string) : bool :=
  match get (node_data g n) "node_type" with VStr s => String.eqb s t | _ => false end.

Definition rel_type_is (g : DiGraph) (u v : string) (t : string) : bool :=
  match get (edge_data g u v) "relationship_type" with VStr s => String.eqb s t | _ => false end.

Definition patient_conditions (g : DiGraph) (patient_id : string) : list string :=
  filter (fun n => node_type_is g n "condition" = true ∧ rel_type_is g patient_id n "HAS_CONDITION" = true)
         (successors g patient_id).

Definition patient_medications (g : DiGraph) (patient_id : string) : list string :=
  filter (fun n => node_type_is g n "medication" = true ∧ rel_type_is g patient_id n "TAKES_MEDICATION" = true)
         (successors g patient_id).

(** [sum(1 for pred in predecessors if node_type == 'research_article')] *)
Definition article_preds (g : DiGraph) (condition_id : string) : nat :=
  length (filter (fun p => node_type_is g p "research_article" = true) (predecessors g condition_id)).

Definition research_count (g : DiGraph) (condition_ids : list string) : nat :=
  foldl (fun acc c => acc + article_preds g c) 0 condition_ids.

Definition get_patient_overview (patient_id : string) (g : DiGraph) : Reply + Overview :=
  if Nat.eqb (number_of_nodes g) 0 then inl ErrNotInitialized else
  if negb (has_node g patient_id) then inl (ErrNodeNotFound "Patient" patient_id) else
  let conditions := patient_conditions g patient_id in
  let medications := patient_medications g patient_id in
  inr (mkOverview patient_id conditions medications (research_count g conditions)
                  (number_of_nodes g) (number_of_edges g)).

(** ** [validate_graph_structure] *)

(** [_plain_bfs(G, source)] of NetworkX on a DiGraph: breadth-first search
    that follows both successors and predecessors.  [fuel] bounds the number
    of layers; every layer adds a node, so [number_of_nodes g] layers
    suffice on a graph whose edges join its nodes. *)
Fixpoint undirected_bfs (fuel : nat) (g : DiGraph) (seen : gset string) (frontier : list string)
  : gset string :=
  match fuel with
  | O => seen
  | S f =>
      let next := remove_dups (filter (fun w => w ∉ seen)
                    (concat (map (fun u => successors g u ++ predecessors g u) frontier))) in
      match next with
      | [] => seen
      | _ => undirected_bfs f g (seen ∪ list_to_set next) next
      end
  end.

Definition plain_bfs (g : DiGraph) (source : string) : gset string :=
  undirected_bfs (number_of_nodes g) g {[source]} [source].

Definition node_ids (g : DiGraph) : list string := map fst (map_to_list (g_nodes g)).

(** [nx.is_weakly_connected(G)]: [len(_plain_bfs(G, first node)) == len(G)]
    (the empty graph raises; the tool rules it out before). *)
Definition is_weakly_connected (g : DiGraph) : bool :=
  match node_ids g with
  | [] => false
  | n :: _ => Nat.eqb (size (plain_bfs g n)) (number_of_nodes g)
  end.

(** [nx.number_weakly_connected_components(G)] *)
Definition number_weakly_connected_components (g : DiGraph) : nat :=
  (foldl (fun acc n => if bool_decide (n ∈ acc.1) then acc else (acc.1 ∪ plain_bfs g n, S acc.2))
         (∅ : gset string, 0) (node_ids g)).2.

Inductive Issue : Type :=
| NoPatientNode
| DisconnectedComponents (num_components : nat).

Inductive Warning : Type :=
| MultiplePatients (ids : list string)
| OrphanedNodes (count : nat) (first_five : list string)
| MissingLabels (count : nat) (first_five : list string).

Record Validation : Type := mkValidation {
  is_valid : bool;
  critical_issues : list Issue;
  warnings : list Warning
}.

Definition patient_nodes (g : DiGraph) : list string :=
  filter (fun n => node_type_is g n "patient" = true) (node_ids g).

Definition validate_graph_structure (g : DiGraph) : Reply + Validation :=
  if Nat.eqb (number_of_nodes g) 0 then inl ErrNotInitialized else
  let pats := patient_nodes g in
  let '(issues1, warnings1) :=
    match pats with
    | [] => ([NoPatientNode], [])
    | [_] => ([], [])
    | _ => ([], [MultiplePatients pats])
    end in
  let orphaned := filter (fun n => degree g n = 0%nat) (node_ids g) in
  let warnings2 := match orphaned with
                   | [] => warnings1
                   | _ => warnings1 ++ [OrphanedNodes (length orphaned) (take 5 orphaned)] end in
  let missing_labels := filter (fun n => truthy (get (node_data g n) "label") = false) (node_ids g) in
  let warnings3 := match missing_labels with
                   | [] => warnings2
                   | _ => warnings2 ++ [MissingLabels (length missing_labels) (take 5 missing_labels)] end in
  let issues2 := if is_weakly_connected g then issues1
                 else issues1 ++ [DisconnectedComponents (number_weakly_connected_components g)] in
  inr (mkValidation (Nat.eqb (length issues2) 0) issues2 warnings3).

(** ** [analyze_graph_connectivity] *)

(** Directed breadth-first search from a source, recording the layer at
    which each node is first met: [nx.descendants] is the set of nodes met
    (the source excluded) and, on an unweighted graph,
    [nx.shortest_path_length(G, s, t)] is the layer of [t] ([None]: the
    search never meets [t], NetworkX raises [NetworkXNoPath]). *)
Fixpoint directed_bfs (fuel : nat) (g : DiGraph) (dist : gmap string nat) (frontier : list string)
  (d : nat) : gmap string nat :=
  match fuel with
  | O => dist
  | S f =>
      let next := remove_dups (filter (fun w => dist !! w = None) (concat (map (successors g) frontier))) in
      match next with
      | [] => dist
      | _ => directed_bfs f g (foldl (fun m w => <[w := S d]> m) dist next) next (S d)
      end
  end.

Definition bfs_layers (g : DiGraph) (source : string) : gmap string nat :=
  directed_bfs (number_of_nodes g) g {[source := 0%nat]} [source] 0.

Definition descendants (g : DiGraph) (source : string) : list string :=
  filter (fun n => n ≠ source) (map fst (map_to_list (bfs_layers g source))).

Definition shortest_path_length (g : DiGraph) (s t : string) : option nat :=
  bfs_layers g s !! t.

(** Round half to even to an integer. *)
Definition round_half_even (y : Q) : Z :=
  let f := Qfloor y in
  let r := Qminus y (inject_Z f) in
  if Qlt_le_dec r (1 # 2) then f
  else if Qeq_dec r (1 # 2) then (if Z.even f then f else f + 1)%Z
  else (f + 1)%Z.

(** [2 ^ e] for an integer exponent. *)
Definition pow2 (e : Z) : Q :=
  if (0 <=? e)%Z then inject_Z (2 ^ e) else 1 # Z.to_pos (2 ^ (- e)).

(** [floor(log2 x)] for [x > 0]: with [2^a <= num < 2^(a+1)] and
    [2^b <= den < 2^(b+1)] it is [a - b] or [a - b - 1]. *)
Definition floor_log2 (x : Q) : Z :=
  let t := (Z.log2 (Qnum x) - Z.log2 (Zpos (Qden x)))%Z in
  if Qlt_le_dec x (pow2 t) then (t - 1)%Z else t.

(** The binary64 double nearest to [x > 0], ties to even: 53 significant
    bits, subnormal below [2^-1022]. *)
Definition to_double_pos (x : Q) : Q :=
  let e := Z.max (floor_log2 x - 52) (-1074) in
  Qmult (inject_Z (round_half_even (Qdiv x (pow2 e)))) (pow2 e).

(** A Python [float] is modelled by its exact value, a rational: [to_double x]
    is the double nearest to [x] (ties to even), as IEEE division and
    [float(str)] give it, in lowest terms.  Overflow to [inf] (values
    beyond [2^1024]) is not modelled. *)
Definition to_double (x : Q) : Q :=
  Qred (match Qnum x with
        | Z0 => 0
        | Zpos _ => to_double_pos x
        | Zneg _ => Qopp (to_double_pos (Qopp x))
        end).

(** [round(x, 2)] on a float [x]: CPython rounds the exact value of the
    double half to even at two decimal places (correctly rounded [dtoa]) and
    returns the double nearest to that decimal. *)
Definition py_round2 (x : Q) : Q :=
  to_double (Qdiv (inject_Z (round_half_even (Qmult x (100 # 1)))) (100 # 1)).

Definition sum_nat (l : list nat) : nat := foldl Nat.add 0%nat l.

(** [sum(path_lengths) / len(path_lengths) if path_lengths else 0], exactly;
    the float Python computes is [to_double (mean l)] (true division of two
    integers is correctly rounded). *)
Definition mean (l : list nat) : Q :=
  match l with
  | [] => 0 # 1
  | _ => Qdiv (inject_Z (Z.of_nat (sum_nat l))) (inject_Z (Z.of_nat (length l)))
  end.

Inductive Insight : Type :=
| NoConditions
| NoResearch
| ConditionsWithoutResearch
| ResearchFarAway (avg : Q).

Record Connectivity : Type := mkConnectivity {
  cn_patient_id : string;
  cn_direct_connections : nat;
  cn_total_reachable_nodes : nat;
  cn_conditions_count : nat;
  cn_research_articles_count : nat;
  cn_clinical_trials_count : nat;
  cn_average_research_depth : Q;
  cn_insights : list Insight
}.

(** The [try: path_lengths.append(...) except NetworkXNoPath: pass] loop. *)
Definition path_lengths (g : DiGraph) (patient_id : string) (research_nodes : list string) : list nat :=
  foldl (fun acc r => match shortest_path_length g patient_id r with
                      | Some d => acc ++ [d]
                      | None => acc
                      end) [] research_nodes.

Definition analyze_graph_connectivity (g : DiGraph) : option (Reply + Connectivity) :=
  if Nat.eqb (number_of_nodes g) 0 then Some (inl ErrNotInitialized) else
  match patient_nodes g with
  | [] => None (* json.dumps({'error': 'No patient node found'}) *)
  | patient_id :: _ =>
      let direct_neighbors := successors g patient_id in
      let reachable := descendants g patient_id in
      let conditions := filter (fun n => node_type_is g n "condition" = true) reachable in
      let articles := filter (fun n => node_type_is g n "research_article" = true) reachable in
      let trials := filter (fun n => node_type_is g n "clinical_trial" = true) reachable in
      let avg := to_double (mean (path_lengths g patient_id (articles ++ trials))) in
      let i1 := if Nat.eqb (length conditions) 0 then [NoConditions] else [] in
      let i2 := if Nat.eqb (length articles) 0 then [NoResearch] else [] in
      let i3 := if negb (Nat.eqb (length conditions) 0) && Nat.eqb (length articles) 0
                then [ConditionsWithoutResearch] else [] in
      let i4 := if Qlt_le_dec (3 # 1) avg then [ResearchFarAway avg] else [] in
      Some (inr (mkConnectivity patient_id (length direct_neighbors) (length reachable)
                   (length conditions) (length articles) (length trials) (py_round2 avg)
                   (i1 ++ i2 ++ i3 ++ i4)))
  end.

(** ** Persistence *)

(** The JSON file [save_graph_to_disk] writes: [json.dump(nx.node_link_data(graph))].
    Paths, timestamps, the GraphML copy and the text summary are not
    modelled; the file is the JSON document it holds. *)
Definition save_graph_to_disk (g : DiGraph) : Reply + Value :=
  if Nat.eqb (number_of_nodes g) 0 then inl ErrNotInitialized else inr (node_link_data "edges" g).

(** [load_graph_from_disk] on a [.json] file: [json.load] gives back the
    document, [nx.node_link_graph(data, directed=True)] rebuilds the graph
    from the default key ["edges"] ([None]: the [except] branch), and
    [_save_graph] stores it. *)
Definition load_graph_from_disk (data : Value) : option DiGraph :=
  match node_link_graph "edges" data with
  | Some g => Some g
  | None => None
  end.

(** [_get_graph]: no [kg_data] yet gives a fresh DiGraph, otherwise the
    stored document is read back with [node_link_graph(..., edges="links")]. *)
Definition get_graph (kg_data : option Value) : option DiGraph :=
  match kg_data with
  | None => Some empty_graph
  | Some data => node_link_graph "links" data
  end.

(** ** Further tools *)

(** [if v: properties[k] = v] for an optional string argument. *)
Definition put_str (k : string) (o : option string) (p : attrs) : attrs :=
  match o with
  | Some s => if String.eqb s "" then p else <[k := VStr s]> p
  | None => p
  end.

(** The same for an optional list of strings. *)
Definition put_list (k : string) (o : option (list string)) (p : attrs) : attrs :=
  match o with
  | Some (_ :: _ as l) => <[k := VList (map VStr l)]> p
  | _ => p
  end.

Definition add_patient_medication (lower : string → string) (patient_id medication_name : string)
  (dosage : option string) (side_effects : option (list string)) (g : DiGraph) : Reply * DiGraph :=
  let medication_id := "medication_" +:+ lower_replace lower medication_name in
  let properties := put_list "side_effects" side_effects (put_str "dosage" dosage ∅) in
  let '(result, g1) := add_node medication_id "medication" medication_name (Some properties) g in
  match result with
  | Raises e => (Raises e, g1)
  | _ =>
      let '(relationship_result, g2) := add_relationship patient_id medication_id "TAKES_MEDICATION" None g1 in
      (Joined result relationship_result, g2)
  end.

(** [article_id = f"article_{hash(article_title) % 10**8}"]: Python salts
    the hash of a string per process, so the hash value is an argument.
    The reply is the [add_node] reply and the article id. *)
Definition add_research_article (title_hash : Z) (article_title : string)
  (authors : option (list string)) (publication_date journal url abstract : option string)
  (keywords : option (list string)) (g : DiGraph) : (Reply * string) * DiGraph :=
  let article_id := "article_" +:+ pretty (Z.modulo title_hash (10 ^ 8)) in
  let properties :=
    put_list "keywords" keywords (put_str "abstract" abstract (put_str "url" url
      (put_str "journal" journal (put_str "publication_date" publication_date
        (put_list "authors" authors (<["title" := VStr article_title]> ∅)))))) in
  let '(result, g1) := add_node article_id "research_article" article_title (Some properties) g in
  ((result, article_id), g1).

(** [confidence] is a Python float, a rational here. *)
Definition link_article_to_condition (article_id condition_id relevance : string)
  (confidence : option Q) (g : DiGraph) : Reply * DiGraph :=
  let p := <["relevance" := VStr relevance]> ∅ in
  let properties := match confidence with Some c => <["confidence" := VFloat c]> p | None => p end in
  add_relationship article_id condition_id "STUDIES" (Some properties) g.

Definition add_clinical_trial (trial_id trial_title : string) (phase status : option string)
  (conditions interventions : option (list string)) (url : option string) (g : DiGraph)
  : Reply * DiGraph :=
  let properties :=
    put_str "url" url (put_list "interventions" interventions (put_list "conditions" conditions
      (put_str "status" status (put_str "phase" phase (<["title" := VStr trial_title]> ∅))))) in
  add_node trial_id "clinical_trial" trial_title (Some properties) g.

(** [bulk_link_articles_to_conditions]: the warnings shown are the first
    five errors, followed by the number of the others. *)
Inductive LinkReply : Type :=
| LinksAdded (result : Reply) (shown_warnings : list BulkError) (more_warnings : nat)
| NoValidLinks (errors : list BulkError).

(** One iteration of its validation loop on link [i]. *)
Definition bulk_link_step (g : DiGraph) (i : nat) (link : attrs)
  (acc : list attrs * list BulkError) : list attrs * list BulkError :=
  let '(relationships, errors) := acc in
  if negb (bool_decide (is_Some (link !! "article_id"))) then (relationships, errors ++ [MissingField i "article_id"]) else
  if negb (bool_decide (is_Some (link !! "condition_id"))) then (relationships, errors ++ [MissingField i "condition_id"]) else
  let article_id := get link "article_id" in
  let condition_id := get link "condition_id" in
  let relevance := get_default link "relevance" (VStr "related") in
  let confidence := get link "confidence" in
  match endpoint g article_id with
  | None => (relationships, errors ++ [EndpointMissing i "Article" article_id])
  | Some _ =>
      match endpoint g condition_id with
      | None => (relationships, errors ++ [EndpointMissing i "Condition" condition_id])
      | Some _ =>
          let properties := VObj ([("relevance", relevance)] ++
                                  match confidence with VNull => [] | c => [("confidence", c)] end) in
          (relationships ++ [<["source_id" := article_id]> (<["target_id" := condition_id]>
                               (<["relationship_type" := VStr "STUDIES"]> (<["properties" := properties]> ∅)))],
           errors)
      end
  end.

Fixpoint bulk_link_loop (g : DiGraph) (i : nat) (links : list attrs) (acc : list attrs * list BulkError)
  : list attrs * list BulkError :=
  match links with
  | [] => acc
  | l :: rest => bulk_link_loop g (S i) rest (bulk_link_step g i l acc)
  end.

(** Without a valid link nothing is saved; otherwise the relationships go
    through [bulk_add_relationships], which reads the same stored graph. *)
Definition bulk_link_articles_to_conditions (links : list attrs) (g : DiGraph) : LinkReply * DiGraph :=
  let '(relationships, errors) := bulk_link_loop g 0 links ([], []) in
  match relationships with
  | [] => (NoValidLinks errors, g)
  | _ :: _ =>
      let '(result, g1) := bulk_add_relationships relationships g in
      (LinksAdded result (take 5 errors) (length errors - 5), g1)
  end.

(** ** [find_related_research] *)

Record ArticleRef : Type := mkArticleRef {
  ar_id : string;
  ar_title : Value;
  ar_authors : Value;
  ar_journal : Value;
  ar_url : Value;
  ar_relevance : Value;
  ar_confidence : Value
}.

Definition article_ref (g : DiGraph) (condition_id pred : string) : ArticleRef :=
  let ed := edge_data g pred condition_id in
  let ad := node_data g pred in
  mkArticleRef pred (if truthy (get ad "title") then get ad "title" else get ad "label")
               (get ad "authors") (get ad "journal") (get ad "url")
               (get ed "relevance") (get ed "confidence").

(** The number a bool, int or float stands for. *)
Definition py_num (v : Value) : option Q :=
  match v with
  | VBool b => Some (if b then 1 # 1 else 0 # 1)
  | VInt z => Some (inject_Z z)
  | VFloat q => Some q
  | _ => None
  end.

(** Python [<] on two strings: code points in lexicographic order, which is
    the order of their UTF-8 bytes. *)
Fixpoint str_lt (s t : string) : bool :=
  match s, t with
  | EmptyString, String _ _ => true
  | String a s', String b t' =>
      if Nat.ltb (Ascii.nat_of_ascii a) (Ascii.nat_of_ascii b) then true
      else if Ascii.eqb a b then str_lt s' t' else false
  | _, _ => false
  end.

(** The last value a JSON object gives to key [k] (the one the dict keeps). *)
Definition obj_lookup (k : string) (kvs : list (string * Value)) : option Value :=
  obj_to_attrs kvs !! k.

(** Python [==] on two JSON values: numbers by value across bool, int and
    float; lists elementwise; dicts with the same keys and equal values. *)
Fixpoint py_eq (v w : Value) : bool :=
  match v, w with
  | VNull, VNull => true
  | VStr s, VStr t => String.eqb s t
  | VList l1, VList l2 =>
      (fix go (l1 l2 : list Value) : bool :=
         match l1, l2 with
         | [], [] => true
         | x :: xs, y :: ys => py_eq x y && go xs ys
         | _, _ => false
         end) l1 l2
  | VObj kvs1, VObj kvs2 =>
      forallb (fun kv => bool_decide (is_Some (obj_lookup kv.1 kvs1))) kvs2 &&
      (fix go (kvs : list (string * Value)) : bool :=
         match kvs with
         | [] => true
         | (k, x) :: rest =>
             (if existsb (fun kv => String.eqb kv.1 k) rest then true
              else match obj_lookup k kvs2 with Some y => py_eq x y | None => false end) && go rest
         end) kvs1
  | _, _ => match py_num v, py_num w with Some a, Some b => Qeq_bool a b | _, _ => false end
  end.

(** Python [<] on two JSON values; [None]: it raises [TypeError].  Numbers
    compare by value, strings by code points, lists at their first unequal
    position (by [==]) or else by length; [None], dicts and mixed kinds do
    not compare. *)
Fixpoint py_lt (v w : Value) : option bool :=
  match v, w with
  | VStr s, VStr t => Some (str_lt s t)
  | VList l1, VList l2 =>
      (fix go (l1 l2 : list Value) : option bool :=
         match l1, l2 with
         | [], [] => Some false
         | [], _ :: _ => Some true
         | _ :: _, [] => Some false
         | x :: xs, y :: ys => if py_eq x y then go xs ys else py_lt x y
         end) l1 l2
  | _, _ => match py_num v, py_num w with Some a, Some b => Some (negb (Qle_bool b a)) | _, _ => None end
  end.

(** The sort key [x.get('confidence') or 0.5]. *)
Definition confidence_key (v : Value) : Value :=
  if truthy v then v else VFloat (1 # 2).

(** [list.sort(key=k, reverse=True)] is stable: an element goes after every
    element already placed whose key is not smaller; [lt x y] is
    [k(x) < k(y)]. *)
Fixpoint insert_desc {A} (lt : A → A → bool) (x : A) (l : list A) : list A :=
  match l with
  | [] => [x]
  | y :: ys => if lt y x then x :: y :: ys else y :: insert_desc lt x ys
  end.

Definition sort_desc {A} (lt : A → A → bool) (l : list A) : list A :=
  foldl (fun acc x => insert_desc lt x acc) [] l.

(** Every two elements can be compared with [cmp] without raising. *)
Fixpoint pairwise_comparable {A} (cmp : A → A → option bool) (l : list A) : bool :=
  match l with
  | [] => true
  | x :: xs => forallb (fun y => bool_decide (is_Some (cmp x y))) xs && pairwise_comparable cmp xs
  end.

(** [lst[:n]] for a Python integer [n]. *)
Definition py_take {A} (n : Z) (l : list A) : list A :=
  if Z.leb 0 n then take (Z.to_nat n) l else take (Z.to_nat (Z.of_nat (length l) + n)) l.

Record Related : Type := mkRelated {
  rl_condition_id : string;
  rl_condition_name : Value;
  rl_articles : list ArticleRef;
  rl_total_found : nat
}.

Definition article_key (x : ArticleRef) : Value := confidence_key (ar_confidence x).

Definition article_cmp (x y : ArticleRef) : option bool := py_lt (article_key x) (article_key y).

Definition article_lt (x y : ArticleRef) : bool :=
  match article_cmp x y with Some true => true | _ => false end.

(** [None]: the sort raises [TypeError].  Python's [<] is symmetric in
    raising, and a comparison sort that never compares two incomparable
    keys cannot tell the two orders of that pair apart (numbers, strings
    and lists of them are each totally ordered), so the sort raises exactly
    when two of the keys do not compare. *)
Definition find_related_research (condition_id : string) (max_results : Z) (g : DiGraph)
  : option (Reply + Related) :=
  if Nat.eqb (number_of_nodes g) 0 then Some (inl ErrNotInitialized) else
  if negb (has_node g condition_id) then Some (inl (ErrNodeNotFound "Condition" condition_id)) else
  let articles := map (article_ref g condition_id)
                      (filter (fun p => node_type_is g p "research_article" = true)
                              (predecessors g condition_id)) in
  if negb (pairwise_comparable article_cmp articles) then None else
  Some (inr (mkRelated condition_id (get (node_data g condition_id) "label")
                       (py_take max_results (sort_desc article_lt articles)) (length articles))).

(** ** [export_graph_summary] *)

(** Equality of two hashable dictionary keys ([True == 1 == 1.0]). *)
Definition key_eq (v w : Value) : bool :=
  match v, w with
  | VNull, VNull => true
  | VStr s, VStr t => String.eqb s t
  | _, _ => match py_num v, py_num w with Some a, Some b => Qeq_bool a b | _, _ => false end
  end.

Definition hashable (v : Value) : bool :=
  match v with VList _ | VObj _ => false | _ => true end.

(** [d[k] = d.get(k, 0) + 1] on a dictionary kept in insertion order (an
    existing key keeps its first spelling). *)
Fixpoint count_key (k : Value) (d : list (Value * nat)) : list (Value * nat) :=
  match d with
  | [] => [(k, 1)]
  | (k', n) :: rest => if key_eq k' k then (k', S n) :: rest else (k', n) :: count_key k rest
  end.

(** [None]: an unhashable key raises [TypeError]. *)
Definition count_by (keys : list Value) : option (list (Value * nat)) :=
  foldl (fun acc k => match acc with
                      | Some d => if hashable k then Some (count_key k d) else None
                      | None => None
                      end) (Some []) keys.

Record Summary : Type := mkSummary {
  sm_total_nodes : nat;
  sm_total_edges : nat;
  sm_nodes_by_type : list (Value * nat);
  sm_edges_by_type : list (Value * nat);
  sm_is_directed : bool
}.

Definition export_graph_summary (g : DiGraph) : option (Reply + Summary) :=
  if Nat.eqb (number_of_nodes g) 0 then Some (inl ErrNotInitialized) else
  match count_by (map (fun na : string * attrs => get_default na.2 "node_type" (VStr "unknown"))
                      (map_to_list (g_nodes g))),
        count_by (map (fun ea : (string * string) * attrs => get_default ea.2 "relationship_type" (VStr "unknown"))
                      (edge_list g)) with
  | Some nt, Some et => Some (inr (mkSummary (number_of_nodes g) (number_of_edges g) nt et true))
  | _, _ => None
  end.

(** ** Completeness checks *)

Inductive CIssue : Type :=
| PatientMissingName
| ConditionNotLinked
| MedicationNotLinked
| ArticleNotLinked.

Inductive CSuggestion : Type :=
| PatientNoLinks
| ConditionNoIcd
| MedicationNoDosage
| ArticleNoAuthors
| ArticleNoUrl
| TrialNoPhase
| TrialNoStatus
| TrialNotLinked.

(** [v == 't'] for a JSON value [v]. *)
Definition value_is (v : Value) (t : string) : bool :=
  match v with VStr s => String.eqb s t | _ => false end.

(** The type-specific checks written out in both [check_node_completeness]
    and [bulk_check_node_completeness]; only the bulk tool has the
    [clinical_trial] branch ([with_trials]). *)
Definition type_checks (with_trials : bool) (node_type : Value) (a : attrs) (in_deg out_deg : nat)
  : list CIssue * list CSuggestion :=
  if value_is node_type "patient" then
    ((if truthy (get a "name") then [] else [PatientMissingName]),
     (if Nat.eqb out_deg 0 then [PatientNoLinks] else []))
  else if value_is node_type "condition" then
    ((if Nat.eqb in_deg 0 then [ConditionNotLinked] else []),
     (if truthy (get a "icd_code") then [] else [ConditionNoIcd]))
  else if value_is node_type "medication" then
    ((if Nat.eqb in_deg 0 then [MedicationNotLinked] else []),
     (if truthy (get a "dosage") then [] else [MedicationNoDosage]))
  else if value_is node_type "research_article" then
    ((if Nat.eqb out_deg 0 then [ArticleNotLinked] else []),
     (if truthy (get a "authors") then [] else [ArticleNoAuthors]) ++
     (if truthy (get a "url") then [] else [ArticleNoUrl]))
  else if with_trials && value_is node_type "clinical_trial" then
    ([], (if truthy (get a "phase") then [] else [TrialNoPhase]) ++
         (if truthy (get a "status") then [] else [TrialNoStatus]) ++
         (if Nat.eqb out_deg 0 then [TrialNotLinked] else []))
  else ([], []).

Record Completeness : Type := mkCompleteness {
  cp_node_id : string;
  cp_node_type : Value;
  cp_has_label : bool;
  cp_property_count : nat;
  cp_incoming_edges : nat;
  cp_outgoing_edges : nat;
  cp_issues : list CIssue;
  cp_suggestions : list CSuggestion;
  cp_is_complete : bool
}.

Definition completeness_of (with_trials : bool) (g : DiGraph) (node_id : string) : Completeness :=
  let a := node_data g node_id in
  let node_type := get_default a "node_type" (VStr "unknown") in
  let in_deg := length (in_edges g node_id) in
  let out_deg := length (out_edges g node_id) in
  let '(issues, suggestions) := type_checks with_trials node_type a in_deg out_deg in
  mkCompleteness node_id node_type (truthy (get a "label")) (size a) in_deg out_deg
                 issues suggestions (Nat.eqb (length issues) 0).

Definition check_node_completeness (node_id : string) (g : DiGraph) : Reply + Completeness :=
  if Nat.eqb (number_of_nodes g) 0 then inl ErrNotInitialized else
  if negb (has_node g node_id) then inl (ErrNodeNotFound "Node" node_id) else
  inr (completeness_of false g node_id).

(** An entry of the ["nodes"] list of [bulk_check_node_completeness]. *)
Inductive CheckEntry : Type :=
| EntryNotFound (node_id : string)
| EntryChecked (label : Value) (c : Completeness).

Record CheckSummary : Type := mkCheckSummary {
  cs_total_checked : nat;
  cs_complete_nodes : nat;
  cs_nodes_with_issues : nat;
  cs_nodes_with_suggestions : nat;
  cs_issues_by_type : list (Value * nat);
  cs_suggestions_by_type : list (Value * nat)
}.

Definition bulk_check_step (g : DiGraph) (acc : CheckSummary * list CheckEntry) (node_id : string)
  : CheckSummary * list CheckEntry :=
  let '(s, results) := acc in
  if negb (has_node g node_id) then (s, results ++ [EntryNotFound node_id]) else
  let c := completeness_of true g node_id in
  let s1 := mkCheckSummary (S (cs_total_checked s))
              (if cp_is_complete c then S (cs_complete_nodes s) else cs_complete_nodes s)
              (match cp_issues c with [] => cs_nodes_with_issues s | _ => S (cs_nodes_with_issues s) end)
              (match cp_suggestions c with [] => cs_nodes_with_suggestions s | _ => S (cs_nodes_with_suggestions s) end)
              (match cp_issues c with [] => cs_issues_by_type s | _ => count_key (cp_node_type c) (cs_issues_by_type s) end)
              (match cp_suggestions c with [] => cs_suggestions_by_type s
                                         | _ => count_key (cp_node_type c) (cs_suggestions_by_type s) end) in
  (s1, results ++ [EntryChecked (get (node_data g node_id) "label") c]).

(** The argument [node_ids] is called [node_id_list] here: [node_ids] is
    the list of the graph's nodes. *)
Definition nodes_to_check (node_id_list : option (list string)) (node_type_filter : option string)
  (g : DiGraph) : list string :=
  match node_id_list, node_type_filter with
  | Some l, _ => l
  | None, Some t => filter (fun n => node_type_is g n t = true) (node_ids g)
  | None, None => node_ids g
  end.

Definition bulk_check_node_completeness (node_id_list : option (list string)) (node_type_filter : option string)
  (g : DiGraph) : Reply + (CheckSummary * list CheckEntry) :=
  if Nat.eqb (number_of_nodes g) 0 then inl ErrNotInitialized else
  inr (foldl (bulk_check_step g) (mkCheckSummary 0 0 0 0 [] [], [])
             (nodes_to_check node_id_list node_type_filter g)).

(** ** Listing and relationship queries *)

Record NodeListing : Type := mkNodeListing {
  nl_node_type : string;
  nl_count : nat;
  nl_nodes : list (string * Value * attrs)
}.

Definition list_all_nodes_by_type (node_type : string) (g : DiGraph) : Reply + NodeListing :=
  if Nat.eqb (number_of_nodes g) 0 then inl ErrNotInitialized else
  let ns := filter (fun n => node_type_is g n node_type = true) (node_ids g) in
  inr (mkNodeListing node_type (length ns)
         (map (fun n => (n, get (node_data g n) "label",
                         filter (fun kv : string * Value => kv.1 ≠ "node_type" ∧ kv.1 ≠ "label") (node_data g n)))
              ns)).

Record RelEntry : Type := mkRelEntry {
  re_other : string;
  re_label : Value;
  re_type : Value;
  re_relationship : Value;
  re_properties : attrs
}.

Record NodeRels : Type := mkNodeRels {
  nr_node_id : string;
  nr_node_label : Value;
  nr_node_type : Value;
  nr_incoming : list RelEntry;
  nr_outgoing : list RelEntry;
  nr_total_incoming : nat;
  nr_total_outgoing : nat
}.

Definition rel_entry (g : DiGraph) (other : string) (ed : attrs) : RelEntry :=
  mkRelEntry other (get (node_data g other) "label") (get (node_data g other) "node_type")
             (get ed "relationship_type") (delete "relationship_type" ed).

Definition get_node_relationships (node_id : string) (g : DiGraph) : Reply + NodeRels :=
  if Nat.eqb (number_of_nodes g) 0 then inl ErrNotInitialized else
  if negb (has_node g node_id) then inl (ErrNodeNotFound "Node" node_id) else
  let incoming := map (fun p => rel_entry g p (edge_data g p node_id)) (predecessors g node_id) in
  let outgoing := map (fun s => rel_entry g s (edge_data g node_id s)) (successors g node_id) in
  inr (mkNodeRels node_id (get (node_data g node_id) "label") (get (node_data g node_id) "node_type")
                  incoming outgoing (length incoming) (length outgoing)).

(** ** [export_graph_as_cytoscape_json] *)

(** [{"id": n, "label": ..., "type": ..., **rest}]: a key of [rest] wins. *)
Definition cyto_node (n : string) (a : attrs) : attrs :=
  filter (fun kv : string * Value => kv.1 ≠ "label" ∧ kv.1 ≠ "node_type") a ∪
  <["id" := VStr n]> (<["label" := get_default a "label" (VStr n)]>
    (<["type" := get_default a "node_type" (VStr "unknown")]> ∅)).

Definition cyto_edge (i : nat) (u v : string) (a : attrs) : attrs :=
  delete "relationship_type" a ∪
  <["id" := VStr ("edge_" +:+ pretty i)]> (<["source" := VStr u]> (<["target" := VStr v]>
    (<["label" := get_default a "relationship_type" (VStr "")]> ∅))).

(** The ["elements"] document written to the file (path and timestamp
    not modelled). *)
Definition export_graph_as_cytoscape_json (g : DiGraph) : Reply + (list attrs * list attrs) :=
  if Nat.eqb (number_of_nodes g) 0 then inl ErrNotInitialized else
  inr (map (fun na : string * attrs => cyto_node na.1 na.2) (map_to_list (g_nodes g)),
       imap (fun i (ea : (string * string) * attrs) => cyto_edge i ea.1.1 ea.1.2 ea.2) (edge_list g)).

(** ** Auxiliary notions for the statements below *)

(** [x] may come before [y] in a list [sort(reverse=True)] leaves, [lt]
    being the comparison of the keys: [y]'s key is not greater. *)
Definition desc_rel {A} (lt : A → A → bool) (x y : A) : Prop := lt x y = false.

(** An entry [bulk_add_relationships] accepts on a graph with nodes [N]. *)
Definition rel_entry_ok (N : gmap string attrs) (rd : attrs) : Prop :=
  ∃ s t kvs, rd !! "source_id" = Some (VStr s) ∧ rd !! "target_id" = Some (VStr t) ∧
    is_Some (N !! s) ∧ is_Some (N !! t) ∧ is_Some (rd !! "relationship_type") ∧
    rd !! "properties" = Some (VObj kvs) ∧ kwargs_clash add_edge_params (obj_to_attrs kvs) = false.

Definition entry_checked (e : CheckEntry) : bool :=
  match e with EntryChecked _ _ => true | EntryNotFound _ => false end.

(** ** Invariants of the graphs the tools see *)

(** Every edge joins two nodes. *)
Definition wf (g : DiGraph) : Prop :=
  ∀ u v a, g_edges g !! (u, v) = Some a → is_Some (g_nodes g !! u) ∧ is_Some (g_nodes g !! v).

(** No node dictionary holds ["id"] and no edge dictionary holds ["source"]
    or ["target"]: the keys node-link serialisation reserves. *)
Definition stripped (g : DiGraph) : Prop :=
  (∀ n a, g_nodes g !! n = Some a → a !! "id" = None) ∧
  (∀ e a, g_edges g !! e = Some a → a !! "source" = None ∧ a !! "target" = None).

Definition strip_edge (a : attrs) : attrs := delete "target" (delete "source" a).

Definition strip (g : DiGraph) : DiGraph :=
  mkDiGraph (delete "id" <$> g_nodes g) (strip_edge <$> g_edges g).

Definition graph_ok (g : DiGraph) : Prop := wf g ∧ stripped g.

(** A boolean check of [graph_ok], to run on concrete graphs. *)
Definition graph_ok_b (g : DiGraph) : bool :=
  forallb (fun kv : (string * string) * attrs => has_node g kv.1.1 && has_node g kv.1.2)
          (map_to_list (g_edges g)) &&
  forallb (fun kv : string * attrs => bool_decide (kv.2 !! "id" = None)) (map_to_list (g_nodes g)) &&
  forallb (fun kv : (string * string) * attrs =>
             bool_decide (kv.2 !! "source" = None ∧ kv.2 !! "target" = None))
          (map_to_list (g_edges g)).

(** ** Sample graphs, built with the tools *)

(** [initialize_patient_graph("P1", "Alice")] *)
Definition g_alice : DiGraph := snd (initialize_patient_graph "P1" "Alice" empty_graph).

(** ... then a condition [C1] linked with [HAS_CONDITION]. *)
Definition g_hyp : DiGraph :=
  snd (add_relationship "P1" "C1" "HAS_CONDITION" None
         (snd (add_node "C1" "condition" "Hypertension" None g_alice))).

(** ... then a self-loop on [C1]. *)
Definition g_loop : DiGraph := snd (add_relationship "C1" "C1" "RELATED_TO" None g_hyp).

(** ... [g_hyp] with a second condition [C2] of [P1] and one research
    article [A1] studying both conditions. *)
Definition g_art : DiGraph :=
  let g1 := snd (add_node "C2" "condition" "Diabetes" None g_hyp) in
  let g2 := snd (add_relationship "P1" "C2" "HAS_CONDITION" None g1) in
  let g3 := snd (add_node "A1" "research_article" "Study" None g2) in
  let g4 := snd (add_relationship "A1" "C1" "STUDIES" None g3) in
  snd (add_relationship "A1" "C2" "STUDIES" None g4).

(** ... [g_hyp] with an isolated symptom node [S1]. *)
Definition g_orphan : DiGraph := snd (add_node "S1" "symptom" "Fatigue" None g_hyp).

(** ... [g_hyp] with articles [A1] (behind [C1]) and [A2] (linked to [P1]),
    a trial [T1] behind [C1], and an article [A3] that points to [C1] but
    cannot be reached from [P1]. *)
Definition g_depth : DiGraph :=
  let g1 := snd (add_node "A1" "research_article" "Study 1" None g_hyp) in
  let g2 := snd (add_relationship "C1" "A1" "RELATED_TO" None g1) in
  let g3 := snd (add_node "A2" "research_article" "Study 2" None g2) in
  let g4 := snd (add_relationship "P1" "A2" "RELATED_TO" None g3) in
  let g5 := snd (add_node "T1" "clinical_trial" "Trial 1" None g4) in
  let g6 := snd (add_relationship "C1" "T1" "RELATED_TO" None g5) in
  let g7 := snd (add_node "A3" "research_article" "Study 3" None g6) in
  snd (add_relationship "A3" "C1" "STUDIES" None g7).





(** ** Node ids of any hashable type: [bulk_add_nodes]

    Every tool but [bulk_add_nodes] receives its node ids as parameters
    declared [str].  [bulk_add_nodes] passes the ["node_id"] of each entry
    to [graph.add_node] as it is, and NetworkX accepts any hashable value
    there: a string, a number or a boolean of a JSON entry; [None] raises
    [ValueError], a list or an object [TypeError] (unhashable).  A Python
    dict identifies numbers of equal value, [True] with [1] and [False] with
    [0].  This module models the session graph with such ids, for
    [bulk_add_nodes]; a graph of the model above, whose ids are strings,
    is read into it by [of_graph]. *)
Module AnyIds.

(** A dictionary key: a string, or a number as a reduced fraction. *)
Inductive NodeKey : Type :=
| KStr (s : string)
| KNum (num : Z) (den : positive).

#[global] Instance NodeKey_eq_dec : EqDecision NodeKey.
Proof. solve_decision. Defined.

#[global] Instance NodeKey_countable : Countable NodeKey.
Proof.
  refine (inj_countable' (fun k => match k with KStr s => inl s | KNum n d => inr (n, d) end)
                         (fun x => match x with inl s => KStr s | inr (n, d) => KNum n d end) _).
  by intros [].
Defined.

#[global] Instance KStr_inj : Inj (=) (=) KStr.
Proof. by intros ? ? [=]. Qed.

Definition num_key (q : Q) : NodeKey := let r := Qred q in KNum (Qnum r) (Qden r).

(** The key a node id stands for in the graph's dictionaries, or [None]
    where [graph.add_node] raises. *)
Definition py_key (v : Value) : option NodeKey :=
  match v with
  | VStr s => Some (KStr s)
  | VInt z => Some (num_key (inject_Z z))
  | VFloat q => Some (num_key q)
  | VBool b => Some (num_key (if b then 1 else 0))
  | VNull | VList _ | VObj _ => None
  end.

(** The id [node_link_data] writes for a key.  NetworkX writes the id the
    node was first added with ([1], [1.0] or [True]); the model writes the
    integer or the fraction.  Both are read back as the same key. *)
Definition key_value (k : NodeKey) : Value :=
  match k with
  | KStr s => VStr s
  | KNum n xH => VInt n
  | KNum n d => VFloat (n # d)
  end.

Record Graph : Type := mkGraph {
  h_nodes : gmap NodeKey attrs;
  h_edges : gmap (NodeKey * NodeKey) attrs
}.

Definition empty_graph : Graph := mkGraph ∅ ∅.

(** A graph of the string-id model. *)
Definition of_graph (g : DiGraph) : Graph :=
  mkGraph (kmap KStr (g_nodes g)) (kmap (prod_map KStr KStr) (g_edges g)).

Definition number_of_nodes (g : Graph) : nat := size (h_nodes g).

Definition node_data (g : Graph) (n : NodeKey) : attrs :=
  match h_nodes g !! n with Some a => a | None => ∅ end.

(** [G.add_node(n, **attr)] *)
Definition add_node_nx (n : NodeKey) (attr : attrs) (g : Graph) : Graph :=
  mkGraph (<[n := attr ∪ node_data g n]> (h_nodes g)) (h_edges g).

(** [G.add_edge(u, v, **attr)] *)
Definition add_edge_nx (u v : NodeKey) (attr : attrs) (g : Graph) : Graph :=
  let ns1 := match h_nodes g !! u with Some _ => h_nodes g | None => <[u := ∅]> (h_nodes g) end in
  let ns2 := match ns1 !! v with Some _ => ns1 | None => <[v := ∅]> ns1 end in
  let old := match h_edges g !! (u, v) with Some a => a | None => ∅ end in
  mkGraph ns2 (<[(u, v) := attr ∪ old]> (h_edges g)).

(** [{**G.nodes[n], "id": n}] *)
Definition node_entry (n : NodeKey) (a : attrs) : Value :=
  VObj (map_to_list (<["id" := key_value n]> a)).

(** [{**d, "source": u, "target": v}] *)
Definition link_entry (u v : NodeKey) (a : attrs) : Value :=
  VObj (map_to_list (<["target" := key_value v]> (<["source" := key_value u]> a))).

Definition node_link_data (edges : string) (g : Graph) : Value :=
  VObj [("directed", VBool true); ("multigraph", VBool false); ("graph", VObj []);
        ("nodes", VList (map (fun na => node_entry na.1 na.2) (map_to_list (h_nodes g))));
        (edges, VList (map (fun ea => link_entry ea.1.1 ea.1.2 ea.2) (map_to_list (h_edges g))))].

(** One entry of ["nodes"]: [graph.add_node(d["id"])] and then the node
    dictionary is updated with every key of [d] but ["id"].  An entry
    without ["id"] (NetworkX numbers it) or with a list id (NetworkX makes
    it a tuple) is never written by [node_link_data]; the model gives
    [None] for it, as for an id [add_node] refuses. *)
Definition load_node (og : option Graph) (d : Value) : option Graph :=
  match og, d with
  | Some g, VObj kvs =>
      let a := obj_to_attrs kvs in
      match a !! "id" with
      | Some x =>
          match py_key x with
          | Some n => Some (add_node_nx n (delete "id" a) g)
          | None => None
          end
      | None => None
      end
  | _, _ => None
  end.

(** One entry of the edge list: [graph.add_edge(d["source"], d["target"], **rest)]. *)
Definition load_link (og : option Graph) (d : Value) : option Graph :=
  match og, d with
  | Some g, VObj kvs =>
      let a := obj_to_attrs kvs in
      match a !! "source", a !! "target" with
      | Some x, Some y =>
          match py_key x, py_key y with
          | Some u, Some v => Some (add_edge_nx u v (delete "target" (delete "source" a)) g)
          | _, _ => None
          end
      | _, _ => None
      end
  | _, _ => None
  end.

(** [nx.node_link_graph(data, directed=True, edges=edges)] *)
Definition node_link_graph (edges : string) (data : Value) : option Graph :=
  match data with
  | VObj top =>
      let m := obj_to_attrs top in
      match m !! "nodes", m !! edges with
      | Some (VList ns), Some (VList ls) => foldl load_link (foldl load_node (Some empty_graph) ns) ls
      | _, _ => None
      end
  | _ => None
  end.

(** [_save_graph] followed by the next call's [_get_graph]. *)
Definition save_graph (g : Graph) : Graph :=
  match node_link_graph "links" (node_link_data "links" g) with
  | Some g' => g'
  | None => g
  end.

(** One iteration of the loop of [bulk_add_nodes] on entry [i].  The
    [added] list holds the entry's ["node_id"] (the reply shows it after
    the type and the label).  [attrs.update(properties)] runs before
    [graph.add_node]; either may raise, and both exceptions are caught. *)
Definition bulk_node_step (i : nat) (node_data : attrs)
  (acc : list Value * list BulkError * Graph) : list Value * list BulkError * Graph :=
  let '(added, errors, g) := acc in
  if negb (bool_decide (is_Some (node_data !! "node_id"))) then (added, errors ++ [MissingField i "node_id"], g) else
  if negb (bool_decide (is_Some (node_data !! "node_type"))) then (added, errors ++ [MissingField i "node_type"], g) else
  if negb (bool_decide (is_Some (node_data !! "label"))) then (added, errors ++ [MissingField i "label"], g) else
  let node_id := get node_data "node_id" in
  let node_type := get node_data "node_type" in
  let label := get node_data "label" in
  let properties := get_default node_data "properties" (VObj []) in
  let base := <["node_type" := node_type]> (<["label" := label]> ∅) in
  match update_with base properties with
  | None => (added, errors ++ [Raised i], g)
  | Some a =>
      match py_key node_id with
      | None => (added, errors ++ [Raised i], g)
      | Some n =>
          if kwargs_clash add_node_params a then (added, errors ++ [Raised i], g)
          else (added ++ [node_id], errors, add_node_nx n a g)
      end
  end.

Fixpoint bulk_nodes_loop (i : nat) (nodes : list attrs) (acc : list Value * list BulkError * Graph)
  : list Value * list BulkError * Graph :=
  match nodes with
  | [] => acc
  | nd :: rest => bulk_nodes_loop (S i) rest (bulk_node_step i nd acc)
  end.

(** The reply: the not-initialized error, or the added ids and the
    errors. *)
Definition bulk_add_nodes (nodes : list attrs) (g : Graph)
  : (Reply + (list Value * list BulkError)) * Graph :=
  if Nat.eqb (number_of_nodes g) 0 then (inl ErrNotInitialized, g) else
  let '(added, errors, g1) := bulk_nodes_loop 0 nodes ([], [], g) in
  (inr (added, errors), save_graph g1).

(** Every edge joins two nodes. *)
Definition wf (g : Graph) : Prop :=
  ∀ u v a, h_edges g !! (u, v) = Some a → is_Some (h_nodes g !! u) ∧ is_Some (h_nodes g !! v).

(** No node dictionary holds ["id"] and no edge dictionary holds
    ["source"] or ["target"]. *)
Definition stripped (g : Graph) : Prop :=
  (∀ n a, h_nodes g !! n = Some a → a !! "id" = None) ∧
  (∀ e a, h_edges g !! e = Some a → a !! "source" = None ∧ a !! "target" = None).

(** Every key is the key of the id written for it. *)
Definition keys_ok (g : Graph) : Prop :=
  ∀ n a, h_nodes g !! n = Some a → py_key (key_value n) = Some n.

Definition strip (g : Graph) : Graph :=
  mkGraph (delete "id" <$> h_nodes g) (strip_edge <$> h_edges g).

Definition graph_ok (g : Graph) : Prop := wf g ∧ stripped g ∧ keys_ok g.

(** A boolean check of [graph_ok], to run on concrete graphs. *)
Definition graph_ok_b (g : Graph) : bool :=
  forallb (fun kv : (NodeKey * NodeKey) * attrs =>
             bool_decide (is_Some (h_nodes g !! kv.1.1)) && bool_decide (is_Some (h_nodes g !! kv.1.2)))
          (map_to_list (h_edges g)) &&
  forallb (fun kv : NodeKey * attrs =>
             bool_decide (kv.2 !! "id" = None) && bool_decide (py_key (key_value kv.1) = Some kv.1))
          (map_to_list (h_nodes g)) &&
  forallb (fun kv : (NodeKey * NodeKey) * attrs =>
             bool_decide (kv.2 !! "source" = None ∧ kv.2 !! "target" = None))
          (map_to_list (h_edges g)).

End AnyIds.

Section NodeLink.

Lemma foldl_insert_list (l : list (string * Value)) (m0 : attrs) :
  NoDup l.*1 → foldl (fun m kv => <[kv.1 := kv.2]> m) m0 l = list_to_map l ∪ m0.
Proof.
  revert m0. induction l as [|[k v] l IH]; intros m0 Hnd; simpl.
  - by rewrite map_empty_union.
  - apply NoDup_cons in Hnd as [Hk Hnd].
    rewrite IH by done. rewrite <- insert_union_r.
    + by rewrite insert_union_l.
    + by apply not_elem_of_list_to_map_1.
Qed.

Lemma obj_to_attrs_map_to_list (a : attrs) : obj_to_attrs (map_to_list a) = a.
Proof.
  unfold obj_to_attrs. rewrite foldl_insert_list by apply NoDup_fst_map_to_list.
  by rewrite list_to_map_to_list, map_union_empty.
Qed.

Lemma load_node_entry (g : DiGraph) (n : string) (a : attrs) :
  load_node (Some g) (node_entry n a) = Some (add_node_nx n (delete "id" a) g).
Proof.
  unfold load_node, node_entry.
  rewrite obj_to_attrs_map_to_list, lookup_insert_eq, delete_insert_eq. done.
Qed.

Lemma fst_prod_map_id {A B C} (f : B → C) (l : list (A * B)) : (prod_map id f <$> l).*1 = l.*1.
Proof. induction l as [|[x y] l IH]; [done|]. rewrite !fmap_cons. simpl. by rewrite IH. Qed.

Lemma load_nodes_fold (l : list (string * attrs)) (g0 : DiGraph) :
  NoDup l.*1 → (∀ n a, (n, a) ∈ l → g_nodes g0 !! n = None) →
  foldl load_node (Some g0) (map (fun na => node_entry na.1 na.2) l)
  = Some (mkDiGraph (list_to_map (prod_map id (delete "id") <$> l) ∪ g_nodes g0) (g_edges g0)).
Proof.
  revert g0. induction l as [|[n a] l IH]; intros g0 Hnd Hfresh.
  - simpl. rewrite map_empty_union. by destruct g0.
  - rewrite fmap_cons in Hnd. apply NoDup_cons in Hnd as [Hn Hnd]. cbn [fst] in Hn.
    cbn [foldl map fst snd]. rewrite load_node_entry.
    rewrite IH; [| done |].
    + unfold add_node_nx, node_data. cbn [g_nodes g_edges].
      rewrite (Hfresh n a) by (left; done). rewrite map_union_empty.
      rewrite fmap_cons. cbn [prod_map fst snd id list_to_map foldr].
      f_equal. f_equal. rewrite <- insert_union_r; [by rewrite insert_union_l |].
      apply not_elem_of_list_to_map_1. by rewrite fst_prod_map_id.
    + intros n' a' Hin. unfold add_node_nx. cbn [g_nodes]. rewrite lookup_insert_ne.
      * eapply Hfresh. right. exact Hin.
      * intros ->. apply Hn. apply list_elem_of_fmap. exists (n', a'). by split.
Qed.

Lemma load_link_entry (g : DiGraph) (u v : string) (a : attrs) :
  load_link (Some g) (link_entry u v a) = Some (add_edge_nx u v (strip_edge a) g).
Proof.
  unfold load_link, link_entry. rewrite obj_to_attrs_map_to_list.
  rewrite (lookup_insert_ne _ "target" "source") by done. rewrite !lookup_insert_eq.
  do 2 f_equal. unfold strip_edge.
  rewrite (delete_insert_ne _ "source" "target") by done.
  by rewrite !delete_insert_eq.
Qed.

Lemma load_links_fold (l : list ((string * string) * attrs)) (g0 : DiGraph) :
  NoDup l.*1 →
  (∀ e a, (e, a) ∈ l → g_edges g0 !! e = None ∧ is_Some (g_nodes g0 !! e.1) ∧ is_Some (g_nodes g0 !! e.2)) →
  foldl load_link (Some g0) (map (fun ea => link_entry ea.1.1 ea.1.2 ea.2) l)
  = Some (mkDiGraph (g_nodes g0) (list_to_map (prod_map id strip_edge <$> l) ∪ g_edges g0)).
Proof.
  revert g0. induction l as [|[[u v] a] l IH]; intros g0 Hnd Hok.
  - simpl. rewrite map_empty_union. by destruct g0.
  - rewrite fmap_cons in Hnd. apply NoDup_cons in Hnd as [Hn Hnd]. cbn [fst] in Hn.
    cbn [foldl map fst snd]. rewrite load_link_entry.
    destruct (Hok (u, v) a) as (He & [x Hu] & [y Hv]); [by left|]. cbn [fst snd] in *.
    assert (Hadd : add_edge_nx u v (strip_edge a) g0
                   = mkDiGraph (g_nodes g0) (<[(u, v) := strip_edge a]> (g_edges g0))).
    { unfold add_edge_nx. rewrite Hu, Hv, He. by rewrite map_union_empty. }
    rewrite Hadd, IH; [| done |].
    + cbn [g_nodes g_edges]. rewrite fmap_cons. cbn [prod_map fst snd id list_to_map foldr].
      f_equal. f_equal. rewrite <- insert_union_r; [by rewrite insert_union_l |].
      apply not_elem_of_list_to_map_1. by rewrite fst_prod_map_id.
    + intros e' a' Hin. cbn [g_nodes g_edges].
      destruct (Hok e' a') as (He' & Hu' & Hv'); [by right|].
      repeat split; [| done | done].
      rewrite lookup_insert_ne; [done|].
      intros <-. apply Hn. apply list_elem_of_fmap. exists ((u, v), a'). by split.
Qed.

(** Deserialising a serialised graph gives it back with the reserved keys
    removed. *)
Lemma node_link_graph_data (edges : string) (g : DiGraph) :
  edges ≠ "nodes" → wf g → node_link_graph edges (node_link_data edges g) = Some (strip g).
Proof.
  intros Hk Hwf. unfold node_link_graph, node_link_data, obj_to_attrs. cbn [foldl fst snd].
  rewrite (lookup_insert_ne _ edges "nodes") by done. rewrite lookup_insert_eq.
  rewrite lookup_insert_eq.
  rewrite load_nodes_fold; [| apply NoDup_fst_map_to_list | intros; apply lookup_empty].
  rewrite load_links_fold.
  - unfold strip. cbn [g_nodes g_edges empty_graph].
    rewrite !map_union_empty, !list_to_map_fmap, !list_to_map_to_list. done.
  - apply NoDup_fst_map_to_list.
  - intros [u v] a Hin. apply elem_of_map_to_list in Hin.
    cbn [g_nodes g_edges empty_graph fst snd]. rewrite map_union_empty.
    rewrite list_to_map_fmap, list_to_map_to_list, !lookup_fmap.
    destruct (Hwf u v a Hin) as [[x Hx] [y Hy]].
    rewrite Hx, Hy. split; [apply lookup_empty|]. split; eexists; done.
Qed.

Lemma save_graph_wf (g : DiGraph) : wf g → save_graph g = strip g.
Proof. intros Hwf. unfold save_graph. by rewrite node_link_graph_data. Qed.

Lemma strip_stripped (g : DiGraph) : stripped g → strip g = g.
Proof.
  intros [Hn He]. destruct g as [ns es]. unfold strip. cbn [g_nodes g_edges] in *. f_equal.
  - apply map_eq. intros n. rewrite lookup_fmap. destruct (ns !! n) as [a|] eqn:E; [|done].
    cbn. f_equal. apply delete_id. by apply (Hn n).
  - apply map_eq. intros e. rewrite lookup_fmap. destruct (es !! e) as [a|] eqn:E; [|done].
    cbn. f_equal. unfold strip_edge. destruct (He e a E) as [Hs Ht].
    rewrite (delete_id a "source") by done. by apply delete_id.
Qed.

End NodeLink.

Section Invariants.

Lemma save_graph_ok (g : DiGraph) : graph_ok g → save_graph g = g.
Proof. intros [Hwf Hs]. rewrite save_graph_wf by done. by apply strip_stripped. Qed.

Lemma add_edge_nx_nodes (u v : string) (a : attrs) (g : DiGraph) (n : string) :
  g_nodes (add_edge_nx u v a g) !! n =
  match g_nodes g !! n with
  | Some x => Some x
  | None => if decide (n = u ∨ n = v) then Some ∅ else None
  end.
Proof.
  unfold add_edge_nx. cbn [g_nodes].
  destruct (g_nodes g !! u) as [xu|] eqn:Eu;
  [destruct (g_nodes g !! v) as [xv|] eqn:Ev|];
  repeat first [ rewrite lookup_insert_ne by congruence | rewrite Eu | rewrite Ev ]; simpl.
  - destruct (g_nodes g !! n) eqn:En; [done|]. case_decide as Hd; [|done].
    destruct Hd; subst; congruence.
  - destruct (decide (v = n)) as [-> | Hne].
    + rewrite lookup_insert_eq, Ev. case_decide; [done|tauto].
    + rewrite lookup_insert_ne by done. destruct (g_nodes g !! n) eqn:En; [done|].
      case_decide as Hd; [|done]. destruct Hd; subst; congruence.
  - destruct ((<[u:=∅]> (g_nodes g)) !! v) as [xv|] eqn:Ev.
    + destruct (decide (u = n)) as [-> | Hne].
      * rewrite lookup_insert_eq, Eu. case_decide; [done|tauto].
      * rewrite lookup_insert_ne by done. destruct (g_nodes g !! n) eqn:En; [done|].
        case_decide as Hd; [|done]. destruct Hd as [-> | ->]; [congruence|].
        rewrite lookup_insert_ne in Ev by done. congruence.
    + destruct (decide (v = n)) as [-> | Hne].
      * rewrite lookup_insert_eq. rewrite lookup_insert_ne in Ev by (intros ->; rewrite lookup_insert_eq in Ev; congruence).
        rewrite Ev. case_decide; [done|tauto].
      * rewrite lookup_insert_ne by done.
        destruct (decide (u = n)) as [-> | Hne'].
        { rewrite lookup_insert_eq, Eu. case_decide; [done|tauto]. }
        rewrite lookup_insert_ne by done. destruct (g_nodes g !! n) eqn:En; [done|].
        case_decide as Hd; [|done]. destruct Hd; congruence.
Qed.

Lemma add_edge_nx_edges (u v : string) (a : attrs) (g : DiGraph) :
  g_edges (add_edge_nx u v a g) = <[(u, v) := a ∪ edge_data g u v]> (g_edges g).
Proof. done. Qed.

Lemma add_edge_nx_keeps_node (u v : string) (a : attrs) (g : DiGraph) (n : string) (x : attrs) :
  g_nodes g !! n = Some x → g_nodes (add_edge_nx u v a g) !! n = Some x.
Proof. intros H. by rewrite add_edge_nx_nodes, H. Qed.

Lemma add_edge_nx_ok (u v : string) (a : attrs) (g : DiGraph) :
  graph_ok g → a !! "source" = None → a !! "target" = None → graph_ok (add_edge_nx u v a g).
Proof.
  intros [Hwf [Hsn Hse]] Hs Ht. split; [|split].
  - intros u' v' a' H. rewrite add_edge_nx_edges in H. rewrite !add_edge_nx_nodes.
    destruct (decide ((u, v) = (u', v'))) as [Heq|Hne].
    + injection Heq as <- <-.
      split; (destruct (g_nodes g !! _); [done|]); (case_decide; [done|tauto]).
    + rewrite lookup_insert_ne in H by done. destruct (Hwf u' v' a' H) as [[x Hx] [y Hy]].
      rewrite Hx, Hy. split; eexists; done.
  - intros n a' H. rewrite add_edge_nx_nodes in H.
    destruct (g_nodes g !! n) eqn:E.
    + injection H as <-. by apply (Hsn n).
    + case_decide; [|done]. injection H as <-. apply lookup_empty.
  - intros e a' H. rewrite add_edge_nx_edges in H.
    destruct (decide ((u, v) = e)) as [<- | Hne].
    + rewrite lookup_insert_eq in H. injection H as <-. unfold edge_data.
      destruct (g_edges g !! (u, v)) as [o|] eqn:Eo.
      * destruct (Hse _ _ Eo) as [Ho1 Ho2].
        rewrite !lookup_union, Hs, Ht, Ho1, Ho2. done.
      * rewrite !lookup_union, Hs, Ht, !lookup_empty. done.
    + rewrite lookup_insert_ne in H by done. by apply (Hse e).
Qed.

Lemma add_node_nx_ok (n : string) (a : attrs) (g : DiGraph) :
  graph_ok g → a !! "id" = None → graph_ok (add_node_nx n a g).
Proof.
  intros [Hwf [Hsn Hse]] Ha. split; [|split].
  - intros u v a' H. cbn in H. destruct (Hwf u v a' H) as [[x Hx] [y Hy]]. cbn.
    split.
    + destruct (decide (n = u)) as [-> | ?];
        [rewrite lookup_insert_eq; eexists; done | rewrite lookup_insert_ne by done; eexists; done].
    + destruct (decide (n = v)) as [-> | ?];
        [rewrite lookup_insert_eq; eexists; done | rewrite lookup_insert_ne by done; eexists; done].
  - intros m a' H. cbn in H. destruct (decide (n = m)) as [-> | Hne].
    + rewrite lookup_insert_eq in H. injection H as <-. rewrite lookup_union, Ha.
      unfold node_data. destruct (g_nodes g !! m) as [b|] eqn:E.
      * rewrite (Hsn m b E). done.
      * rewrite lookup_empty. done.
    + rewrite lookup_insert_ne in H by done. by apply (Hsn m).
  - done.
Qed.

Lemma remove_node_nx_ok (n : string) (g : DiGraph) : graph_ok g → graph_ok (remove_node_nx n g).
Proof.
  intros [Hwf [Hsn Hse]]. split; [|split].
  - intros u v a H. cbn in H. apply map_lookup_filter_Some in H as [H [Hu Hv]]. cbn in Hu, Hv.
    destruct (Hwf u v a H) as [Hx Hy]. cbn. rewrite !lookup_delete_ne by done. done.
  - intros m a H. cbn in H. destruct (decide (n = m)) as [-> | Hne].
    + by rewrite lookup_delete_eq in H.
    + rewrite lookup_delete_ne in H by done. by apply (Hsn m).
  - intros e a H. cbn in H. apply map_lookup_filter_Some in H as [H _]. by apply (Hse e).
Qed.

Lemma remove_edge_nx_ok (u v : string) (g : DiGraph) : graph_ok g → graph_ok (remove_edge_nx u v g).
Proof.
  intros [Hwf [Hsn Hse]]. split; [|split].
  - intros u' v' a H. cbn in H. apply lookup_delete_Some in H as [_ H]. by apply (Hwf u' v' a).
  - done.
  - intros e a H. cbn in H. apply lookup_delete_Some in H as [_ H]. by apply (Hse e).
Qed.

Lemma empty_graph_ok : graph_ok empty_graph.
Proof.
  split; [|split].
  - intros u v a H. cbn in H. by rewrite lookup_empty in H.
  - intros n a H. cbn in H. by rewrite lookup_empty in H.
  - intros e a H. cbn in H. by rewrite lookup_empty in H.
Qed.

End Invariants.

Section StateGraphs.

Lemma foldl_option_preserve {A} (f : option DiGraph → A → option DiGraph) (P : DiGraph → Prop) :
  (∀ og x g, (∀ g0, og = Some g0 → P g0) → f og x = Some g → P g) →
  ∀ (l : list A) og g, (∀ g0, og = Some g0 → P g0) → foldl f og l = Some g → P g.
Proof.
  intros Hstep l. induction l as [|x l IH]; intros og g Hog Hf; simpl in Hf.
  - by apply Hog.
  - apply (IH (f og x) g); [| done]. intros g0 Hg0. by apply (Hstep og x g0).
Qed.

Lemma load_node_ok : ∀ og x g, (∀ g0, og = Some g0 → graph_ok g0) → load_node og x = Some g → graph_ok g.
Proof.
  intros og x g Hog H. destruct og as [g0|], x; try discriminate. cbn [load_node] in H.
  destruct (obj_to_attrs kvs !! "id") as [[]|]; try discriminate.
  injection H as <-. apply add_node_nx_ok; [by apply Hog|]. apply lookup_delete_eq.
Qed.

Lemma load_link_ok : ∀ og x g, (∀ g0, og = Some g0 → graph_ok g0) → load_link og x = Some g → graph_ok g.
Proof.
  intros og x g Hog H. destruct og as [g0|], x; try discriminate. cbn [load_link] in H.
  destruct (obj_to_attrs kvs !! "source") as [[]|], (obj_to_attrs kvs !! "target") as [[]|];
    try discriminate.
  injection H as <-. apply add_edge_nx_ok; [by apply Hog| |].
  - rewrite lookup_delete_ne by done. apply lookup_delete_eq.
  - apply lookup_delete_eq.
Qed.

(** Every graph a tool reads through [_get_graph] has edges between nodes
    only and no reserved key in any dictionary. *)
Lemma get_graph_ok (kg_data : option Value) (g : DiGraph) : get_graph kg_data = Some g → graph_ok g.
Proof.
  destruct kg_data as [data|]; cbn [get_graph]; [| intros [= <-]; apply empty_graph_ok].
  unfold node_link_graph. destruct data; try discriminate.
  destruct (obj_to_attrs kvs !! "nodes") as [[]|], (obj_to_attrs kvs !! "links") as [[]|];
    try discriminate.
  intros H. eapply (foldl_option_preserve load_link graph_ok load_link_ok); [|exact H].
  intros g0 Hg0. eapply (foldl_option_preserve load_node graph_ok load_node_ok); [|exact Hg0].
  intros g1 [= <-]. apply empty_graph_ok.
Qed.

Lemma zero_nodes_empty (g : DiGraph) : wf g → number_of_nodes g = 0 → g = empty_graph.
Proof.
  intros Hwf Hn. apply map_size_empty_inv in Hn. destruct g as [ns es]. cbn in Hn. subst ns.
  unfold empty_graph. f_equal. apply map_eq. intros [u v]. rewrite lookup_empty.
  destruct (es !! (u, v)) as [a|] eqn:E; [|done].
  destruct (Hwf u v a E) as [[x Hx] _]. cbn in Hx. by rewrite lookup_empty in Hx.
Qed.

Lemma has_node_false (g : DiGraph) (n : string) : g_nodes g !! n = None → has_node g n = false.
Proof. intros H. unfold has_node. rewrite H. apply bool_decide_eq_false. intros [? ?]; discriminate. Qed.

Lemma has_node_true (g : DiGraph) (n : string) (a : attrs) : g_nodes g !! n = Some a → has_node g n = true.
Proof. intros H. unfold has_node. rewrite H. apply bool_decide_eq_true. by eexists. Qed.

Lemma bulk_rel_step_empty (i : nat) (rd : attrs) (added : list string) (errors : list BulkError) :
  ∃ e, bulk_rel_step i rd (added, errors, empty_graph) = (added, errors ++ [e], empty_graph).
Proof.
  unfold bulk_rel_step.
  repeat (case_bool_decide; cbn [negb]; [|eexists; reflexivity]).
  all: unfold endpoint; destruct (get rd "source_id"); try (eexists; reflexivity).
Qed.

Lemma bulk_rels_loop_empty (rels : list attrs) (i : nat) (added : list string) (errors : list BulkError) :
  ∃ errs, bulk_rels_loop i rels (added, errors, empty_graph) = (added, errors ++ errs, empty_graph)
          ∧ length errs = length rels.
Proof.
  revert i errors. induction rels as [|rd rels IH]; intros i errors; cbn [bulk_rels_loop].
  - exists []. rewrite app_nil_r. done.
  - destruct (bulk_rel_step_empty i rd added errors) as [e ->].
    destruct (IH (S i) (errors ++ [e])) as [errs [-> Hlen]].
    exists (e :: errs). rewrite <- app_assoc. cbn. split; [done | by rewrite Hlen].
Qed.

Lemma bulk_link_step_empty (i : nat) (l : attrs) (rs : list attrs) (errors : list BulkError) :
  ∃ e, bulk_link_step empty_graph i l (rs, errors) = (rs, errors ++ [e]).
Proof.
  unfold bulk_link_step.
  repeat (case_bool_decide; cbn [negb]; [|eexists; reflexivity]).
  all: unfold endpoint; destruct (get l "article_id"); try (eexists; reflexivity).
Qed.

Lemma bulk_link_loop_empty (links : list attrs) (i : nat) (errors : list BulkError) :
  ∃ errs, bulk_link_loop empty_graph i links ([], errors) = ([], errors ++ errs)
          ∧ length errs = length links.
Proof.
  revert i errors. induction links as [|l links IH]; intros i errors; cbn [bulk_link_loop].
  - exists []. rewrite app_nil_r. done.
  - destruct (bulk_link_step_empty i l [] errors) as [e ->].
    destruct (IH (S i) (errors ++ [e])) as [errs [-> Hlen]].
    exists (e :: errs). rewrite <- app_assoc. cbn. split; [done | by rewrite Hlen].
Qed.

Lemma save_graph_empty : save_graph empty_graph = empty_graph.
Proof. reflexivity. Qed.

End StateGraphs.

Section Merge.

Lemma map_fmap_eq {A B} (f : A → B) (l : list A) : map f l = f <$> l.
Proof. induction l as [|x l IH]; [done|]. by rewrite fmap_cons, <- IH. Qed.

Lemma in_edges_elem (g : DiGraph) (n : string) (e : string * string) :
  e ∈ in_edges g n ↔ e.2 = n ∧ is_Some (g_edges g !! e).
Proof.
  unfold in_edges, edge_list. rewrite map_fmap_eq, list_elem_of_fmap. split.
  - intros [[e' a] [-> Hin]]. apply list_elem_of_filter in Hin as [Hp Hin].
    apply elem_of_map_to_list in Hin. split; [done|]. by eexists.
  - intros [Hn [a Ha]]. exists (e, a). split; [done|].
    apply list_elem_of_filter. split; [done|]. by apply elem_of_map_to_list.
Qed.

Lemma out_edges_elem (g : DiGraph) (n : string) (e : string * string) :
  e ∈ out_edges g n ↔ e.1 = n ∧ is_Some (g_edges g !! e).
Proof.
  unfold out_edges, edge_list. rewrite map_fmap_eq, list_elem_of_fmap. split.
  - intros [[e' a] [-> Hin]]. apply list_elem_of_filter in Hin as [Hp Hin].
    apply elem_of_map_to_list in Hin. split; [done|]. by eexists.
  - intros [Hn [a Ha]]. exists (e, a). split; [done|].
    apply list_elem_of_filter. split; [done|]. by apply elem_of_map_to_list.
Qed.

Lemma filter_map_to_list_NoDup (P : (string * string) * attrs → Prop)
    `{∀ x, Decision (P x)} (m : gmap (string * string) attrs) :
  NoDup (map fst (filter P (map_to_list m))).
Proof.
  rewrite map_fmap_eq. apply NoDup_fmap_fst.
  - intros x y1 y2 H1 H2. apply list_elem_of_filter in H1 as [_ H1].
    apply list_elem_of_filter in H2 as [_ H2].
    apply elem_of_map_to_list in H1, H2. congruence.
  - apply NoDup_filter, NoDup_map_to_list.
Qed.

Lemma in_edges_NoDup (g : DiGraph) (n : string) : NoDup (in_edges g n).
Proof. apply filter_map_to_list_NoDup. Qed.

Lemma out_edges_NoDup (g : DiGraph) (n : string) : NoDup (out_edges g n).
Proof. apply filter_map_to_list_NoDup. Qed.

Lemma merge_fold_lookup (l : list (string * Value)) (P : attrs) (k : string) :
  NoDup l.*1 →
  foldl (fun pd kv => if missing_or_none pd kv.1 then <[kv.1 := kv.2]> pd else pd) P l !! k =
  if missing_or_none P k
  then match (list_to_map l : attrs) !! k with Some v => Some v | None => P !! k end
  else P !! k.
Proof.
  revert P. induction l as [|[k0 v0] l IH]; intros P Hnd.
  - cbn. rewrite lookup_empty. by destruct (missing_or_none P k).
  - rewrite fmap_cons in Hnd. apply NoDup_cons in Hnd as [Hk0 Hnd]. cbn -[list_to_map].
    rewrite IH by done. rewrite list_to_map_cons.
    set (P' := if missing_or_none P k0 then <[k0:=v0]> P else P).
    destruct (decide (k = k0)) as [-> | Hne].
    + rewrite not_elem_of_list_to_map_1 by done. rewrite lookup_insert_eq.
      assert (HP' : P' !! k0 = if missing_or_none P k0 then Some v0 else P !! k0).
      { unfold P'. destruct (missing_or_none P k0); [apply lookup_insert_eq|done]. }
      rewrite HP'. destruct (missing_or_none P' k0), (missing_or_none P k0); done.
    + rewrite lookup_insert_ne by congruence.
      assert (HP' : P' !! k = P !! k).
      { unfold P'. destruct (missing_or_none P k0); [by apply lookup_insert_ne|done]. }
      unfold missing_or_none at 1. rewrite HP'. fold (missing_or_none P k). done.
Qed.

Lemma merge_attrs_lookup (P D : attrs) (k : string) :
  merge_attrs P D !! k =
  if missing_or_none P k
  then match D !! k with Some v => Some v | None => P !! k end
  else P !! k.
Proof.
  unfold merge_attrs. rewrite merge_fold_lookup by apply NoDup_fst_map_to_list.
  by rewrite list_to_map_to_list.
Qed.

Lemma merge_attrs_union (P D : attrs) : merge_attrs P D ∪ P = merge_attrs P D.
Proof.
  apply map_eq. intros k. rewrite lookup_union, merge_attrs_lookup.
  destruct (missing_or_none P k) eqn:E; [destruct (D !! k)|]; destruct (P !! k); done.
Qed.

Lemma filter_ext_in {A} (P1 P2 : A → Prop) `{∀ x, Decision (P1 x)} `{∀ x, Decision (P2 x)}
    (l : list A) :
  (∀ x, x ∈ l → (P1 x ↔ P2 x)) → filter P1 l = filter P2 l.
Proof.
  induction l as [|x l IH]; intros Hx; [done|]. rewrite !filter_cons.
  assert (Hl : ∀ y, y ∈ l → (P1 y ↔ P2 y)) by (intros y Hy; apply Hx; by right).
  pose proof (Hx x (list_elem_of_here x l)) as Hxx.
  case_decide; case_decide; try tauto; by rewrite IH.
Qed.

Lemma has_edge_false (g : DiGraph) (u v : string) :
  has_edge g u v = false → g_edges g !! (u, v) = None.
Proof. unfold has_edge. intros H. apply bool_decide_eq_false in H. by apply eq_None_not_Some. Qed.

Lemma has_edge_true (g : DiGraph) (u v : string) :
  has_edge g u v = true → is_Some (g_edges g !! (u, v)).
Proof. unfold has_edge. intros H. by apply bool_decide_eq_true in H. Qed.

Lemma edge_data_stripped (g : DiGraph) (u v : string) :
  graph_ok g → edge_data g u v !! "source" = None ∧ edge_data g u v !! "target" = None.
Proof.
  intros [_ [_ Hse]]. unfold edge_data. destruct (g_edges g !! (u, v)) eqn:E.
  - by apply (Hse _ _ E).
  - by rewrite !lookup_empty.
Qed.

Lemma add_edge_fresh_edges (u v : string) (a : attrs) (g : DiGraph) :
  g_edges g !! (u, v) = None → g_edges (add_edge_nx u v a g) = <[(u, v) := a]> (g_edges g).
Proof.
  intros H. rewrite add_edge_nx_edges. unfold edge_data. rewrite H.
  by rewrite map_union_empty.
Qed.

Lemma transfer_in_fold (p d : string) (L : list (string * string)) (g0 : DiGraph) (n0 : nat) :
  p ≠ d → NoDup L → (∀ e, e ∈ L → e.2 = d) →
  (∀ u v, g_edges (foldl (transfer_in p d) (g0, n0) L).1 !! (u, v) =
     if decide (v = p ∧ u ≠ p ∧ (u, d) ∈ L ∧ g_edges g0 !! (u, p) = None)
     then Some (edge_data g0 u d) else g_edges g0 !! (u, v)) ∧
  (foldl (transfer_in p d) (g0, n0) L).2 =
    (n0 + length (filter (fun e : string * string => e.1 ≠ p ∧ g_edges g0 !! (e.1, p) = None) L))%nat ∧
  (∀ n x, g_nodes g0 !! n = Some x → g_nodes (foldl (transfer_in p d) (g0, n0) L).1 !! n = Some x) ∧
  (graph_ok g0 → graph_ok (foldl (transfer_in p d) (g0, n0) L).1).
Proof.
  intros Hpd. revert g0 n0. induction L as [|[s t] L IH]; intros g0 n0 Hnd HL.
  - cbn. split; [|split; [lia|split; [done|done]]].
    intros u v. case_decide as C; [|done]. destruct C as (_ & _ & Hm & _). by apply elem_of_nil in Hm.
  - apply NoDup_cons in Hnd as [Hnin Hnd].
    assert (Ht : t = d) by exact (HL (s, t) (list_elem_of_here _ _)). subst t.
    assert (HL' : ∀ e, e ∈ L → e.2 = d) by (intros e He; apply HL; by right).
    assert (Hsrc : ∀ e, e ∈ L → e.1 ≠ s).
    { intros [x y] He Hx. cbn in Hx. subst x. pose proof (HL' _ He) as Hy. cbn in Hy. subst y. done. }
    cbn [foldl].
    destruct (String.eqb_spec s p) as [-> | Hsp].
    + assert (Hst : transfer_in p d (g0, n0) (p, d) = (g0, n0))
        by (unfold transfer_in; cbn; by rewrite String.eqb_refl).
      rewrite Hst.
      destruct (IH g0 n0 Hnd HL') as (IHe & IHn & IHs & IHok). split; [|split; [|done]].
      * intros u v. rewrite IHe. apply decide_ext. split.
        -- intros (? & ? & ? & ?). repeat split; try done. by right.
        -- intros (? & Hup & Hm & ?). repeat split; try done.
           apply elem_of_cons in Hm as [Hm|Hm]; [congruence|done].
      * rewrite IHn, filter_cons. case_decide as C; [cbn in C; tauto|done].
    + apply String.eqb_neq in Hsp as Hsp'.
      destruct (has_edge g0 s p) eqn:Hh.
      * assert (Hst : transfer_in p d (g0, n0) (s, d) = (g0, n0))
          by (unfold transfer_in; cbn; by rewrite Hsp', Hh).
        rewrite Hst. apply has_edge_true in Hh.
        destruct (IH g0 n0 Hnd HL') as (IHe & IHn & IHs & IHok). split; [|split; [|done]].
        -- intros u v. rewrite IHe. apply decide_ext. split.
           ++ intros (? & ? & ? & ?). repeat split; try done. by right.
           ++ intros (? & Hup & Hm & Hn). repeat split; try done.
              apply elem_of_cons in Hm as [Hm|Hm]; [|done].
              injection Hm as ->. destruct Hh as [? Hh]. congruence.
        -- rewrite IHn, filter_cons. case_decide as C; [|done].
           destruct C as [_ C]. destruct Hh as [? Hh]. cbn in C. congruence.
      * assert (Hst : transfer_in p d (g0, n0) (s, d) = (add_edge_nx s p (edge_data g0 s d) g0, S n0))
          by (unfold transfer_in; cbn; by rewrite Hsp', Hh).
        rewrite Hst. apply has_edge_false in Hh.
        set (g0' := add_edge_nx s p (edge_data g0 s d) g0).
        assert (HE' : g_edges g0' = <[(s, p) := edge_data g0 s d]> (g_edges g0))
          by (by apply add_edge_fresh_edges).
        destruct (IH g0' (S n0) Hnd HL') as (IHe & IHn & IHs & IHok).
        split; [|split; [|split]].
        -- intros u v. rewrite IHe, HE'. destruct (decide (u = s)) as [-> | Hus].
           ++ case_decide as C; [destruct C as (_ & _ & C & _); done|].
              destruct (decide (v = p)) as [-> | Hvp].
              ** rewrite lookup_insert_eq. case_decide as C'; [done|].
                 exfalso. apply C'. repeat split; try done. left.
              ** rewrite lookup_insert_ne by congruence. case_decide as C'; [|done].
                 destruct C' as [? _]. done.
           ++ rewrite !(lookup_insert_ne _ (s, p)) by congruence.
              assert (Hed : edge_data g0' u d = edge_data g0 u d).
              { unfold edge_data. rewrite HE', lookup_insert_ne by congruence. done. }
              rewrite Hed. apply decide_ext. split.
              ** intros (? & ? & ? & ?). repeat split; try done. by right.
              ** intros (? & ? & Hm & ?). repeat split; try done.
                 apply elem_of_cons in Hm as [Hm|Hm]; [congruence|done].
        -- rewrite IHn, filter_cons. case_decide as C; [|cbn in C; tauto]. cbn [length].
           rewrite (filter_ext_in
             (fun e : string * string => e.1 ≠ p ∧ g_edges g0' !! (e.1, p) = None)
             (fun e : string * string => e.1 ≠ p ∧ g_edges g0 !! (e.1, p) = None)); [lia|].
           intros e He. apply and_iff_compat_l. rewrite HE', lookup_insert_ne; [done|].
           intros Heq. apply (Hsrc e He). congruence.
        -- intros n x Hn. apply IHs. by apply add_edge_nx_keeps_node.
        -- intros Hok. apply IHok. pose proof (edge_data_stripped g0 s d Hok) as [H1 H2].
           by apply add_edge_nx_ok.
Qed.

Lemma transfer_out_fold (p d : string) (L : list (string * string)) (g0 : DiGraph) (n0 : nat) :
  p ≠ d → NoDup L → (∀ e, e ∈ L → e.1 = d) →
  (∀ u v, g_edges (foldl (transfer_out p d) (g0, n0) L).1 !! (u, v) =
     if decide (u = p ∧ v ≠ p ∧ (d, v) ∈ L ∧ g_edges g0 !! (p, v) = None)
     then Some (edge_data g0 d v) else g_edges g0 !! (u, v)) ∧
  (foldl (transfer_out p d) (g0, n0) L).2 =
    (n0 + length (filter (fun e : string * string => e.2 ≠ p ∧ g_edges g0 !! (p, e.2) = None) L))%nat ∧
  (∀ n x, g_nodes g0 !! n = Some x → g_nodes (foldl (transfer_out p d) (g0, n0) L).1 !! n = Some x) ∧
  (graph_ok g0 → graph_ok (foldl (transfer_out p d) (g0, n0) L).1).
Proof.
  intros Hpd. revert g0 n0. induction L as [|[s t] L IH]; intros g0 n0 Hnd HL.
  - cbn. split; [|split; [lia|split; [done|done]]].
    intros u v. case_decide as C; [|done]. destruct C as (_ & _ & Hm & _). by apply elem_of_nil in Hm.
  - apply NoDup_cons in Hnd as [Hnin Hnd].
    assert (Hs : s = d) by exact (HL (s, t) (list_elem_of_here _ _)). subst s.
    assert (HL' : ∀ e, e ∈ L → e.1 = d) by (intros e He; apply HL; by right).
    assert (Htgt : ∀ e, e ∈ L → e.2 ≠ t).
    { intros [x y] He Hy. cbn in Hy. subst y. pose proof (HL' _ He) as Hx. cbn in Hx. subst x. done. }
    cbn [foldl].
    destruct (String.eqb_spec t p) as [-> | Htp].
    + assert (Hst : transfer_out p d (g0, n0) (d, p) = (g0, n0))
        by (unfold transfer_out; cbn; by rewrite String.eqb_refl).
      rewrite Hst.
      destruct (IH g0 n0 Hnd HL') as (IHe & IHn & IHs & IHok). split; [|split; [|done]].
      * intros u v. rewrite IHe. apply decide_ext. split.
        -- intros (? & ? & ? & ?). repeat split; try done. by right.
        -- intros (? & Hvp & Hm & ?). repeat split; try done.
           apply elem_of_cons in Hm as [Hm|Hm]; [congruence|done].
      * rewrite IHn, filter_cons. case_decide as C; [cbn in C; tauto|done].
    + apply String.eqb_neq in Htp as Htp'.
      destruct (has_edge g0 p t) eqn:Hh.
      * assert (Hst : transfer_out p d (g0, n0) (d, t) = (g0, n0))
          by (unfold transfer_out; cbn; by rewrite Htp', Hh).
        rewrite Hst. apply has_edge_true in Hh.
        destruct (IH g0 n0 Hnd HL') as (IHe & IHn & IHs & IHok). split; [|split; [|done]].
        -- intros u v. rewrite IHe. apply decide_ext. split.
           ++ intros (? & ? & ? & ?). repeat split; try done. by right.
           ++ intros (? & Hvp & Hm & Hn). repeat split; try done.
              apply elem_of_cons in Hm as [Hm|Hm]; [|done].
              injection Hm as ->. destruct Hh as [? Hh]. congruence.
        -- rewrite IHn, filter_cons. case_decide as C; [|done].
           destruct C as [_ C]. destruct Hh as [? Hh]. cbn in C. congruence.
      * assert (Hst : transfer_out p d (g0, n0) (d, t) = (add_edge_nx p t (edge_data g0 d t) g0, S n0))
          by (unfold transfer_out; cbn; by rewrite Htp', Hh).
        rewrite Hst. apply has_edge_false in Hh.
        set (g0' := add_edge_nx p t (edge_data g0 d t) g0).
        assert (HE' : g_edges g0' = <[(p, t) := edge_data g0 d t]> (g_edges g0))
          by (by apply add_edge_fresh_edges).
        destruct (IH g0' (S n0) Hnd HL') as (IHe & IHn & IHs & IHok).
        split; [|split; [|split]].
        -- intros u v. rewrite IHe, HE'. destruct (decide (v = t)) as [-> | Hvt].
           ++ case_decide as C; [destruct C as (_ & _ & C & _); done|].
              destruct (decide (u = p)) as [-> | Hup].
              ** rewrite lookup_insert_eq. case_decide as C'; [done|].
                 exfalso. apply C'. repeat split; try done. left.
              ** rewrite lookup_insert_ne by congruence. case_decide as C'; [|done].
                 destruct C' as [? _]. done.
           ++ rewrite !(lookup_insert_ne _ (p, t)) by congruence.
              assert (Hed : edge_data g0' d v = edge_data g0 d v).
              { unfold edge_data. rewrite HE', lookup_insert_ne by congruence. done. }
              rewrite Hed. apply decide_ext. split.
              ** intros (? & ? & ? & ?). repeat split; try done. by right.
              ** intros (? & ? & Hm & ?). repeat split; try done.
                 apply elem_of_cons in Hm as [Hm|Hm]; [congruence|done].
        -- rewrite IHn, filter_cons. case_decide as C; [|cbn in C; tauto]. cbn [length].
           rewrite (filter_ext_in
             (fun e : string * string => e.2 ≠ p ∧ g_edges g0' !! (p, e.2) = None)
             (fun e : string * string => e.2 ≠ p ∧ g_edges g0 !! (p, e.2) = None)); [lia|].
           intros e He. apply and_iff_compat_l.
           rewrite HE', lookup_insert_ne; [done|].
           intros Heq. apply (Htgt e He). congruence.
        -- intros n x Hn. apply IHs. by apply add_edge_nx_keeps_node.
        -- intros Hok. apply IHok. pose proof (edge_data_stripped g0 d t Hok) as [H1 H2].
           by apply add_edge_nx_ok.
Qed.

Lemma remove_node_nx_edges (n : string) (g : DiGraph) (u v : string) :
  g_edges (remove_node_nx n g) !! (u, v) =
  if decide (u = n ∨ v = n) then None else g_edges g !! (u, v).
Proof.
  cbn [remove_node_nx g_edges]. case_decide as C.
  - apply map_lookup_filter_None_2. right. intros x _ [H1 H2]. cbn in H1, H2. tauto.
  - destruct (g_edges g !! (u, v)) as [x|] eqn:E.
    + apply map_lookup_filter_Some_2; [done|]. cbn. tauto.
    + apply map_lookup_filter_None_2. by left.
Qed.

Lemma length_filter_fmap {A B} (Q : B → Prop) `{∀ x, Decision (Q x)} (f : A → B) (l : list A) :
  length (filter (fun e => Q (f e)) l) = length (filter Q (map f l)).
Proof.
  induction l as [|x l IH]; [done|]. cbn [map]. rewrite !filter_cons.
  case_decide; cbn [length]; by rewrite IH.
Qed.

(** The outcome of a successful merge: the reply, the invariant, the nodes
    of the primary and the duplicate, and every edge of the new graph. *)
Lemma merge_result (p d : string) (g : DiGraph) :
  graph_ok g → is_Some (g_nodes g !! p) → is_Some (g_nodes g !! d) → p ≠ d →
  (merge_duplicate_nodes p d g).1 =
    OkMerged p d
      (length (filter (fun x => x ≠ p ∧ g_edges g !! (x, p) = None) (predecessors g d)) +
       length (filter (fun y => y ≠ p ∧ g_edges g !! (p, y) = None) (successors g d)))
      (map fst (map_to_list (node_data g d))) ∧
  graph_ok (merge_duplicate_nodes p d g).2 ∧
  g_nodes (merge_duplicate_nodes p d g).2 !! d = None ∧
  g_nodes (merge_duplicate_nodes p d g).2 !! p = Some (merge_attrs (node_data g p) (node_data g d)) ∧
  (∀ u v, g_edges (merge_duplicate_nodes p d g).2 !! (u, v) =
     if decide (u = d ∨ v = d) then None
     else if decide (v = p ∧ u ≠ p ∧ is_Some (g_edges g !! (u, d)) ∧ g_edges g !! (u, p) = None)
     then Some (edge_data g u d)
     else if decide (u = p ∧ v ≠ p ∧ is_Some (g_edges g !! (d, v)) ∧ g_edges g !! (p, v) = None)
     then Some (edge_data g d v)
     else g_edges g !! (u, v)).
Proof.
  intros Hok [P HP] [D HD] Hpd.
  unfold merge_duplicate_nodes. rewrite (has_node_true _ _ _ HP), (has_node_true _ _ _ HD).
  cbn [negb]. destruct (String.eqb_spec p d) as [|_]; [done|].
  set (pd := merge_attrs (node_data g p) (node_data g d)).
  assert (Hid : pd !! "id" = None).
  { destruct Hok as [_ [Hsn _]]. unfold pd. rewrite merge_attrs_lookup. unfold node_data.
    rewrite HP, HD, (Hsn p P HP), (Hsn d D HD). by destruct (missing_or_none P "id"). }
  set (g1 := mkDiGraph (<[p := pd ∪ node_data g p]> (g_nodes g)) (g_edges g)).
  assert (Hok1 : graph_ok g1) by (by apply add_node_nx_ok).
  assert (Hin1 : in_edges g1 d = in_edges g d) by done.
  pose proof (transfer_in_fold p d (in_edges g1 d) g1 0 Hpd (in_edges_NoDup _ _)
                (fun e He => proj1 (proj1 (in_edges_elem _ _ _) He))) as (Ie & In & Is & Iok).
  destruct (foldl (transfer_in p d) (g1, 0) (in_edges g1 d)) as [g2 n1] eqn:Hg2.
  cbn [fst snd] in Ie, In, Is, Iok.
  assert (HE2 : ∀ u v, v ≠ p → g_edges g2 !! (u, v) = g_edges g !! (u, v)).
  { intros u v Hv. rewrite Ie. case_decide as C; [tauto|done]. }
  pose proof (transfer_out_fold p d (out_edges g2 d) g2 n1 Hpd (out_edges_NoDup _ _)
                (fun e He => proj1 (proj1 (out_edges_elem _ _ _) He))) as (Oe & On & Os & Ook).
  destruct (foldl (transfer_out p d) (g2, n1) (out_edges g2 d)) as [g3 n2] eqn:Hg3.
  cbn [fst snd] in Oe, On, Os, Ook.
  assert (Hok4 : graph_ok (remove_node_nx d g3)) by (by apply remove_node_nx_ok, Ook, Iok).
  cbn [fst snd]. rewrite (save_graph_ok _ Hok4).
  split; [|split; [done|split; [|split]]].
  - f_equal. rewrite On, In, Hin1. cbn [Nat.add].
    unfold predecessors, successors.
    rewrite <- (length_filter_fmap (fun x => x ≠ p ∧ g_edges g !! (x, p) = None) fst).
    rewrite <- (length_filter_fmap (fun y => y ≠ p ∧ g_edges g !! (p, y) = None) snd).
    f_equal. apply Permutation_length, NoDup_Permutation.
    + apply NoDup_filter, out_edges_NoDup.
    + apply NoDup_filter, out_edges_NoDup.
    + intros [x y]. rewrite !list_elem_of_filter, !out_edges_elem. cbn [fst snd].
      destruct (decide (y = p)) as [-> | Hy]; [tauto|].
      rewrite (HE2 p y Hy), (HE2 x y Hy). done.
  - cbn [remove_node_nx g_nodes]. apply lookup_delete_eq.
  - cbn [remove_node_nx g_nodes]. rewrite lookup_delete_ne by done.
    apply Os, Is. cbn [g1 g_nodes]. rewrite lookup_insert_eq. f_equal. apply merge_attrs_union.
  - intros u v. rewrite remove_node_nx_edges. case_decide as Cd; [done|].
    rewrite Oe. destruct (decide (v = p)) as [-> | Hvp].
    + rewrite (decide_False (P := u = p ∧ p ≠ p ∧ _ ∧ _)) by tauto.
      rewrite (decide_False (P := u = p ∧ p ≠ p ∧ _ ∧ _)) by tauto.
      rewrite Ie. apply decide_ext. rewrite in_edges_elem. cbn [fst snd g1 g_edges]. tauto.
    + rewrite (decide_False (P := v = p ∧ _)) by tauto. rewrite (HE2 u v Hvp).
      assert (Hed : edge_data g2 d v = edge_data g d v) by (unfold edge_data; by rewrite HE2).
      rewrite Hed. apply decide_ext. rewrite out_edges_elem, (HE2 p v Hvp), (HE2 d v Hvp).
      cbn [fst snd]. tauto.
Qed.

Lemma graph_ok_b_sound (g : DiGraph) : graph_ok_b g = true → graph_ok g.
Proof.
  unfold graph_ok_b. intros H. apply andb_true_iff in H as [H H3].
  apply andb_true_iff in H as [H1 H2]. rewrite forallb_forall in H1, H2, H3.
  split; [|split].
  - intros u v a Ha. apply elem_of_map_to_list, list_elem_of_In in Ha.
    specialize (H1 _ Ha). cbn in H1. apply andb_true_iff in H1 as [Hu Hv].
    unfold has_node in Hu, Hv. apply bool_decide_eq_true in Hu, Hv. done.
  - intros n a Ha. apply elem_of_map_to_list, list_elem_of_In in Ha.
    specialize (H2 _ Ha). by apply bool_decide_eq_true in H2.
  - intros e a Ha. apply elem_of_map_to_list, list_elem_of_In in Ha.
    specialize (H3 _ Ha). by apply bool_decide_eq_true in H3.
Qed.

End Merge.

Section Overview.

Lemma foldl_add_sum {A} (f : A → nat) (l : list A) (acc : nat) :
  foldl (fun acc c => acc + f c) acc l = acc + sum_list_with f l.
Proof.
  revert acc. induction l as [|x l IH]; intros acc; cbn; [lia|]. rewrite IH. lia.
Qed.

Lemma length_filter_sum {A} (P : A → Prop) `{∀ x, Decision (P x)} (l : list A) :
  length (filter P l) = sum_list_with (fun x => if bool_decide (P x) then 1 else 0) l.
Proof.
  induction l as [|x l IH]; [done|]. rewrite filter_cons. cbn.
  case_decide; case_bool_decide; cbn; try tauto; by rewrite IH.
Qed.

Lemma sum_list_with_ext {A} (f h : A → nat) (l : list A) :
  (∀ x, f x = h x) → sum_list_with f l = sum_list_with h l.
Proof. intros Hf. induction l as [|x l IH]; cbn; [done|]. by rewrite Hf, IH. Qed.

Lemma sum_list_with_zero {A} (l : list A) : sum_list_with (fun _ => 0) l = 0.
Proof. induction l; cbn; [done|]. lia. Qed.

Lemma sum_list_with_add {A} (f h : A → nat) (l : list A) :
  sum_list_with (fun x => f x + h x) l = sum_list_with f l + sum_list_with h l.
Proof. induction l as [|x l IH]; cbn; [done|]. rewrite IH. lia. Qed.

Lemma sum_list_with_exchange {A B} (F : A → B → nat) (la : list A) (lb : list B) :
  sum_list_with (fun b => sum_list_with (fun a => F a b) la) lb =
  sum_list_with (fun a => sum_list_with (fun b => F a b) lb) la.
Proof.
  induction lb as [|b lb IH]; cbn.
  - symmetry. apply sum_list_with_zero.
  - rewrite IH. by rewrite <- sum_list_with_add.
Qed.

Lemma predecessors_elem (g : DiGraph) (c a : string) :
  a ∈ predecessors g c ↔ is_Some (g_edges g !! (a, c)).
Proof.
  unfold predecessors. rewrite map_fmap_eq, list_elem_of_fmap. split.
  - intros [[x y] [-> Hin]]. apply in_edges_elem in Hin as [Hy Hs]. cbn in *. by subst y.
  - intros Hs. exists (a, c). split; [done|]. by apply in_edges_elem.
Qed.

Lemma predecessors_NoDup (g : DiGraph) (c : string) : NoDup (predecessors g c).
Proof.
  unfold predecessors. rewrite map_fmap_eq. apply NoDup_fmap_fst; [|apply in_edges_NoDup].
  intros x y1 y2 H1 H2. apply in_edges_elem in H1 as [H1 _], H2 as [H2 _]. cbn in *. congruence.
Qed.

Lemma node_ids_elem (g : DiGraph) (a : string) : a ∈ node_ids g ↔ is_Some (g_nodes g !! a).
Proof.
  unfold node_ids. rewrite map_fmap_eq, list_elem_of_fmap. split.
  - intros [[x v] [-> Hin]]. apply elem_of_map_to_list in Hin. by eexists.
  - intros [v Hv]. exists (a, v). split; [done|]. by apply elem_of_map_to_list.
Qed.

Lemma node_ids_NoDup (g : DiGraph) : NoDup (node_ids g).
Proof. unfold node_ids. rewrite map_fmap_eq. apply NoDup_fst_map_to_list. Qed.

Lemma article_preds_nodes (g : DiGraph) (c : string) :
  wf g →
  article_preds g c =
  length (filter (fun a => node_type_is g a "research_article" = true ∧ is_Some (g_edges g !! (a, c)))
                 (node_ids g)).
Proof.
  intros Hwf. unfold article_preds. apply Permutation_length, NoDup_Permutation.
  - apply NoDup_filter, predecessors_NoDup.
  - apply NoDup_filter, node_ids_NoDup.
  - intros a. rewrite !list_elem_of_filter, predecessors_elem, node_ids_elem. split.
    + intros [Ha [x Hx]]. repeat split; [done|by eexists|]. by destruct (Hwf a c x Hx).
    + intros [[Ha Hs] _]. done.
Qed.

End Overview.

Section Validation.

Lemma elem_of_concat_map {A B} (F : A → list B) (l : list A) (x : B) :
  x ∈ concat (map F l) → ∃ u, u ∈ l ∧ x ∈ F u.
Proof.
  induction l as [|u l IH]; cbn; [by intros ?%elem_of_nil|].
  rewrite elem_of_app. intros [Hx|Hx].
  - exists u. split; [left|done].
  - destruct (IH Hx) as (w & Hw & Hxw). exists w. split; [by right|done].
Qed.

Lemma successors_elem (g : DiGraph) (u y : string) :
  y ∈ successors g u ↔ is_Some (g_edges g !! (u, y)).
Proof.
  unfold successors. rewrite map_fmap_eq, list_elem_of_fmap. split.
  - intros [[x z] [-> Hin]]. apply out_edges_elem in Hin as [Hx Hs]. cbn in *. by subst x.
  - intros Hs. exists (u, y). split; [done|]. by apply out_edges_elem.
Qed.

(** Every node the search meets is a start node or a neighbour of a node. *)
Lemma undirected_bfs_subset (S : gset string) (fuel : nat) (g : DiGraph)
    (seen : gset string) (frontier : list string) :
  (∀ u y, y ∈ successors g u ++ predecessors g u → y ∈ S) →
  seen ⊆ S → undirected_bfs fuel g seen frontier ⊆ S.
Proof.
  intros Hnb. revert seen frontier. induction fuel as [|f IH]; intros seen frontier Hs; cbn; [done|].
  destruct (remove_dups _) as [|x xs] eqn:Hnext; [done|].
  apply IH. apply union_least; [done|]. intros y Hy.
  apply elem_of_list_to_set in Hy. rewrite <- Hnext, elem_of_remove_dups in Hy.
  apply list_elem_of_filter in Hy as [_ Hy]. apply elem_of_concat_map in Hy as (u & _ & Hy).
  by apply (Hnb u).
Qed.

Lemma degree_zero_no_edge (g : DiGraph) (v u : string) :
  degree g v = 0 → g_edges g !! (u, v) = None ∧ g_edges g !! (v, u) = None.
Proof.
  unfold degree. intros H.
  assert (Hi : in_edges g v = []) by (destruct (in_edges g v); [done|cbn in H; lia]).
  assert (Ho : out_edges g v = []) by (destruct (out_edges g v); [done|cbn in H; lia]).
  split; apply eq_None_not_Some; intros Hs.
  - assert (Hm : (u, v) ∈ in_edges g v) by (by apply in_edges_elem).
    rewrite Hi in Hm. by apply elem_of_nil in Hm.
  - assert (Hm : (v, u) ∈ out_edges g v) by (by apply out_edges_elem).
    rewrite Ho in Hm. by apply elem_of_nil in Hm.
Qed.

(** A graph with two distinct nodes, one of them isolated, is not weakly
    connected. *)
Lemma isolated_not_weakly_connected (g : DiGraph) (v w : string) :
  wf g → is_Some (g_nodes g !! v) → is_Some (g_nodes g !! w) → v ≠ w → degree g v = 0 →
  is_weakly_connected g = false.
Proof.
  intros Hwf Hv Hw Hvw Hdeg. unfold is_weakly_connected.
  destruct (node_ids g) as [|n0 ns] eqn:Hids; [done|].
  apply Nat.eqb_neq. unfold number_of_nodes. rewrite <- (size_dom (g_nodes g)).
  assert (Hnb : ∀ u y, y ∈ successors g u ++ predecessors g u → y ∈ dom (g_nodes g) ∖ {[v]}).
  { intros u y Hy. apply elem_of_app in Hy.
    rewrite successors_elem, predecessors_elem in Hy.
    apply elem_of_difference. rewrite elem_of_dom, not_elem_of_singleton. split.
    - destruct Hy as [[a Ha]|[a Ha]]; [apply (Hwf u y a Ha)|apply (Hwf y u a Ha)].
    - intros ->. destruct (degree_zero_no_edge g v u Hdeg) as [H1 H2].
      destruct Hy as [[a Ha]|[a Ha]]; congruence. }
  assert (Hsz : size (dom (g_nodes g) ∖ {[v]}) < size (dom (g_nodes g))).
  { rewrite size_difference by (apply singleton_subseteq_l, elem_of_dom; done).
    rewrite size_singleton.
    assert (Hin : {[v; w]} ⊆ dom (g_nodes g)).
    { apply union_least; apply singleton_subseteq_l, elem_of_dom; done. }
    apply subseteq_size in Hin. rewrite size_union in Hin by set_solver.
    rewrite !size_singleton in Hin. lia. }
  destruct (decide (n0 = v)) as [-> | Hn0].
  - assert (Hb : plain_bfs g v = {[v]}).
    { unfold plain_bfs. destruct (number_of_nodes g); cbn; [done|].
      destruct (remove_dups _) as [|x xs] eqn:Hnext; [done|].
      exfalso. assert (Hx : x ∈ x :: xs) by left. rewrite <- Hnext in Hx.
      rewrite elem_of_remove_dups in Hx. apply list_elem_of_filter in Hx as [_ Hx].
      rewrite app_nil_r in Hx. apply elem_of_app in Hx. rewrite successors_elem, predecessors_elem in Hx.
      destruct (degree_zero_no_edge g v x Hdeg) as [H1 H2].
      destruct Hx as [[a Ha]|[a Ha]]; congruence. }
    rewrite Hb, size_singleton. intros Heq.
    assert (Hin : {[v; w]} ⊆ dom (g_nodes g)).
    { apply union_least; apply singleton_subseteq_l, elem_of_dom; done. }
    apply subseteq_size in Hin. rewrite size_union in Hin by set_solver.
    rewrite !size_singleton in Hin. lia.
  - assert (Hn0d : n0 ∈ dom (g_nodes g) ∖ {[v]}).
    { apply elem_of_difference. rewrite elem_of_dom, not_elem_of_singleton. split; [|done].
      apply node_ids_elem. rewrite Hids. left. }
    assert (Hsub : plain_bfs g n0 ⊆ dom (g_nodes g) ∖ {[v]}).
    { apply undirected_bfs_subset; [done|]. by apply singleton_subseteq_l. }
    apply subseteq_size in Hsub. lia.
Qed.

Lemma list_singleton_of_elems {A} (l : list A) (v : A) :
  NoDup l → (∀ x, x ∈ l ↔ x = v) → l = [v].
Proof.
  intros Hnd Hel. destruct l as [|x l].
  - exfalso. assert (Hv : v ∈ ([] : list A)) by (by apply Hel). by apply elem_of_nil in Hv.
  - assert (Hx : x = v) by (apply Hel; left). subst x. apply NoDup_cons in Hnd as [Hnin _].
    destruct l as [|y l]; [done|]. exfalso.
    assert (Hy : y = v) by (apply Hel; right; left). subst y. apply Hnin. left.
Qed.

Lemma labels_truthy_b (g : DiGraph) :
  forallb (fun kv : string * attrs => truthy (get kv.2 "label")) (map_to_list (g_nodes g)) = true →
  ∀ n a, g_nodes g !! n = Some a → truthy (get a "label") = true.
Proof.
  intros Hb n a Ha. rewrite forallb_forall in Hb.
  apply (Hb (n, a)). apply list_elem_of_In. by apply elem_of_map_to_list.
Qed.

End Validation.

Section Connectivity.

Lemma descendants_elem (g : DiGraph) (p r : string) :
  r ∈ descendants g p ↔ r ≠ p ∧ is_Some (shortest_path_length g p r).
Proof.
  unfold descendants, shortest_path_length. rewrite list_elem_of_filter, map_fmap_eq, list_elem_of_fmap.
  split.
  - intros [Hr [[x d] [-> Hin]]]. apply elem_of_map_to_list in Hin. split; [done|by eexists].
  - intros [Hr [d Hd]]. split; [done|]. exists (r, d). split; [done|]. by apply elem_of_map_to_list.
Qed.

Lemma descendants_NoDup (g : DiGraph) (p : string) : NoDup (descendants g p).
Proof. unfold descendants. rewrite map_fmap_eq. apply NoDup_filter, NoDup_fst_map_to_list. Qed.

Lemma path_lengths_fold (g : DiGraph) (p : string) (R : list string) (acc : list nat) :
  (∀ r, r ∈ R → is_Some (shortest_path_length g p r)) →
  ∃ ds, foldl (fun acc r => match shortest_path_length g p r with
                            | Some d => acc ++ [d]
                            | None => acc
                            end) acc R = acc ++ ds ∧
        Forall2 (fun r d => shortest_path_length g p r = Some d) R ds.
Proof.
  revert acc. induction R as [|r R IH]; intros acc HR.
  - exists []. split; [by rewrite app_nil_r|constructor].
  - destruct (HR r (list_elem_of_here r R)) as [d Hd]. cbn [foldl]. rewrite Hd.
    destruct (IH (acc ++ [d])) as (ds & Hds & HF); [intros x Hx; apply HR; by right|].
    exists (d :: ds). split; [by rewrite Hds, <- app_assoc|]. by constructor.
Qed.

Lemma node_type_is_unique (g : DiGraph) (n t1 t2 : string) :
  node_type_is g n t1 = true → node_type_is g n t2 = true → t1 = t2.
Proof.
  unfold node_type_is. destruct (get (node_data g n) "node_type"); try discriminate.
  intros H1 H2. apply String.eqb_eq in H1, H2. congruence.
Qed.

End Connectivity.

Lemma kwargs_clash_none (ps : list string) (a : attrs) :
  (∀ k, k ∈ ps → a !! k = None) → kwargs_clash ps a = false.
Proof.
  unfold kwargs_clash. induction ps as [|k ps IH]; intros H; cbn; [done|].
  rewrite (H k ltac:(by left)). cbn. apply IH. intros k' Hk. apply H. by right.
Qed.

(** A dictionary built from fixed keys none of which is a parameter name. *)
Ltac clash_free_keys_with tac :=
  intros ?k Hk; unfold add_node_params, add_edge_params in Hk;
  repeat (apply elem_of_cons in Hk as [-> | Hk];
          [repeat tac; rewrite ?lookup_insert_ne by done; apply lookup_empty|]);
  by apply not_elem_of_nil in Hk.

Ltac clash_free_keys := clash_free_keys_with fail.

Ltac clash_free := apply kwargs_clash_none; clash_free_keys.

Section Bulk.

Lemma add_node_nx_wf (n : string) (a : attrs) (g : DiGraph) :
  wf g → wf (add_node_nx n a g).
Proof.
  intros Hwf u v a' H. cbn in H. destruct (Hwf u v a' H) as [[x Hx] [y Hy]]. cbn.
  split.
  - destruct (decide (n = u)) as [-> | ?];
      [rewrite lookup_insert_eq; eexists; done | rewrite lookup_insert_ne by done; eexists; done].
  - destruct (decide (n = v)) as [-> | ?];
      [rewrite lookup_insert_eq; eexists; done | rewrite lookup_insert_ne by done; eexists; done].
Qed.

Lemma add_node_nx_fresh_size (n : string) (a : attrs) (g : DiGraph) :
  g_nodes g !! n = None → number_of_nodes (add_node_nx n a g) = S (number_of_nodes g).
Proof. intros H. unfold number_of_nodes, add_node_nx. cbn. by apply map_size_insert_None. Qed.

Lemma save_graph_size (g : DiGraph) : wf g → number_of_nodes (save_graph g) = number_of_nodes g.
Proof. intros Hwf. rewrite save_graph_wf by done. unfold number_of_nodes, strip. cbn. apply map_size_fmap. Qed.

Lemma kwargs_clash_union (ps : list string) (a b : attrs) :
  kwargs_clash ps (a ∪ b) = kwargs_clash ps a || kwargs_clash ps b.
Proof.
  unfold kwargs_clash. induction ps as [|k ps IH]; cbn; [done|]. rewrite IH.
  destruct (bool_decide (is_Some ((a ∪ b) !! k))) eqn:E;
    [apply bool_decide_eq_true in E | apply bool_decide_eq_false in E];
    rewrite lookup_union_is_Some in E.
  - destruct E as [E|E]; [rewrite (bool_decide_eq_true_2 _ E); done|].
    rewrite (bool_decide_eq_true_2 _ E). by rewrite !orb_true_r.
  - rewrite (bool_decide_eq_false_2 (is_Some (a !! k))) by tauto.
    rewrite (bool_decide_eq_false_2 (is_Some (b !! k))) by tauto. done.
Qed.


End Bulk.

(** ** Facts about the [AnyIds] model *)

Module AnyIdsFacts.
Import AnyIds.


















End AnyIdsFacts.

(** ** Further lemmas on the tools *)

Open Scope nat_scope.

Lemma map_size_filter_list {K A} `{Countable K} (P : K * A → Prop) `{∀ x, Decision (P x)} (m : gmap K A) :
  size (filter P m) = length (filter P (map_to_list m)).
Proof.
  induction m as [|i x m Hi IH] using map_ind.
  - by rewrite map_filter_empty, map_to_list_empty.
  - rewrite map_filter_insert. rewrite (Permutation_length (filter_Permutation P _ _ (map_to_list_insert m i x Hi))).
    rewrite filter_cons. case_decide.
    + rewrite map_size_insert_None; [by rewrite IH|]. apply map_lookup_filter_None_2. by left.
    + rewrite delete_id; [done|]. exact Hi.
Qed.

Lemma filter_touch_count (n : string) (L : list ((string * string) * attrs)) :
  length (filter (fun kv : (string * string) * attrs => kv.1.1 ≠ n ∧ kv.1.2 ≠ n) L) +
  length (filter (fun kv : (string * string) * attrs => kv.1.2 = n) L) +
  length (filter (fun kv : (string * string) * attrs => kv.1.1 = n) L) =
  length L + length (filter (fun kv : (string * string) * attrs => kv.1 = (n, n)) L).
Proof.
  induction L as [|[[u v] a] L IH]; [done|]. rewrite !filter_cons. cbn [fst snd].
  repeat case_decide; cbn [length]; try lia; naive_solver.
Qed.

Lemma map_filter_key_size {A} (m : gmap (string * string) A) (k : string * string) :
  size (filter (fun kv : (string * string) * A => kv.1 = k) m) = match m !! k with Some _ => 1 | None => 0 end.
Proof.
  destruct (m !! k) as [a|] eqn:E.
  - assert (filter (fun kv : (string * string) * A => kv.1 = k) m = {[k := a]}) as ->; [|apply map_size_singleton].
    apply map_eq. intros i. rewrite map_lookup_filter. destruct (decide (i = k)) as [->|Hne].
    + rewrite E, lookup_singleton_eq. cbn. by rewrite option_guard_True.
    + rewrite lookup_singleton_ne by done. destruct (m !! i); cbn; [|done].
      by rewrite option_guard_False.
  - assert (filter (fun kv : (string * string) * A => kv.1 = k) m = ∅) as ->; [|apply map_size_empty].
    apply map_empty_filter. intros i x Hx Hi. cbn in Hi. subst. congruence.
Qed.

Lemma remove_node_nx_edge_count (g : DiGraph) (n : string) :
  number_of_edges (remove_node_nx n g) + (length (in_edges g n) + length (out_edges g n)) =
  number_of_edges g + (if has_edge g n n then 1 else 0).
Proof.
  unfold number_of_edges, remove_node_nx, in_edges, out_edges, edge_list. cbn [g_edges].
  rewrite !length_map, map_size_filter_list.
  rewrite Nat.add_assoc, filter_touch_count, <- map_size_filter_list, map_filter_key_size.
  rewrite length_map_to_list. unfold has_edge.
  destruct (g_edges g !! (n, n)) eqn:E.
  - rewrite bool_decide_eq_true_2 by (by eexists). done.
  - rewrite bool_decide_eq_false_2 by (intros [? ?]; congruence). done.
Qed.

Lemma successors_NoDup (g : DiGraph) (u : string) : NoDup (successors g u).
Proof.
  unfold successors. rewrite map_fmap_eq. apply NoDup_fmap_2_strong; [|apply out_edges_NoDup].
  intros x y Hx Hy Heq. apply out_edges_elem in Hx as [Hx _], Hy as [Hy _].
  destruct x, y; cbn in *. congruence.
Qed.

Lemma map_re_other (g : DiGraph) (f : string → attrs) (l : list string) :
  map re_other (map (fun p => rel_entry g p (f p)) l) = l.
Proof. induction l as [|x l IH]; cbn; [done|]. by rewrite IH. Qed.

Lemma strip_insert_edge (g : DiGraph) (s t : string) (b : attrs) :
  stripped g →
  strip (mkDiGraph (g_nodes g) (<[(s, t) := b]> (g_edges g))) =
  mkDiGraph (g_nodes g) (<[(s, t) := strip_edge b]> (g_edges g)).
Proof.
  intros Hs. pose proof (strip_stripped g Hs) as E. unfold strip in *. cbn [g_nodes g_edges].
  rewrite fmap_insert. destruct g as [ns es]. cbn in *. injection E as En Ee. by rewrite En, Ee.
Qed.

Lemma add_edge_nx_existing (g : DiGraph) (s t : string) (a : attrs) :
  is_Some (g_nodes g !! s) → is_Some (g_nodes g !! t) →
  add_edge_nx s t a g = mkDiGraph (g_nodes g) (<[(s, t) := a ∪ edge_data g s t]> (g_edges g)).
Proof. intros [x Hx] [y Hy]. unfold add_edge_nx. rewrite Hx, Hy. done. Qed.

Lemma save_add_edge_existing (g : DiGraph) (s t : string) (a : attrs) :
  graph_ok g → is_Some (g_nodes g !! s) → is_Some (g_nodes g !! t) →
  save_graph (add_edge_nx s t a g) =
  mkDiGraph (g_nodes g) (<[(s, t) := strip_edge (a ∪ edge_data g s t)]> (g_edges g)).
Proof.
  intros [Hwf Hst] Hs Ht. rewrite add_edge_nx_existing by done. rewrite save_graph_wf.
  - by apply strip_insert_edge.
  - intros u v b H. cbn in *. destruct (decide ((s, t) = (u, v))) as [Heq|Hne].
    + injection Heq as <- <-. done.
    + rewrite lookup_insert_ne in H by done. by apply (Hwf u v b).
Qed.

Lemma props_lookup (p : option attrs) (base : attrs) (k : string) :
  (match p with Some p => if bool_decide (p = ∅) then base else p ∪ base | None => base end) !! k =
  match default ∅ p !! k with Some v => Some v | None => base !! k end.
Proof.
  destruct p as [p|]; cbn; [|by rewrite lookup_empty]. case_bool_decide as Hp.
  - subst p. by rewrite lookup_empty.
  - rewrite lookup_union. by destruct (p !! k), (base !! k).
Qed.

Lemma strip_edge_lookup (b : attrs) (k : string) :
  k ≠ "source" → k ≠ "target" → strip_edge b !! k = b !! k.
Proof. intros H1 H2. unfold strip_edge. by rewrite !lookup_delete_ne by done. Qed.

Lemma props_no_clash (ps : list string) (p : option attrs) (base : attrs) :
  kwargs_clash ps base = false → kwargs_clash ps (default ∅ p) = false →
  kwargs_clash ps (match p with Some p => if bool_decide (p = ∅) then base else p ∪ base | None => base end) = false.
Proof.
  destruct p as [p|]; cbn; [|done]. intros Hb Hp. case_bool_decide; [done|].
  by rewrite kwargs_clash_union, Hp, Hb.
Qed.

Lemma add_relationship_spec (g : DiGraph) (s t rt : string) (p : option attrs) :
  graph_ok g → is_Some (g_nodes g !! s) → is_Some (g_nodes g !! t) →
  kwargs_clash add_edge_params (default ∅ p) = false →
  (add_relationship s t rt p g).1 = OkAddedRel s t rt ∧
  graph_ok (add_relationship s t rt p g).2 ∧
  g_nodes (add_relationship s t rt p g).2 = g_nodes g ∧
  (∀ e, e ≠ (s, t) → g_edges (add_relationship s t rt p g).2 !! e = g_edges g !! e) ∧
  number_of_edges (add_relationship s t rt p g).2 = number_of_edges g + (if has_edge g s t then 0 else 1) ∧
  (∀ k, k ≠ "source" → k ≠ "target" →
     edge_data (add_relationship s t rt p g).2 s t !! k =
     match default ∅ p !! k with
     | Some v => Some v
     | None => if String.eqb k "relationship_type" then Some (VStr rt) else edge_data g s t !! k
     end).
Proof.
  intros Hok Hs Ht Hc. destruct Hs as [xs Hxs], Ht as [xt Hxt].
  unfold add_relationship. rewrite (has_node_true g s xs Hxs), (has_node_true g t xt Hxt). cbn [negb].
  rewrite props_no_clash by first [exact Hc | clash_free]. cbn [fst snd].
  rewrite save_add_edge_existing by (done || by eexists).
  split; [done|]. split; [|split; [done|]; split; [|split]].
  - destruct Hok as [Hwf [Hsn Hse]]. split; [|split].
    + intros u v b H. cbn in *. destruct (decide ((s, t) = (u, v))) as [Heq|Hne].
      * injection Heq as <- <-. split; by eexists.
      * rewrite lookup_insert_ne in H by done. by apply (Hwf u v b).
    + done.
    + intros e b H. cbn in H. destruct (decide ((s, t) = e)) as [<-|Hne].
      * rewrite lookup_insert_eq in H. injection H as <-. unfold strip_edge.
        rewrite lookup_delete_ne, lookup_delete_eq, lookup_delete_eq by done. done.
      * rewrite lookup_insert_ne in H by done. by apply (Hse e).
  - intros e He. cbn. by rewrite lookup_insert_ne by congruence.
  - unfold number_of_edges, has_edge. cbn. rewrite map_size_insert.
    destruct (g_edges g !! (s, t)) eqn:E.
    + rewrite bool_decide_eq_true_2 by (by eexists). cbn. lia.
    + rewrite bool_decide_eq_false_2 by (intros [? ?]; congruence). cbn. lia.
  - intros k Hk1 Hk2. unfold edge_data at 1. cbn. rewrite lookup_insert_eq, strip_edge_lookup by done.
    rewrite lookup_union, props_lookup. destruct (default ∅ p !! k); [by destruct (edge_data g s t !! k)|].
    destruct (String.eqb_spec k "relationship_type") as [->|Hne].
    + rewrite lookup_insert_eq. by destruct (edge_data g s t !! "relationship_type").
    + rewrite lookup_insert_ne, lookup_empty by done. by destruct (edge_data g s t !! k).
Qed.

Lemma strip_insert_node (g : DiGraph) (n : string) (b : attrs) :
  stripped g →
  strip (mkDiGraph (<[n := b]> (g_nodes g)) (g_edges g)) =
  mkDiGraph (<[n := delete "id" b]> (g_nodes g)) (g_edges g).
Proof.
  intros Hs. pose proof (strip_stripped g Hs) as E. unfold strip in *. cbn [g_nodes g_edges].
  rewrite fmap_insert. destruct g as [ns es]. cbn in *. injection E as En Ee. by rewrite En, Ee.
Qed.

Lemma save_add_node (g : DiGraph) (n : string) (a : attrs) :
  graph_ok g →
  save_graph (add_node_nx n a g) = mkDiGraph (<[n := delete "id" (a ∪ node_data g n)]> (g_nodes g)) (g_edges g).
Proof.
  intros [Hwf Hs]. rewrite save_graph_wf by (by apply add_node_nx_wf). by apply strip_insert_node.
Qed.

Lemma add_node_ok_graph (g : DiGraph) (n : string) (b : attrs) :
  graph_ok g → graph_ok (mkDiGraph (<[n := delete "id" b]> (g_nodes g)) (g_edges g)).
Proof.
  intros Hok. replace (mkDiGraph (<[n := delete "id" b]> (g_nodes g)) (g_edges g))
    with (strip (mkDiGraph (<[n := b]> (g_nodes g)) (g_edges g))) by (by apply strip_insert_node, Hok).
  destruct Hok as [Hwf Hs]. split; [|split].
  - intros u v a H. cbn in *. rewrite lookup_fmap in H. rewrite !lookup_fmap.
    destruct (g_edges g !! (u, v)) as [a0|] eqn:E; [|discriminate].
    destruct (Hwf u v a0 E) as [[x Hx] [y Hy]].
    split; [destruct (decide (n = u)) as [->|?]|destruct (decide (n = v)) as [->|?]];
      rewrite ?lookup_insert_eq, ?lookup_insert_ne by done; rewrite ?Hx, ?Hy; by eexists.
  - intros m a H. cbn in H. rewrite lookup_fmap in H. destruct (_ !! m); cbn in H; [|discriminate].
    injection H as <-. apply lookup_delete_eq.
  - intros e a H. cbn in H. rewrite lookup_fmap in H. destruct (_ !! e); cbn in H; [|discriminate].
    injection H as <-. unfold strip_edge. rewrite lookup_delete_ne, !lookup_delete_eq by done. done.
Qed.

Lemma add_node_spec (g : DiGraph) (n t l : string) (p : option attrs) :
  graph_ok g → number_of_nodes g ≠ 0 → kwargs_clash add_node_params (default ∅ p) = false →
  (add_node n t l p g).1 = OkAddedNode t n ∧
  graph_ok (add_node n t l p g).2 ∧
  g_edges (add_node n t l p g).2 = g_edges g ∧
  (∀ m, m ≠ n → g_nodes (add_node n t l p g).2 !! m = g_nodes g !! m) ∧
  number_of_nodes (add_node n t l p g).2 = number_of_nodes g + (if has_node g n then 0 else 1) ∧
  (∀ k, k ≠ "id" →
     node_data (add_node n t l p g).2 n !! k =
     match default ∅ p !! k with
     | Some v => Some v
     | None => if String.eqb k "node_type" then Some (VStr t)
               else if String.eqb k "label" then Some (VStr l) else node_data g n !! k
     end).
Proof.
  intros Hok Hn Hc. unfold add_node. rewrite (proj2 (Nat.eqb_neq _ 0) Hn).
  rewrite props_no_clash by first [exact Hc | clash_free]. cbn [fst snd].
  rewrite save_add_node by done. split; [done|]. split; [by apply add_node_ok_graph|].
  split; [done|]. split; [|split].
  - intros m Hm. cbn. by rewrite lookup_insert_ne by congruence.
  - unfold number_of_nodes, has_node. cbn. rewrite map_size_insert.
    destruct (g_nodes g !! n) eqn:E.
    + rewrite bool_decide_eq_true_2 by (by eexists). cbn. lia.
    + rewrite bool_decide_eq_false_2 by (intros [? ?]; congruence). cbn. lia.
  - intros k Hk. unfold node_data at 1. cbn. rewrite lookup_insert_eq, lookup_delete_ne by done.
    rewrite lookup_union, props_lookup. destruct (default ∅ p !! k); [by destruct (node_data g n !! k)|].
    destruct (String.eqb_spec k "node_type") as [->|Hne].
    + rewrite lookup_insert_eq. by destruct (node_data g n !! "node_type").
    + rewrite lookup_insert_ne by done. destruct (String.eqb_spec k "label") as [->|Hne'].
      * rewrite lookup_insert_eq. by destruct (node_data g n !! "label").
      * rewrite lookup_insert_ne, lookup_empty by done. by destruct (node_data g n !! k).
Qed.

Lemma add_node_then_link (g : DiGraph) (pid mid ty lbl rt : string) (props : attrs) :
  graph_ok g → number_of_nodes g ≠ 0 → is_Some (g_nodes g !! pid) → props !! "node_type" = None →
  kwargs_clash add_node_params props = false →
  let g1 := (add_node mid ty lbl (Some props) g).2 in
  let g2 := (add_relationship pid mid rt None g1).2 in
  (add_node mid ty lbl (Some props) g).1 = OkAddedNode ty mid ∧
  (add_relationship pid mid rt None g1).1 = OkAddedRel pid mid rt ∧
  graph_ok g2 ∧ number_of_nodes g2 ≠ 0 ∧ is_Some (g_nodes g2 !! pid) ∧
  node_type_is g2 mid ty = true ∧ rel_type_is g2 pid mid rt = true ∧ is_Some (g_edges g2 !! (pid, mid)).
Proof.
  intros Hok Hn Hp Hprops Hc g1 g2.
  destruct (add_node_spec g mid ty lbl (Some props) Hok Hn Hc) as (R1 & Hok1 & He1 & Hm1 & Hs1 & Hd1).
  fold g1 in R1, Hok1, He1, Hm1, Hs1, Hd1.
  assert (Hmid : is_Some (g_nodes g1 !! mid)).
  { pose proof (Hd1 "node_type" ltac:(done)) as H. cbn in H. rewrite Hprops in H.
    unfold node_data in H. destruct (g_nodes g1 !! mid); [by eexists|]. by rewrite lookup_empty in H. }
  assert (Hpid : is_Some (g_nodes g1 !! pid)).
  { destruct (decide (pid = mid)) as [->|Hne]; [done|]. by rewrite Hm1. }
  destruct (add_relationship_spec g1 pid mid rt None Hok1 Hpid Hmid ltac:(clash_free)) as (R2 & Hok2 & Hn2 & He2 & Hs2 & Hd2).
  fold g2 in R2, Hok2, Hn2, He2, Hs2, Hd2.
  split; [done|]. split; [done|]. split; [done|]. split.
  { unfold number_of_nodes. rewrite Hn2. fold (number_of_nodes g1). rewrite Hs1. lia. }
  split; [by rewrite Hn2|]. split; [|split].
  - unfold node_type_is, node_data, get. rewrite Hn2. fold (node_data g1 mid).
    rewrite (Hd1 "node_type" ltac:(done)). cbn. rewrite Hprops. cbn. apply String.eqb_refl.
  - unfold rel_type_is, get. rewrite (Hd2 "relationship_type" ltac:(done) ltac:(done)). cbn.
    apply String.eqb_refl.
  - unfold g2, add_relationship. destruct Hpid as [x Hx], Hmid as [y Hy].
    rewrite (has_node_true g1 pid x Hx), (has_node_true g1 mid y Hy). cbn [negb].
    rewrite kwargs_clash_none by clash_free_keys. cbn [snd].
    rewrite save_add_edge_existing by (done || by eexists). cbn. rewrite lookup_insert_eq. by eexists.
Qed.

Lemma put_str_lookup_ne (k k' : string) (o : option string) (p : attrs) :
  k' ≠ k → put_str k o p !! k' = p !! k'.
Proof. intros H. destruct o as [s|]; cbn; [|done]. destruct (String.eqb s ""); [done|]. by rewrite lookup_insert_ne. Qed.

Lemma put_list_lookup_ne (k k' : string) (o : option (list string)) (p : attrs) :
  k' ≠ k → put_list k o p !! k' = p !! k'.
Proof. intros H. destruct o as [[|x l]|]; cbn; [done| |done]. by rewrite lookup_insert_ne. Qed.

Section Sorting.
Context {A : Type} (lt : A → A → bool).

Lemma insert_desc_hd (y x : A) (l : list A) :
  HdRel (desc_rel lt) y l → lt y x = false → HdRel (desc_rel lt) y (insert_desc lt x l).
Proof.
  intros Hh Hxy. destruct l as [|z zs]; cbn.
  - by constructor.
  - destruct (lt z x); constructor; [done|]. by inversion Hh.
Qed.

Lemma insert_desc_sorted (x : A) (l : list A) :
  (∀ y, y ∈ l → lt y x = true → lt x y = false) →
  Sorted (desc_rel lt) l → Sorted (desc_rel lt) (insert_desc lt x l).
Proof.
  induction l as [|y ys IH]; intros Has Hs; cbn.
  - repeat constructor.
  - destruct (lt y x) eqn:Hyx.
    + constructor; [done|]. constructor. unfold desc_rel. apply Has; [by left|done].
    + inversion Hs as [|? ? Hs' Hh]; subst. constructor.
      * apply IH; [|done]. intros z Hz. apply Has. by right.
      * by apply insert_desc_hd.
Qed.

Lemma insert_desc_perm (x : A) (l : list A) : insert_desc lt x l ≡ₚ x :: l.
Proof.
  induction l as [|y ys IH]; cbn; [done|].
  destruct (lt y x); [done|]. rewrite IH. constructor.
Qed.

Lemma sort_desc_fold_perm (l acc : list A) :
  foldl (fun acc x => insert_desc lt x acc) acc l ≡ₚ l ++ acc.
Proof.
  revert acc. induction l as [|x l IH]; intros acc; cbn; [done|].
  rewrite IH, insert_desc_perm. by rewrite Permutation_middle.
Qed.

Lemma sort_desc_perm (l : list A) : sort_desc lt l ≡ₚ l.
Proof. unfold sort_desc. by rewrite sort_desc_fold_perm, app_nil_r. Qed.

Lemma sort_desc_fold_sorted (l acc : list A) :
  (∀ x y, x ∈ l ++ acc → y ∈ l ++ acc → lt x y = true → lt y x = false) →
  Sorted (desc_rel lt) acc → Sorted (desc_rel lt) (foldl (fun acc x => insert_desc lt x acc) acc l).
Proof.
  revert acc. induction l as [|x l IH]; intros acc Has Hacc; cbn; [done|].
  assert (Hsub : ∀ u, u ∈ l ++ insert_desc lt x acc → u ∈ (x :: l) ++ acc).
  { intros u Hu. rewrite insert_desc_perm in Hu.
    apply elem_of_app in Hu as [Hu|Hu]; apply elem_of_app.
    - left. by right.
    - apply elem_of_cons in Hu as [->|Hu]; [left; by left|by right]. }
  apply IH.
  - intros u v Hu Hv. apply Has; by apply Hsub.
  - apply insert_desc_sorted; [|done]. intros y Hy. apply Has.
    + apply elem_of_app. by right.
    + apply elem_of_app. left. by left.
Qed.

(** With [lt] asymmetric on the elements, [sort_desc] leaves no element
    before one with a greater key. *)
Lemma sort_desc_sorted (l : list A) :
  (∀ x y, x ∈ l → y ∈ l → lt x y = true → lt y x = false) →
  Sorted (desc_rel lt) (sort_desc lt l).
Proof.
  intros Has. apply sort_desc_fold_sorted; [|constructor].
  intros x y. rewrite app_nil_r. apply Has.
Qed.

End Sorting.

Lemma sorted_take {A} (R : A → A → Prop) (n : nat) (l : list A) : Sorted R l → Sorted R (take n l).
Proof.
  revert n. induction l as [|x l IH]; intros n Hs; [by rewrite take_nil|].
  destruct n as [|n]; cbn; [constructor|]. inversion Hs as [|? ? Hs' Hh]; subst.
  constructor; [by apply IH|]. destruct l as [|y l]; destruct n; cbn; try constructor.
  by inversion Hh.
Qed.

Section Take.
Context {A : Type}.

Lemma py_take_sublist (n : Z) (l : list A) : py_take n l `sublist_of` l.
Proof. unfold py_take. destruct (Z.leb 0 n); apply sublist_take. Qed.

Lemma py_take_length (n : Z) (l : list A) :
  Z.of_nat (length (py_take n l)) = if Z.leb 0 n then Z.min n (Z.of_nat (length l)) else Z.max 0 (Z.of_nat (length l) + n).
Proof.
  unfold py_take. destruct (Z.leb_spec 0 n); rewrite length_take; lia.
Qed.

Lemma py_take_all (n : Z) (l : list A) : (Z.of_nat (length l) <= n)%Z → py_take n l = l.
Proof.
  intros H. unfold py_take. rewrite (proj2 (Z.leb_le 0 n)) by lia. apply take_ge. lia.
Qed.

End Take.

Lemma map_ar_id_article_ref (g : DiGraph) (c : string) (l : list string) :
  map ar_id (map (article_ref g c) l) = l.
Proof. induction l as [|x l IH]; cbn; [done|]. by rewrite IH. Qed.

Lemma str_lt_asym (s t : string) : str_lt s t = true → str_lt t s = true → False.
Proof.
  revert t. induction s as [|a s IH]; intros [|b t] H1 H2; cbn [str_lt] in H1, H2; try congruence.
  revert H1 H2.
  destruct (Nat.ltb_spec (Ascii.nat_of_ascii a) (Ascii.nat_of_ascii b)),
           (Nat.ltb_spec (Ascii.nat_of_ascii b) (Ascii.nat_of_ascii a)); try lia; intros H1 H2.
  - rewrite (proj2 (Ascii.eqb_neq b a)) in H2 by (intros ->; lia). discriminate H2.
  - rewrite (proj2 (Ascii.eqb_neq a b)) in H1 by (intros ->; lia). discriminate H1.
  - assert (a = b) as <-.
    { rewrite <- (Ascii.ascii_nat_embedding a), <- (Ascii.ascii_nat_embedding b). f_equal. lia. }
    rewrite Ascii.eqb_refl in H1, H2. exact (IH t H1 H2).
Qed.

Lemma qlt_bool_asym (a b : Q) : negb (Qle_bool b a) = true → negb (Qle_bool a b) = true → False.
Proof.
  intros H1 H2. apply negb_true_iff in H1, H2.
  destruct (Qlt_le_dec a b) as [H|H].
  - apply Qlt_le_weak, Qle_bool_iff in H. congruence.
  - apply Qle_bool_iff in H. congruence.
Qed.

(** Python's [<] is asymmetric on keys that are not lists or dicts. *)
Lemma py_lt_asym (v w : Value) :
  hashable v = true → hashable w = true → py_lt v w = Some true → py_lt w v = Some true → False.
Proof.
  intros Hv Hw H1 H2. destruct v, w; cbn in Hv, Hw, H1, H2; try congruence;
    injection H1 as H1; injection H2 as H2;
    first [exact (qlt_bool_asym _ _ H1 H2) | exact (str_lt_asym _ _ H1 H2)].
Qed.

Lemma article_lt_asym (x y : ArticleRef) :
  hashable (article_key x) = true → hashable (article_key y) = true →
  article_lt x y = true → article_lt y x = false.
Proof.
  unfold article_lt, article_cmp. intros Hx Hy.
  destruct (py_lt (article_key x) (article_key y)) as [[]|] eqn:E1; try discriminate. intros _.
  destruct (py_lt (article_key y) (article_key x)) as [[]|] eqn:E2; try done.
  exfalso. exact (py_lt_asym _ _ Hx Hy E1 E2).
Qed.

Lemma find_related_research_spec (g : DiGraph) (c : string) (max_results : Z) (r : Related) :
  find_related_research c max_results g = Some (inr r) →
  rl_condition_id r = c ∧ is_Some (g_nodes g !! c) ∧
  rl_total_found r = article_preds g c ∧
  ((∀ p, p ∈ predecessors g c → node_type_is g p "research_article" = true →
         hashable (article_key (article_ref g c p)) = true) →
   Sorted (desc_rel article_lt) (rl_articles r)) ∧
  NoDup (map ar_id (rl_articles r)) ∧
  (∀ x, x ∈ rl_articles r →
     x = article_ref g c (ar_id x) ∧ is_Some (g_edges g !! (ar_id x, c)) ∧
     node_type_is g (ar_id x) "research_article" = true) ∧
  Z.of_nat (length (rl_articles r)) =
    (if Z.leb 0 max_results then Z.min max_results (Z.of_nat (article_preds g c))
     else Z.max 0 (Z.of_nat (article_preds g c) + max_results)) ∧
  ((Z.of_nat (article_preds g c) <= max_results)%Z →
   map ar_id (rl_articles r) ≡ₚ filter (fun p => node_type_is g p "research_article" = true) (predecessors g c)).
Proof.
  unfold find_related_research. destruct (Nat.eqb _ 0); [discriminate|].
  destruct (has_node g c) eqn:Hc; cbn [negb]; [|discriminate].
  set (F := filter (fun p => node_type_is g p "research_article" = true) (predecessors g c)).
  set (articles := map (article_ref g c) F).
  destruct (negb _); [discriminate|]. intros [= <-]. cbn [rl_condition_id rl_total_found rl_articles].
  assert (HF : map ar_id articles = F) by apply map_ar_id_article_ref.
  assert (Hlen : length articles = article_preds g c) by (unfold articles; rewrite length_map; done).
  assert (HP : sort_desc article_lt articles ≡ₚ articles) by apply sort_desc_perm.
  assert (HPid : map ar_id (sort_desc article_lt articles) ≡ₚ F).
  { rewrite <- HF, !map_fmap_eq. by rewrite HP. }
  split; [done|]. split; [unfold has_node in Hc; by apply bool_decide_eq_true in Hc|].
  split; [done|]. split; [|split; [|split; [|split]]].
  - intros Hh. unfold py_take; destruct (Z.leb 0 max_results); apply sorted_take, sort_desc_sorted;
      intros x y Hx Hy; apply article_lt_asym;
      [unfold articles in Hx; rewrite map_fmap_eq in Hx; apply list_elem_of_fmap in Hx as [p [-> Hp]];
       unfold F in Hp; apply list_elem_of_filter in Hp as [Ht Hp]; by apply Hh
      |unfold articles in Hy; rewrite map_fmap_eq in Hy; apply list_elem_of_fmap in Hy as [p [-> Hp]];
       unfold F in Hp; apply list_elem_of_filter in Hp as [Ht Hp]; by apply Hh
      |unfold articles in Hx; rewrite map_fmap_eq in Hx; apply list_elem_of_fmap in Hx as [p [-> Hp]];
       unfold F in Hp; apply list_elem_of_filter in Hp as [Ht Hp]; by apply Hh
      |unfold articles in Hy; rewrite map_fmap_eq in Hy; apply list_elem_of_fmap in Hy as [p [-> Hp]];
       unfold F in Hp; apply list_elem_of_filter in Hp as [Ht Hp]; by apply Hh].
  - apply (sublist_NoDup _ (map ar_id (sort_desc article_lt articles))).
    + rewrite HPid. apply NoDup_filter, predecessors_NoDup.
    + rewrite !map_fmap_eq. apply fmap_sublist, py_take_sublist.
  - intros x Hx. eapply elem_of_sublist in Hx; [|apply py_take_sublist]. rewrite HP in Hx.
    unfold articles in Hx. rewrite map_fmap_eq in Hx. apply list_elem_of_fmap in Hx as [p [-> Hp]].
    cbn. unfold F in Hp. apply list_elem_of_filter in Hp as [Ht Hp].
    split; [done|]. split; [by apply predecessors_elem|done].
  - rewrite py_take_length, (Permutation_length HP), Hlen. done.
  - intros Hmax. rewrite py_take_all; [done|]. rewrite (Permutation_length HP), Hlen. done.
Qed.

Ltac graph_ok_by_eval := apply graph_ok_b_sound; vm_compute; reflexivity.

Ltac node_by_eval g n := exists (node_data g n); vm_compute; reflexivity.

Lemma bulk_link_step_count (g : DiGraph) (i : nat) (l : attrs) (acc : list attrs * list BulkError) :
  length (bulk_link_step g i l acc).1 + length (bulk_link_step g i l acc).2 = S (length acc.1 + length acc.2).
Proof.
  destruct acc as [rels errs]. unfold bulk_link_step.
  repeat (case_match; cbn [fst snd]; rewrite ?length_app; cbn [length]; try lia).
Qed.

Lemma bulk_link_loop_count (g : DiGraph) (links : list attrs) (i : nat) (acc : list attrs * list BulkError) :
  length (bulk_link_loop g i links acc).1 + length (bulk_link_loop g i links acc).2 =
  length acc.1 + length acc.2 + length links.
Proof.
  revert i acc. induction links as [|l links IH]; intros i acc; cbn; [lia|].
  rewrite IH, bulk_link_step_count. lia.
Qed.

Lemma bulk_link_step_valid (g : DiGraph) (i : nat) (l : attrs) (acc : list attrs * list BulkError) :
  Forall (rel_entry_ok (g_nodes g)) acc.1 → Forall (rel_entry_ok (g_nodes g)) (bulk_link_step g i l acc).1.
Proof.
  destruct acc as [rels errs]. cbn [fst]. intros H. unfold bulk_link_step.
  destruct (bool_decide (is_Some (l !! "article_id"))); cbn [negb fst]; [|done].
  destruct (bool_decide (is_Some (l !! "condition_id"))); cbn [negb fst]; [|done].
  unfold endpoint. destruct (get l "article_id") as [| | | |s| |] eqn:Ea; cbn [fst]; try done.
  destruct (has_node g s) eqn:Hs; cbn [fst]; [|done].
  destruct (get l "condition_id") as [| | | |t| |] eqn:Ec; cbn [fst]; try done.
  destruct (has_node g t) eqn:Ht; cbn [fst]; [|done].
  apply Forall_app. split; [done|]. apply Forall_singleton.
  unfold has_node in Hs, Ht. apply bool_decide_eq_true in Hs, Ht.
  eexists s, t, _. rewrite lookup_insert_eq. rewrite lookup_insert_ne, lookup_insert_eq by done.
  rewrite !(lookup_insert_ne _ _ "relationship_type"), lookup_insert_eq by done.
  rewrite !(lookup_insert_ne _ _ "properties"), lookup_insert_eq by done.
  repeat split; try done.
  destruct (get l "confidence"); cbn [app obj_to_attrs foldl fst snd]; clash_free.
Qed.

Lemma bulk_link_loop_valid (g : DiGraph) (links : list attrs) (i : nat) (acc : list attrs * list BulkError) :
  Forall (rel_entry_ok (g_nodes g)) acc.1 → Forall (rel_entry_ok (g_nodes g)) (bulk_link_loop g i links acc).1.
Proof.
  revert i acc. induction links as [|l links IH]; intros i acc H; cbn; [done|].
  apply IH. by apply bulk_link_step_valid.
Qed.

Lemma bulk_rels_loop_valid (rels : list attrs) (i : nat) (added : list string) (errors : list BulkError) (h : DiGraph) :
  Forall (rel_entry_ok (g_nodes h)) rels →
  let '(added', errors', h') := bulk_rels_loop i rels (added, errors, h) in
  length added' = length added + length rels ∧ errors' = errors ∧ g_nodes h' = g_nodes h ∧
  (∀ u v b, g_edges h' !! (u, v) = Some b → g_edges h !! (u, v) = Some b ∨ (is_Some (g_nodes h !! u) ∧ is_Some (g_nodes h !! v))).
Proof.
  revert i added h. induction rels as [|rd rels IH]; intros i added h Hv; cbn.
  - split; [lia|]. split; [done|]. split; [done|]. intros; by left.
  - apply Forall_cons in Hv as [(s & t & kvs & Hs & Ht & Hns & Hnt & Hrt & Hp & Hcl) Hv].
    unfold bulk_rel_step. rewrite bool_decide_eq_true_2 by (by rewrite Hs). cbn [negb].
    rewrite bool_decide_eq_true_2 by (by rewrite Ht). cbn [negb].
    rewrite bool_decide_eq_true_2 by done. cbn [negb].
    unfold get at 1 2. rewrite Hs, Ht. cbn [endpoint].
    destruct Hns as [xs Hxs], Hnt as [xt Hxt].
    rewrite (has_node_true h s xs Hxs), (has_node_true h t xt Hxt).
    unfold get_default. rewrite Hp. unfold update_with. cbn [negb].
    assert (Ha : ∃ b, (if negb (truthy (VObj kvs)) then Some (<["relationship_type" := get rd "relationship_type"]> ∅)
                      else Some (obj_to_attrs kvs ∪ <["relationship_type" := get rd "relationship_type"]> ∅)) = Some b ∧
                      kwargs_clash add_edge_params b = false).
    { destruct (truthy (VObj kvs)); cbn [negb]; (eexists; split; [reflexivity|]);
        [rewrite kwargs_clash_union, Hcl; cbn [orb]|]; clash_free. }
    destruct Ha as [b [Hb Hbc]]. rewrite Hb.
    unfold kwargs_clash, add_edge_params in Hbc. cbn [existsb] in Hbc. rewrite Hbc.
    rewrite add_edge_nx_existing by (by eexists).
    set (h1 := mkDiGraph _ _).
    assert (Hv1 : Forall (rel_entry_ok (g_nodes h1)) rels) by exact Hv.
    specialize (IH (S i) (added ++ [s]) h1 Hv1).
    destruct (bulk_rels_loop (S i) rels (added ++ [s], errors, h1)) as [[added' errors'] h'].
    destruct IH as (Hl & He & Hn & Hed). rewrite length_app in Hl. cbn in Hl.
    split; [lia|]. split; [done|]. split; [done|].
    intros u v c Hc. destruct (Hed u v c Hc) as [H1|H1]; [|by right].
    cbn in H1. destruct (decide ((s, t) = (u, v))) as [Heq|Hne].
    + injection Heq as <- <-. right. split; by eexists.
    + rewrite lookup_insert_ne in H1 by done. by left.
Qed.

Lemma count_key_sum (k : Value) (d : list (Value * nat)) :
  sum_list_with snd (count_key k d) = S (sum_list_with snd d).
Proof.
  induction d as [|[k' n] d IH]; cbn; [done|]. destruct (key_eq k' k); cbn; [done|]. rewrite IH. lia.
Qed.

Lemma count_key_pos (k : Value) (d : list (Value * nat)) :
  (∀ e, e ∈ d → 0 < e.2) → ∀ e, e ∈ count_key k d → 0 < e.2.
Proof.
  induction d as [|[k' n] d IH]; intros Hd e He; cbn in He.
  - apply list_elem_of_singleton in He. subst. cbn. lia.
  - destruct (key_eq k' k).
    + apply elem_of_cons in He as [->|He]; [cbn; lia|]. apply Hd. by right.
    + apply elem_of_cons in He as [->|He]; [apply Hd; left|]. apply IH; [|done].
      intros e' He'. apply Hd. by right.
Qed.

Lemma key_eq_refl (k : Value) : hashable k = true → key_eq k k = true.
Proof.
  destruct k; cbn; intros H; try done; try apply String.eqb_refl; try apply Qeq_bool_refl.
Qed.

Lemma count_key_keys (k : Value) (d : list (Value * nat)) :
  hashable k = true →
  (∀ x, x ∈ d.*1 → x ∈ (count_key k d).*1) ∧ (∃ x, x ∈ (count_key k d).*1 ∧ key_eq x k = true).
Proof.
  intros Hh. induction d as [|[k' n] d [IH1 IH2]]; cbn.
  - split; [intros x Hx; by apply elem_of_nil in Hx|]. exists k. split; [left|]. by apply key_eq_refl.
  - destruct (key_eq k' k) eqn:E; cbn.
    + split; [done|]. exists k'. split; [left|done].
    + split.
      * intros x Hx. apply elem_of_cons in Hx as [->|Hx]; [left|right; by apply IH1].
      * destruct IH2 as [x [Hx Hk]]. exists x. split; [by right|done].
Qed.

Lemma count_by_fold (keys : list Value) (d0 d : list (Value * nat)) :
  foldl (fun acc k => match acc with
                      | Some d => if hashable k then Some (count_key k d) else None
                      | None => None
                      end) (Some d0) keys = Some d →
  sum_list_with snd d = sum_list_with snd d0 + length keys ∧
  ((∀ e, e ∈ d0 → 0 < e.2) → ∀ e, e ∈ d → 0 < e.2) ∧
  (∀ x, x ∈ d0.*1 → x ∈ d.*1) ∧
  (∀ k, k ∈ keys → ∃ x, x ∈ d.*1 ∧ key_eq x k = true).
Proof.
  revert d0. induction keys as [|k keys IH]; intros d0 H; cbn in H.
  - injection H as <-. cbn. split; [lia|]. split; [done|]. split; [done|]. intros k Hk. by apply elem_of_nil in Hk.
  - destruct (hashable k) eqn:Hh.
    2: { exfalso. clear IH. induction keys as [|k' keys IHk]; cbn in H; [discriminate|exact (IHk H)]. }
    destruct (IH _ H) as (Hs & Hp & Hk & Hin). rewrite count_key_sum in Hs. cbn [length].
    split; [lia|]. split; [intros Hd; apply Hp, count_key_pos, Hd|].
    split; [intros x Hx; apply Hk, (proj1 (count_key_keys k d0 Hh)), Hx|].
    intros k' Hk'. apply elem_of_cons in Hk' as [->|Hk']; [|by apply Hin].
    destruct (proj2 (count_key_keys k d0 Hh)) as [x [Hx Hkx]]. exists x. split; [by apply Hk|done].
Qed.

Lemma count_by_spec (keys : list Value) (d : list (Value * nat)) :
  count_by keys = Some d →
  sum_list_with snd d = length keys ∧ (∀ e, e ∈ d → 0 < e.2) ∧
  (∀ k, k ∈ keys → ∃ x, x ∈ d.*1 ∧ key_eq x k = true).
Proof.
  intros H. destruct (count_by_fold keys [] d H) as (Hs & Hp & _ & Hin).
  split; [cbn in Hs; lia|]. split; [apply Hp; intros e He; by apply elem_of_nil in He|done].
Qed.

Lemma count_by_hashable (keys : list Value) :
  Forall (fun k => hashable k = true) keys → ∃ d, count_by keys = Some d.
Proof.
  unfold count_by. generalize (@nil (Value * nat)) as d0. induction keys as [|k keys IH]; intros d0 H; cbn.
  - by eexists.
  - apply Forall_cons in H as [Hk H]. rewrite Hk. by apply IH.
Qed.

Lemma value_is_unique (v : Value) (t1 t2 : string) : value_is v t1 = true → value_is v t2 = true → t1 = t2.
Proof. destruct v; try discriminate. cbn. intros H1 H2. apply String.eqb_eq in H1, H2. congruence. Qed.

Lemma value_is_node_type (g : DiGraph) (n t : string) :
  t ≠ "unknown" → value_is (get_default (node_data g n) "node_type" (VStr "unknown")) t = node_type_is g n t.
Proof.
  intros Ht. unfold node_type_is, get_default, get. destruct (node_data g n !! "node_type"); [done|].
  unfold value_is. by apply String.eqb_neq.
Qed.

Lemma in_edges_nil (g : DiGraph) (n : string) :
  length (in_edges g n) = 0 ↔ ∀ x, g_edges g !! (x, n) = None.
Proof.
  split.
  - intros H x. destruct (g_edges g !! (x, n)) eqn:E; [|done]. exfalso.
    assert (Hin : (x, n) ∈ in_edges g n) by (apply in_edges_elem; split; [done|by eexists]).
    destruct (in_edges g n); [by apply elem_of_nil in Hin|discriminate].
  - intros H. destruct (in_edges g n) as [|[u v] l] eqn:E; [done|]. exfalso.
    assert (Hin : (u, v) ∈ in_edges g n) by (rewrite E; left).
    apply in_edges_elem in Hin as [Hv [a Ha]]. cbn in Hv. subst v. by rewrite H in Ha.
Qed.

Lemma out_edges_nil (g : DiGraph) (n : string) :
  length (out_edges g n) = 0 ↔ ∀ y, g_edges g !! (n, y) = None.
Proof.
  split.
  - intros H y. destruct (g_edges g !! (n, y)) eqn:E; [|done]. exfalso.
    assert (Hin : (n, y) ∈ out_edges g n) by (apply out_edges_elem; split; [done|by eexists]).
    destruct (out_edges g n); [by apply elem_of_nil in Hin|discriminate].
  - intros H. destruct (out_edges g n) as [|[u v] l] eqn:E; [done|]. exfalso.
    assert (Hin : (u, v) ∈ out_edges g n) by (rewrite E; left).
    apply out_edges_elem in Hin as [Hu [a Ha]]. cbn in Hu. subst u. by rewrite H in Ha.
Qed.

Ltac close_iff :=
  split;
  [intros H; try discriminate; intros HH;
   repeat match type of HH with _ ∨ _ => destruct HH as [HH|HH] end;
   destruct HH as [H1 H2]; first [discriminate | congruence | lia]
  |intros H; first [reflexivity | exfalso; apply H; tauto]].

Lemma type_checks_issues (wt : bool) (nt : Value) (a : attrs) (i o : nat) :
  (type_checks wt nt a i o).1 =
  if value_is nt "patient" then (if truthy (get a "name") then [] else [PatientMissingName])
  else if value_is nt "condition" then (if Nat.eqb i 0 then [ConditionNotLinked] else [])
  else if value_is nt "medication" then (if Nat.eqb i 0 then [MedicationNotLinked] else [])
  else if value_is nt "research_article" then (if Nat.eqb o 0 then [ArticleNotLinked] else [])
  else [].
Proof.
  unfold type_checks. destruct (value_is nt "patient"), (value_is nt "condition"), (value_is nt "medication"),
    (value_is nt "research_article"), wt, (value_is nt "clinical_trial"); reflexivity.
Qed.

Lemma cp_issues_of (wt : bool) (g : DiGraph) (n : string) :
  cp_issues (completeness_of wt g n) =
  (type_checks wt (get_default (node_data g n) "node_type" (VStr "unknown")) (node_data g n)
               (length (in_edges g n)) (length (out_edges g n))).1.
Proof. unfold completeness_of. by destruct (type_checks _ _ _ _ _). Qed.

Lemma completeness_issues (wt : bool) (g : DiGraph) (n : string) :
  cp_issues (completeness_of wt g n) = [] ↔
  ¬ ((node_type_is g n "patient" = true ∧ truthy (get (node_data g n) "name") = false) ∨
     (node_type_is g n "condition" = true ∧ ∀ x, g_edges g !! (x, n) = None) ∨
     (node_type_is g n "medication" = true ∧ ∀ x, g_edges g !! (x, n) = None) ∨
     (node_type_is g n "research_article" = true ∧ ∀ y, g_edges g !! (n, y) = None)).
Proof.
  rewrite cp_issues_of, type_checks_issues, <- !in_edges_nil, <- !out_edges_nil.
  rewrite !value_is_node_type by done.
  assert (U : ∀ t1 t2, t1 ≠ t2 → node_type_is g n t1 = true → node_type_is g n t2 = false).
  { intros t1 t2 Hne H1. destruct (node_type_is g n t2) eqn:H2; [|done].
    exfalso. apply Hne. exact (node_type_is_unique g n t1 t2 H1 H2). }
  destruct (node_type_is g n "patient") eqn:Hp.
  { rewrite (U "patient" "condition"), (U "patient" "medication"), (U "patient" "research_article") by done.
    destruct (truthy (get (node_data g n) "name")) eqn:Ht; cbv beta iota; close_iff. }
  destruct (node_type_is g n "condition") eqn:Hc.
  { rewrite (U "condition" "medication"), (U "condition" "research_article") by done.
    destruct (Nat.eqb_spec (length (in_edges g n)) 0); cbv beta iota;
      close_iff. }
  destruct (node_type_is g n "medication") eqn:Hm.
  { rewrite (U "medication" "research_article") by done.
    destruct (Nat.eqb_spec (length (in_edges g n)) 0); cbv beta iota;
      close_iff. }
  destruct (node_type_is g n "research_article") eqn:Ha.
  { destruct (Nat.eqb_spec (length (out_edges g n)) 0); cbv beta iota;
      close_iff. }
  cbv beta iota. close_iff.
Qed.

Lemma cp_is_complete_of (wt : bool) (g : DiGraph) (n : string) :
  cp_is_complete (completeness_of wt g n) = Nat.eqb (length (cp_issues (completeness_of wt g n))) 0.
Proof. unfold completeness_of. by destruct (type_checks _ _ _ _ _). Qed.

Lemma completeness_trials (g : DiGraph) (n : string) :
  cp_issues (completeness_of true g n) = cp_issues (completeness_of false g n) ∧
  cp_is_complete (completeness_of true g n) = cp_is_complete (completeness_of false g n) ∧
  (node_type_is g n "clinical_trial" = false → completeness_of true g n = completeness_of false g n).
Proof.
  assert (Hi : cp_issues (completeness_of true g n) = cp_issues (completeness_of false g n))
    by (rewrite !cp_issues_of, !type_checks_issues; done).
  split; [done|]. split; [by rewrite !cp_is_complete_of, Hi|].
  intros Ht. unfold completeness_of. rewrite <- (value_is_node_type g n "clinical_trial") in Ht by done.
  unfold type_checks. rewrite Ht. cbn [andb]. done.
Qed.

Lemma bulk_check_step_inv (g : DiGraph) (s : CheckSummary) (r : list CheckEntry) (n : string) :
  cs_complete_nodes s + cs_nodes_with_issues s = cs_total_checked s →
  cs_nodes_with_suggestions s ≤ cs_total_checked s →
  sum_list_with snd (cs_issues_by_type s) = cs_nodes_with_issues s →
  sum_list_with snd (cs_suggestions_by_type s) = cs_nodes_with_suggestions s →
  cs_total_checked s = length (filter (fun e => entry_checked e = true) r) →
  let '(s', r') := bulk_check_step g (s, r) n in
  cs_complete_nodes s' + cs_nodes_with_issues s' = cs_total_checked s' ∧
  cs_nodes_with_suggestions s' ≤ cs_total_checked s' ∧
  sum_list_with snd (cs_issues_by_type s') = cs_nodes_with_issues s' ∧
  sum_list_with snd (cs_suggestions_by_type s') = cs_nodes_with_suggestions s' ∧
  cs_total_checked s' = length (filter (fun e => entry_checked e = true) r') ∧
  length r' = S (length r) ∧
  (has_node g n = true → cs_total_checked s' = S (cs_total_checked s)).
Proof.
  intros H1 H2 H3 H4 H5. unfold bulk_check_step. cbv beta iota.
  destruct (has_node g n); cbn [negb]; rewrite filter_app, length_app.
  - cbn [cs_total_checked cs_complete_nodes cs_nodes_with_issues cs_nodes_with_suggestions
         cs_issues_by_type cs_suggestions_by_type].
    rewrite cp_is_complete_of, length_app, filter_cons_True by done.
    destruct (cp_issues (completeness_of true g n)) as [|i l];
    destruct (cp_suggestions (completeness_of true g n)) as [|j m]; cbn;
    rewrite ?count_key_sum; repeat split; lia.
  - rewrite filter_cons_False by (cbn; discriminate). cbn. rewrite length_app. cbn. repeat split; try lia; discriminate.
Qed.

Lemma bulk_check_fold_inv (g : DiGraph) (L : list string) (s : CheckSummary) (r : list CheckEntry) :
  cs_complete_nodes s + cs_nodes_with_issues s = cs_total_checked s →
  cs_nodes_with_suggestions s ≤ cs_total_checked s →
  sum_list_with snd (cs_issues_by_type s) = cs_nodes_with_issues s →
  sum_list_with snd (cs_suggestions_by_type s) = cs_nodes_with_suggestions s →
  cs_total_checked s = length (filter (fun e => entry_checked e = true) r) →
  let '(s', r') := foldl (bulk_check_step g) (s, r) L in
  cs_complete_nodes s' + cs_nodes_with_issues s' = cs_total_checked s' ∧
  cs_nodes_with_suggestions s' ≤ cs_total_checked s' ∧
  sum_list_with snd (cs_issues_by_type s') = cs_nodes_with_issues s' ∧
  sum_list_with snd (cs_suggestions_by_type s') = cs_nodes_with_suggestions s' ∧
  cs_total_checked s' = length (filter (fun e => entry_checked e = true) r') ∧
  length r' = length r + length L ∧
  (Forall (fun x => has_node g x = true) L → cs_total_checked s' = cs_total_checked s + length L).
Proof.
  revert s r. induction L as [|x L IH]; intros s r H1 H2 H3 H4 H5; cbn [foldl].
  - repeat split; try done; lia.
  - pose proof (bulk_check_step_inv g s r x H1 H2 H3 H4 H5) as Hs.
    destruct (bulk_check_step g (s, r) x) as [s1 r1] eqn:E.
    destruct Hs as (G1 & G2 & G3 & G4 & G5 & G6 & G7).
    specialize (IH s1 r1 G1 G2 G3 G4 G5).
    destruct (foldl (bulk_check_step g) (s1, r1) L) as [s' r'].
    destruct IH as (I1 & I2 & I3 & I4 & I5 & I6 & I7).
    repeat split; try done.
    + rewrite I6, G6. cbn. lia.
    + intros HF. apply Forall_cons in HF as [Hx HF]. rewrite (I7 HF), (G7 Hx). cbn. lia.
Qed.

Lemma cyto_node_lookup (n : string) (a : attrs) :
  a !! "id" = None →
  cyto_node n a !! "id" = Some (VStr n) ∧ cyto_node n a !! "label" = Some (get_default a "label" (VStr n)).
Proof.
  intros Ha. unfold cyto_node. split.
  - rewrite lookup_union_r by (apply map_lookup_filter_None; by left). by rewrite lookup_insert_eq.
  - rewrite lookup_union_r by (apply map_lookup_filter_None; right; intros x _ [H _]; by apply H).
    rewrite lookup_insert_ne by done. by rewrite lookup_insert_eq.
Qed.

Lemma cyto_edge_lookup (i : nat) (u v : string) (a : attrs) :
  a !! "source" = None → a !! "target" = None →
  cyto_edge i u v a !! "source" = Some (VStr u) ∧ cyto_edge i u v a !! "target" = Some (VStr v) ∧
  (a !! "id" = None → cyto_edge i u v a !! "id" = Some (VStr ("edge_" +:+ pretty i))).
Proof.
  intros Hs Ht. unfold cyto_edge. split; [|split].
  - rewrite lookup_union_r by (rewrite lookup_delete_ne by done; done).
    rewrite lookup_insert_ne by done. by rewrite lookup_insert_eq.
  - rewrite lookup_union_r by (rewrite lookup_delete_ne by done; done).
    rewrite !lookup_insert_ne by done. by rewrite lookup_insert_eq.
  - intros Hi. rewrite lookup_union_r by (rewrite lookup_delete_ne by done; done).
    by rewrite lookup_insert_eq.
Qed.

Lemma add_research_article_eq (h : Z) (title : string) (authors : option (list string))
    (pd journal url abstract : option string) (keywords : option (list string)) (g : DiGraph) :
  let aid := "article_" +:+ pretty (h mod 10 ^ 8)%Z in
  let props := put_list "keywords" keywords (put_str "abstract" abstract (put_str "url" url
      (put_str "journal" journal (put_str "publication_date" pd
        (put_list "authors" authors (<["title" := VStr title]> ∅)))))) in
  add_research_article h title authors pd journal url abstract keywords g =
    (((add_node aid "research_article" title (Some props) g).1, aid), (add_node aid "research_article" title (Some props) g).2) ∧
  props !! "title" = Some (VStr title) ∧ props !! "node_type" = None ∧ props !! "label" = None ∧
  kwargs_clash add_node_params props = false.
Proof.
  intros aid props. split.
  - unfold add_research_article. fold aid. fold props. by destruct (add_node _ _ _ _ _).
  - unfold props. split; [|split; [|split]].
    1-3: repeat first [rewrite put_list_lookup_ne by done | rewrite put_str_lookup_ne by done].
    + apply lookup_insert_eq.
    + rewrite !lookup_insert_ne by done. apply lookup_empty.
    + rewrite !lookup_insert_ne by done. apply lookup_empty.
    + apply kwargs_clash_none.
      clash_free_keys_with ltac:(first [rewrite put_list_lookup_ne by done | rewrite put_str_lookup_ne by done]).
Qed.

Lemma add_research_article_spec (h : Z) (title : string) (authors : option (list string))
    (pd journal url abstract : option string) (keywords : option (list string)) (g : DiGraph) :
  graph_ok g → number_of_nodes g ≠ 0 →
  let aid := "article_" +:+ pretty (h mod 10 ^ 8)%Z in
  let r := add_research_article h title authors pd journal url abstract keywords g in
  r.1 = (OkAddedNode "research_article" aid, aid) ∧
  graph_ok r.2 ∧ g_edges r.2 = g_edges g ∧
  (∀ m, m ≠ aid → g_nodes r.2 !! m = g_nodes g !! m) ∧
  number_of_nodes r.2 = number_of_nodes g + (if has_node g aid then 0 else 1) ∧
  node_type_is r.2 aid "research_article" = true ∧
  node_data r.2 aid !! "title" = Some (VStr title) ∧
  node_data r.2 aid !! "label" = Some (VStr title).
Proof.
  intros Hok Hn aid r. unfold r.
  destruct (add_research_article_eq h title authors pd journal url abstract keywords g) as [-> (Ht & Hnt & Hl & Hc)].
  fold aid. cbn [fst snd].
  match goal with |- context [add_node aid "research_article" title (Some ?P) g] => set (props := P) in * end.
  destruct (add_node_spec g aid "research_article" title (Some props) Hok Hn Hc) as (R & Hok' & He & Hm & Hs & Hd).
  rewrite R. split; [done|]. split; [done|]. split; [done|]. split; [done|]. split; [done|].
  split; [|split].
  - unfold node_type_is, get. rewrite (Hd "node_type" ltac:(done)). cbn. rewrite Hnt. cbn. done.
  - rewrite (Hd "title" ltac:(done)). cbn. by rewrite Ht.
  - rewrite (Hd "label" ltac:(done)). cbn. by rewrite Hl.
Qed.

Lemma put_str_lookup_eq (k : string) (o : option string) (p : attrs) :
  put_str k o p !! k = match o with Some s => if String.eqb s "" then p !! k else Some (VStr s) | None => p !! k end.
Proof. destruct o as [s|]; cbn; [|done]. destruct (String.eqb s ""); [done|]. by rewrite lookup_insert_eq. Qed.

Lemma strip_wf_ok (g : DiGraph) : wf g → graph_ok (strip g).
Proof.
  intros Hwf. split; [|split].
  - intros u v a H. cbn in *. rewrite lookup_fmap in H. rewrite !lookup_fmap.
    destruct (g_edges g !! (u, v)) as [a0|] eqn:E; [|discriminate].
    destruct (Hwf u v a0 E) as [[x Hx] [y Hy]]. rewrite Hx, Hy. split; by eexists.
  - intros n a H. cbn in H. rewrite lookup_fmap in H. destruct (_ !! n); cbn in H; [|discriminate].
    injection H as <-. apply lookup_delete_eq.
  - intros e a H. cbn in H. rewrite lookup_fmap in H. destruct (_ !! e); cbn in H; [|discriminate].
    injection H as <-. unfold strip_edge. rewrite lookup_delete_ne, !lookup_delete_eq by done. done.
Qed.

Ltac bulk_err H :=
  cbv beta iota; split; [apply H|]; split; [lia|]; split; [done|]; split; [done|]; split; [by intros|]; lia.

Lemma bulk_rel_step_inv (i : nat) (rd : attrs) (added : list string) (errors : list BulkError) (h : DiGraph) :
  wf h →
  let '(added', errors', h') := bulk_rel_step i rd (added, errors, h) in
  length added' + length errors' = S (length added + length errors) ∧
  length added ≤ length added' ∧
  wf h' ∧ g_nodes h' = g_nodes h ∧
  (∀ e, is_Some (g_edges h !! e) → is_Some (g_edges h' !! e)) ∧
  size (g_edges h) ≤ size (g_edges h') ∧
  size (g_edges h') ≤ size (g_edges h) + (length added' - length added).
Proof.
  intros Hwf. unfold bulk_rel_step.
  assert (Herr : ∀ x, length added + length (errors ++ [x]) = S (length added + length errors))
    by (intros x; rewrite length_app; cbn; lia).
  repeat match goal with
  | |- context [if negb ?b then _ else _] => destruct b; cbn [negb]; [|bulk_err Herr]
  end.
  destruct (endpoint h (get rd "source_id")) as [s|] eqn:Es; [|bulk_err Herr].
  destruct (endpoint h (get rd "target_id")) as [t|] eqn:Et; [|bulk_err Herr].
  destruct (update_with _ _) as [a|]; cbv beta iota; [|bulk_err Herr].
  destruct (kwargs_clash add_edge_params a); [bulk_err Herr|].
  assert (Hs : is_Some (g_nodes h !! s)).
  { destruct (get rd "source_id") as [| | | |x| |]; cbn in Es; try discriminate.
    destruct (has_node h x) eqn:Hx; [|discriminate]. injection Es as <-. by apply bool_decide_eq_true in Hx. }
  assert (Ht : is_Some (g_nodes h !! t)).
  { destruct (get rd "target_id") as [| | | |x| |]; cbn in Et; try discriminate.
    destruct (has_node h x) eqn:Hx; [|discriminate]. injection Et as <-. by apply bool_decide_eq_true in Hx. }
  rewrite add_edge_nx_existing by done. rewrite length_app. cbn.
  split; [lia|]. split; [lia|]. split; [|split; [done|split]].
  - intros u v b Hb. cbn in *. destruct (decide ((s, t) = (u, v))) as [Heq|Hne].
    + injection Heq as <- <-. done.
    + rewrite lookup_insert_ne in Hb by done. exact (Hwf u v b Hb).
  - intros e He. cbn. destruct (decide ((s, t) = e)) as [<-|Hne].
    + rewrite lookup_insert_eq. by eexists.
    + by rewrite lookup_insert_ne.
  - cbn. rewrite map_size_insert. destruct (g_edges h !! (s, t)); cbn; lia.
Qed.

Lemma bulk_rels_loop_inv (rels : list attrs) (i : nat) (added : list string) (errors : list BulkError) (h : DiGraph) :
  wf h →
  let '(added', errors', h') := bulk_rels_loop i rels (added, errors, h) in
  length added' + length errors' = length added + length errors + length rels ∧
  length added ≤ length added' ∧
  wf h' ∧ g_nodes h' = g_nodes h ∧
  (∀ e, is_Some (g_edges h !! e) → is_Some (g_edges h' !! e)) ∧
  size (g_edges h) ≤ size (g_edges h') ∧
  size (g_edges h') ≤ size (g_edges h) + (length added' - length added).
Proof.
  revert i added errors h. induction rels as [|rd rels IH]; intros i added errors h Hwf; cbn [bulk_rels_loop].
  - cbv beta iota. cbn [length]. split; [lia|]. split; [lia|]. split; [done|]. split; [done|]. split; [by intros|]. lia.
  - pose proof (bulk_rel_step_inv i rd added errors h Hwf) as Hs.
    destruct (bulk_rel_step i rd (added, errors, h)) as [[a1 e1] h1].
    destruct Hs as (S1 & S2 & S3 & S4 & S5 & S7 & S6).
    specialize (IH (S i) a1 e1 h1 S3).
    destruct (bulk_rels_loop (S i) rels (a1, e1, h1)) as [[a2 e2] h2].
    destruct IH as (I1 & I2 & I3 & I4 & I5 & I7 & I6).
    cbv beta iota. cbn [length]. split; [lia|]. split; [lia|]. split; [done|]. split; [congruence|]. split; [auto|]. split; lia.
Qed.

(** * Claims *)

(** C7: for every graph and every call [add_relationship(A, B, X)] in which
    node [B] does not exist, the tool fails with a node-not-found error and
    the graph (so its edge count, every node and every edge) is unchanged. *)
Theorem add_relationship_missing_target (g : DiGraph) (A B X : string) (properties : option attrs) :
  g_nodes g !! B = None →
  node_not_found (add_relationship A B X properties g).1 = true ∧
  (add_relationship A B X properties g).2 = g ∧
  number_of_edges (add_relationship A B X properties g).2 = number_of_edges g.
Proof.
  intros HB. unfold add_relationship. rewrite (has_node_false g B HB).
  destruct (has_node g A); cbn; auto.
Qed.

Lemma add_relationship_missing_target_witness :
  g_nodes g_hyp !! "B" = None ∧
  node_not_found (add_relationship "P1" "B" "X" None g_hyp).1 = true ∧
  (add_relationship "P1" "B" "X" None g_hyp).2 = g_hyp ∧
  number_of_edges (add_relationship "P1" "B" "X" None g_hyp).2 = number_of_edges g_hyp.
Proof.
  split; [vm_compute; reflexivity|].
  apply (add_relationship_missing_target g_hyp "P1" "B" "X" None). vm_compute. reflexivity.
Defined.

(** C3 (counterexample): on the zero-node graph, [delete_node] does not
    fail with a not-initialized error but with a node-not-found error, and
    [bulk_add_relationships] returns a bulk report instead of an error. *)
Lemma empty_graph_not_all_not_initialized :
  delete_node "P1" empty_graph = (ErrNodeNotFound "Node" "P1", empty_graph) ∧
  not_initialized (delete_node "P1" empty_graph).1 = false ∧
  bulk_add_relationships [] empty_graph = (OkBulk [] [], empty_graph).
Proof. split; [|split]; reflexivity. Qed.

(** C3 (amended): on a graph with zero nodes, [add_node],
    [bulk_add_nodes], [add_research_article], [add_clinical_trial],
    [get_patient_overview], [find_related_research],
    [export_graph_summary], [validate_graph_structure],
    [check_node_completeness], [bulk_check_node_completeness],
    [analyze_graph_connectivity], [list_all_nodes_by_type],
    [get_node_relationships], [save_graph_to_disk] and
    [export_graph_as_cytoscape_json] fail with a not-initialized error;
    [add_relationship], [link_article_to_condition], [delete_node],
    [delete_relationship] and [merge_duplicate_nodes] fail with a
    node-not-found error; [add_patient_condition] and
    [add_patient_medication] return the not-initialized error of their node
    step joined with the node-not-found error of their edge step;
    [bulk_add_relationships] adds nothing and reports one error per entry;
    [bulk_link_articles_to_conditions] finds no valid link and reports one
    error per entry.  The graph stays empty in every case. *)
Theorem empty_graph_operations (g : DiGraph) :
  graph_ok g → number_of_nodes g = 0 →
  g = empty_graph ∧
  (∀ id t l p, add_node id t l p g = (ErrNotInitialized, g)) ∧
  (∀ nodes, AnyIds.bulk_add_nodes nodes (AnyIds.of_graph g) = (inl ErrNotInitialized, AnyIds.of_graph g)) ∧
  (∀ h title authors date journal url abstract keywords,
     add_research_article h title authors date journal url abstract keywords g
     = ((ErrNotInitialized, "article_" +:+ pretty (Z.modulo h (10 ^ 8))), g)) ∧
  (∀ tid title phase status conditions interventions url,
     add_clinical_trial tid title phase status conditions interventions url g = (ErrNotInitialized, g)) ∧
  (∀ pid, get_patient_overview pid g = inl ErrNotInitialized) ∧
  (∀ cid m, find_related_research cid m g = Some (inl ErrNotInitialized)) ∧
  export_graph_summary g = Some (inl ErrNotInitialized) ∧
  validate_graph_structure g = inl ErrNotInitialized ∧
  (∀ n, check_node_completeness n g = inl ErrNotInitialized) ∧
  (∀ ids ty, bulk_check_node_completeness ids ty g = inl ErrNotInitialized) ∧
  analyze_graph_connectivity g = Some (inl ErrNotInitialized) ∧
  (∀ ty, list_all_nodes_by_type ty g = inl ErrNotInitialized) ∧
  (∀ n, get_node_relationships n g = inl ErrNotInitialized) ∧
  save_graph_to_disk g = inl ErrNotInitialized ∧
  export_graph_as_cytoscape_json g = inl ErrNotInitialized ∧
  (∀ s t rt p, add_relationship s t rt p g = (ErrNodeNotFound "Source" s, g)) ∧
  (∀ a c rel conf, link_article_to_condition a c rel conf g = (ErrNodeNotFound "Source" a, g)) ∧
  (∀ n, delete_node n g = (ErrNodeNotFound "Node" n, g)) ∧
  (∀ s t, delete_relationship s t g = (ErrNodeNotFound "Source" s, g)) ∧
  (∀ p d, merge_duplicate_nodes p d g = (ErrNodeNotFound "Primary" p, g)) ∧
  (∀ lower pid name icd symptoms, add_patient_condition lower pid name icd symptoms g
      = (Joined ErrNotInitialized (ErrNodeNotFound "Source" pid), g)) ∧
  (∀ lower pid name dosage side_effects, add_patient_medication lower pid name dosage side_effects g
      = (Joined ErrNotInitialized (ErrNodeNotFound "Source" pid), g)) ∧
  (∀ rels, ∃ errs, bulk_add_relationships rels g = (OkBulk [] errs, g) ∧ length errs = length rels) ∧
  (∀ links, ∃ errs, bulk_link_articles_to_conditions links g = (NoValidLinks errs, g) ∧
                    length errs = length links).
Proof.
  intros [Hwf _] Hn. pose proof (zero_nodes_empty g Hwf Hn) as ->.
  assert (Hno : ∀ n, has_node empty_graph n = false) by (intros n; apply has_node_false, lookup_empty).
  split; [done|].
  repeat split; intros;
    unfold add_node, AnyIds.bulk_add_nodes, add_research_article, add_clinical_trial, get_patient_overview,
      find_related_research, export_graph_summary, check_node_completeness,
      bulk_check_node_completeness, list_all_nodes_by_type, get_node_relationships,
      export_graph_as_cytoscape_json, add_relationship, link_article_to_condition, delete_node,
      delete_relationship, merge_duplicate_nodes, add_patient_condition, add_patient_medication;
    rewrite ?Hno; try reflexivity.
  - unfold bulk_add_relationships. destruct (bulk_rels_loop_empty rels 0 [] []) as [errs [-> Hlen]].
    exists errs. split; [|done]. reflexivity.
  - unfold bulk_link_articles_to_conditions. destruct (bulk_link_loop_empty links 0 []) as [errs [-> Hlen]].
    exists errs. split; [|done]. reflexivity.
Qed.

Lemma empty_graph_operations_witness :
  (graph_ok empty_graph ∧ number_of_nodes empty_graph = 0) ∧
  delete_node "P1" empty_graph = (ErrNodeNotFound "Node" "P1", empty_graph).
Proof.
  split; [split; [apply empty_graph_ok | reflexivity]|].
  apply (empty_graph_operations empty_graph empty_graph_ok eq_refl).
Defined.

(** C4 (counterexample): on the graph holding only patient [P1],
    [add_patient_condition("P2", "Flu")] (with [str.lower], which maps
    ["Flu"] to ["flu"] as [ascii_lower] does) returns an error (its edge step
    finds no node [P2]) and still leaves a new node [condition_flu]. *)
Lemma add_patient_condition_error_mutates :
  is_error (add_patient_condition ascii_lower "P2" "Flu" None None g_alice).1 = true ∧
  (add_patient_condition ascii_lower "P2" "Flu" None None g_alice).2 ≠ g_alice ∧
  number_of_nodes g_alice = 1 ∧
  number_of_nodes (add_patient_condition ascii_lower "P2" "Flu" None None g_alice).2 = 2.
Proof.
  split; [vm_compute; reflexivity|]. split; [|split; vm_compute; reflexivity].
  intros H. apply (f_equal number_of_nodes) in H. vm_compute in H. discriminate.
Qed.

Lemma add_node_error (node_id node_type label : string) (properties : option attrs) (g : DiGraph) :
  is_error (add_node node_id node_type label properties g).1 = true →
  (add_node node_id node_type label properties g).2 = g.
Proof.
  unfold add_node. destruct (Nat.eqb _ 0); [cbn; done|].
  destruct (kwargs_clash add_node_params _); cbn; [done | discriminate].
Qed.

Lemma add_relationship_error (s t rt : string) (properties : option attrs) (g : DiGraph) :
  is_error (add_relationship s t rt properties g).1 = true → (add_relationship s t rt properties g).2 = g.
Proof.
  unfold add_relationship. destruct (has_node g s), (has_node g t); cbn [negb]; try (cbn; done).
  destruct (kwargs_clash add_edge_params _); cbn; [done | discriminate].
Qed.

Lemma delete_node_error (n : string) (g : DiGraph) :
  is_error (delete_node n g).1 = true → (delete_node n g).2 = g.
Proof. unfold delete_node. destruct (has_node g n); cbn; done. Qed.

Lemma delete_relationship_error (s t : string) (g : DiGraph) :
  is_error (delete_relationship s t g).1 = true → (delete_relationship s t g).2 = g.
Proof. unfold delete_relationship. destruct (has_node g s), (has_node g t), (has_edge g s t); cbn; done. Qed.

Lemma merge_duplicate_nodes_error (p d : string) (g : DiGraph) :
  is_error (merge_duplicate_nodes p d g).1 = true → (merge_duplicate_nodes p d g).2 = g.
Proof.
  unfold merge_duplicate_nodes. destruct (has_node g p), (has_node g d), (String.eqb p d); cbn; try done.
  all: repeat match goal with |- context [let '(_, _) := ?x in _] => destruct x end; cbn; discriminate.
Qed.

Lemma add_node_attrs_no_id (node_type label : string) (properties : option attrs) :
  (∀ p, properties = Some p → p !! "id" = None) →
  (match properties with
   | Some p => if bool_decide (p = ∅) then <["node_type" := VStr node_type]> (<["label" := VStr label]> ∅)
               else p ∪ <["node_type" := VStr node_type]> (<["label" := VStr label]> ∅)
   | None => <["node_type" := VStr node_type]> (<["label" := VStr label]> ∅)
   end) !! "id" = None.
Proof.
  intros Hp. assert (Hb : (<["node_type" := VStr node_type]> (<["label" := VStr label]> (∅ : attrs))) !! "id" = None).
  { rewrite !lookup_insert_ne by done. apply lookup_empty. }
  destruct properties as [p|]; [|done]. case_bool_decide; [done|].
  rewrite lookup_union, (Hp p eq_refl), Hb. done.
Qed.

(** [add_patient_condition] and [add_patient_medication] share this shape:
    [add_node] of a derived id, then (unless it raised) [add_relationship]
    from the patient to it. *)
Lemma node_then_link_error (g : DiGraph) (cid ty lbl pid rt : string) (props : attrs) (r : Reply * DiGraph) :
  r = (let '(result, g1) := add_node cid ty lbl (Some props) g in
       match result with
       | Raises e => (Raises e, g1)
       | _ => let '(rr, g2) := add_relationship pid cid rt None g1 in (Joined result rr, g2)
       end) →
  graph_ok g → is_error r.1 = true →
  r.2 = g ∨ (g_edges r.2 = g_edges g ∧ is_Some (g_nodes r.2 !! cid) ∧
             ∀ n, n ≠ cid → g_nodes r.2 !! n = g_nodes g !! n).
Proof.
  intros -> Hok Herr. unfold add_node in *.
  destruct (Nat.eqb (number_of_nodes g) 0) eqn:Hz.
  - left. apply Nat.eqb_eq in Hz. pose proof (zero_nodes_empty g (proj1 Hok) Hz) as ->.
    cbv beta iota. unfold add_relationship. rewrite has_node_false by apply lookup_empty. reflexivity.
  - revert Herr. destruct (kwargs_clash _ _); cbv beta iota; [by left|]. intros Herr.
    set (g1 := save_graph (add_node_nx cid _ g)) in *.
    pose proof (add_relationship_error pid cid rt None g1) as H.
    destruct (add_relationship pid cid rt None g1) as [rr g2]. cbn in Herr, H |- *.
    rewrite H by exact Herr. right. unfold g1. rewrite save_add_node by done. cbn.
    split; [done|]. split; [rewrite lookup_insert_eq; by eexists|].
    intros n Hn. by rewrite lookup_insert_ne by congruence.
Qed.

Lemma node_then_link_missing (g : DiGraph) (cid ty lbl pid rt : string) (props : attrs) (r : Reply * DiGraph) :
  r = (let '(result, g1) := add_node cid ty lbl (Some props) g in
       match result with
       | Raises e => (Raises e, g1)
       | _ => let '(rr, g2) := add_relationship pid cid rt None g1 in (Joined result rr, g2)
       end) →
  graph_ok g → number_of_nodes g ≠ 0 → g_nodes g !! pid = None → pid ≠ cid →
  kwargs_clash add_node_params props = false →
  is_error r.1 = true ∧ g_edges r.2 = g_edges g ∧ is_Some (g_nodes r.2 !! cid) ∧
  (∀ n, n ≠ cid → g_nodes r.2 !! n = g_nodes g !! n).
Proof.
  intros -> Hok Hn Hp Hne Hc.
  destruct (add_node_spec g cid ty lbl (Some props) Hok Hn Hc) as (R1 & _ & He1 & Hm1 & _ & Hd1).
  destruct (add_node cid ty lbl (Some props) g) as [res g1]. cbn in R1, He1, Hm1, Hd1. subst res.
  cbv beta iota. unfold add_relationship. rewrite (has_node_false g1 pid) by (rewrite Hm1 by done; exact Hp).
  cbn. split; [done|]. split; [done|]. split; [|done].
  pose proof (Hd1 "node_type" ltac:(done)) as H. unfold node_data in H.
  destruct (g_nodes g1 !! cid); [by eexists|]. rewrite lookup_empty in H. cbn in H.
  destruct (props !! "node_type"); discriminate.
Qed.

Lemma condition_props_no_clash (icd : option string) (symptoms : option (list string)) :
  kwargs_clash add_node_params
    (match symptoms with
     | Some (_ :: _ as l) => <["symptoms" := VList (map VStr l)]>
         (match icd with Some c => if String.eqb c "" then ∅ else <["icd_code" := VStr c]> ∅ | None => ∅ end)
     | _ => match icd with Some c => if String.eqb c "" then ∅ else <["icd_code" := VStr c]> ∅ | None => ∅ end
     end) = false.
Proof.
  destruct icd as [c|]; [destruct (String.eqb c "")|]; destruct symptoms as [[|x l]|];
    cbv beta iota; clash_free.
Qed.

Lemma medication_props_no_clash (dosage : option string) (side_effects : option (list string)) :
  kwargs_clash add_node_params (put_list "side_effects" side_effects (put_str "dosage" dosage ∅)) = false.
Proof.
  apply kwargs_clash_none.
  clash_free_keys_with ltac:(first [rewrite put_list_lookup_ne by done | rewrite put_str_lookup_ne by done]).
Qed.

(** C4 (amended): [add_node], [add_relationship], [add_research_article],
    [link_article_to_condition], [add_clinical_trial], [delete_node],
    [delete_relationship] and [merge_duplicate_nodes] leave the graph as it
    was whenever they reply with an error or raise.  When
    [add_patient_condition] or [add_patient_medication] (for any lowering
    function [lower]) reply with an error on a well-formed graph, either
    the graph is unchanged, or its edges are unchanged, the derived node
    [condition_<name>] (resp. [medication_<name>]) exists and no other node
    changed.  The second case happens: on an initialized graph with a
    [patient_id] that is not a node (and is not the derived id) they reply
    with an error, add no edge, and the upserted derived node stays. *)
Theorem single_item_errors (g : DiGraph) :
  (∀ id t l p, is_error (add_node id t l p g).1 = true → (add_node id t l p g).2 = g) ∧
  (∀ s t rt p, is_error (add_relationship s t rt p g).1 = true → (add_relationship s t rt p g).2 = g) ∧
  (∀ h title authors date journal url abstract keywords,
     is_error (add_research_article h title authors date journal url abstract keywords g).1.1 = true →
     (add_research_article h title authors date journal url abstract keywords g).2 = g) ∧
  (∀ a c rel conf, is_error (link_article_to_condition a c rel conf g).1 = true →
     (link_article_to_condition a c rel conf g).2 = g) ∧
  (∀ tid title phase status conditions interventions url,
     is_error (add_clinical_trial tid title phase status conditions interventions url g).1 = true →
     (add_clinical_trial tid title phase status conditions interventions url g).2 = g) ∧
  (∀ n, is_error (delete_node n g).1 = true → (delete_node n g).2 = g) ∧
  (∀ s t, is_error (delete_relationship s t g).1 = true → (delete_relationship s t g).2 = g) ∧
  (∀ p d, is_error (merge_duplicate_nodes p d g).1 = true → (merge_duplicate_nodes p d g).2 = g) ∧
  (∀ lower pid name icd symptoms,
     graph_ok g → is_error (add_patient_condition lower pid name icd symptoms g).1 = true →
     (add_patient_condition lower pid name icd symptoms g).2 = g ∨
     (g_edges (add_patient_condition lower pid name icd symptoms g).2 = g_edges g ∧
      is_Some (g_nodes (add_patient_condition lower pid name icd symptoms g).2
                 !! ("condition_" +:+ lower_replace lower name)) ∧
      ∀ n, n ≠ "condition_" +:+ lower_replace lower name →
        g_nodes (add_patient_condition lower pid name icd symptoms g).2 !! n = g_nodes g !! n)) ∧
  (∀ lower pid name dosage side_effects,
     graph_ok g → is_error (add_patient_medication lower pid name dosage side_effects g).1 = true →
     (add_patient_medication lower pid name dosage side_effects g).2 = g ∨
     (g_edges (add_patient_medication lower pid name dosage side_effects g).2 = g_edges g ∧
      is_Some (g_nodes (add_patient_medication lower pid name dosage side_effects g).2
                 !! ("medication_" +:+ lower_replace lower name)) ∧
      ∀ n, n ≠ "medication_" +:+ lower_replace lower name →
        g_nodes (add_patient_medication lower pid name dosage side_effects g).2 !! n = g_nodes g !! n)) ∧
  (∀ lower pid name icd symptoms,
     graph_ok g → number_of_nodes g ≠ 0 → g_nodes g !! pid = None →
     pid ≠ "condition_" +:+ lower_replace lower name →
     is_error (add_patient_condition lower pid name icd symptoms g).1 = true ∧
     g_edges (add_patient_condition lower pid name icd symptoms g).2 = g_edges g ∧
     is_Some (g_nodes (add_patient_condition lower pid name icd symptoms g).2
                !! ("condition_" +:+ lower_replace lower name)) ∧
     (∀ n, n ≠ "condition_" +:+ lower_replace lower name →
        g_nodes (add_patient_condition lower pid name icd symptoms g).2 !! n = g_nodes g !! n)) ∧
  (∀ lower pid name dosage side_effects,
     graph_ok g → number_of_nodes g ≠ 0 → g_nodes g !! pid = None →
     pid ≠ "medication_" +:+ lower_replace lower name →
     is_error (add_patient_medication lower pid name dosage side_effects g).1 = true ∧
     g_edges (add_patient_medication lower pid name dosage side_effects g).2 = g_edges g ∧
     is_Some (g_nodes (add_patient_medication lower pid name dosage side_effects g).2
                !! ("medication_" +:+ lower_replace lower name)) ∧
     (∀ n, n ≠ "medication_" +:+ lower_replace lower name →
        g_nodes (add_patient_medication lower pid name dosage side_effects g).2 !! n = g_nodes g !! n)).
Proof.
  split; [intros; by apply add_node_error|].
  split; [intros; by apply add_relationship_error|].
  split; [intros ????????; unfold add_research_article;
          destruct (add_node _ _ _ _ g) eqn:E; cbn; intros H;
          match type of E with add_node ?a ?b ?c ?d g = _ => pose proof (add_node_error a b c d g) as He end;
          rewrite E in He; by apply He|].
  split; [intros; by apply add_relationship_error|].
  split; [intros; by apply add_node_error|].
  split; [intros; by apply delete_node_error|].
  split; [intros; by apply delete_relationship_error|].
  split; [intros; by apply merge_duplicate_nodes_error|].
  split; [intros; (eapply node_then_link_error; [unfold add_patient_condition; reflexivity | done..])|].
  split; [intros; (eapply node_then_link_error; [unfold add_patient_medication; reflexivity | done..])|].
  split; [intros; (eapply node_then_link_missing; [unfold add_patient_condition; reflexivity | done..|]);
          apply condition_props_no_clash|].
  intros; (eapply node_then_link_missing; [unfold add_patient_medication; reflexivity | done..|]);
    apply medication_props_no_clash.
Qed.

Lemma single_item_errors_witness :
  (graph_ok g_alice ∧ number_of_nodes g_alice ≠ 0 ∧ g_nodes g_alice !! "P2" = None ∧
   "P2" ≠ "condition_" +:+ lower_replace ascii_lower "Flu") ∧
  is_error (add_patient_condition ascii_lower "P2" "Flu" None None g_alice).1 = true.
Proof.
  assert (Hok : graph_ok g_alice).
  { unfold g_alice. cbn [snd initialize_patient_graph]. rewrite save_graph_ok; apply add_node_nx_ok;
      try apply empty_graph_ok; vm_compute; reflexivity. }
  assert (Hn : number_of_nodes g_alice ≠ 0) by (vm_compute; discriminate).
  assert (Hp : g_nodes g_alice !! "P2" = None) by (vm_compute; reflexivity).
  assert (Hne : "P2" ≠ "condition_" +:+ lower_replace ascii_lower "Flu") by (vm_compute; discriminate).
  split; [tauto|].
  destruct (single_item_errors g_alice) as (_ & _ & _ & _ & _ & _ & _ & _ & _ & _ & H & _).
  exact (proj1 (H ascii_lower "P2" "Flu" None None Hok Hn Hp Hne)).
Defined.

(** C2 (counterexample): in [g_loop] the condition [C1] carries a
    self-loop [C1 -> C1].  Merging [C1] into [P1] turns that loop into an
    edge [C1 -> P1] and then deletes it together with [C1]: the edge
    [(x, duplicate)] with [x = C1 <> P1] has no [(x, primary)] counterpart
    afterwards. *)
Lemma merge_self_loop_not_transferred :
  is_Some (g_edges g_loop !! ("C1", "C1")) ∧ "C1" ≠ "P1" ∧
  g_edges (merge_duplicate_nodes "P1" "C1" g_loop).2 !! ("C1", "P1") = None.
Proof. split; [eexists; vm_compute; reflexivity | split; [discriminate | vm_compute; reflexivity]]. Qed.

(** C2 (amended): for every graph the tools hold ([graph_ok]: every edge
    joins two nodes, and no reserved node-link key is an attribute) in
    which [primary] and [duplicate] both exist and differ,
    [merge_duplicate_nodes(primary, duplicate)] leaves a graph in which the
    duplicate is absent; every key of the duplicate that was absent or null
    on the primary holds the duplicate's value on the primary, every other
    key of the primary keeps its value (a null one stays null), and no
    other key appears on the primary; for every edge
    [(x, duplicate)] with [x] neither the primary nor the duplicate, an edge
    [(x, primary)] exists, carrying its own attributes if it existed
    before and the attributes of [(x, duplicate)] otherwise; symmetrically
    for edges [(duplicate, y)]; and the primary's self-loop is exactly what
    it was before (no edge between primary and duplicate becomes one). *)
Theorem merge_duplicate_nodes_spec (g : DiGraph) (p d : string) :
  graph_ok g → is_Some (g_nodes g !! p) → is_Some (g_nodes g !! d) → p ≠ d →
  g_nodes (merge_duplicate_nodes p d g).2 !! d = None ∧
  (∃ a, g_nodes (merge_duplicate_nodes p d g).2 !! p = Some a ∧
     ∀ k, a !! k = if missing_or_none (node_data g p) k
                   then match node_data g d !! k with Some v => Some v | None => node_data g p !! k end
                   else node_data g p !! k) ∧
  (∀ x a, x ≠ p → x ≠ d → g_edges g !! (x, d) = Some a →
     g_edges (merge_duplicate_nodes p d g).2 !! (x, p) =
     Some (match g_edges g !! (x, p) with Some b => b | None => a end)) ∧
  (∀ y a, y ≠ p → y ≠ d → g_edges g !! (d, y) = Some a →
     g_edges (merge_duplicate_nodes p d g).2 !! (p, y) =
     Some (match g_edges g !! (p, y) with Some b => b | None => a end)) ∧
  g_edges (merge_duplicate_nodes p d g).2 !! (p, p) = g_edges g !! (p, p).
Proof.
  intros Hok Hp Hd Hpd.
  destruct (merge_result p d g Hok Hp Hd Hpd) as (_ & _ & Hdn & Hpn & He).
  split; [done|]. split; [|split; [|split]].
  - eexists. split; [exact Hpn|]. intros k. apply merge_attrs_lookup.
  - intros x a Hx Hxd Ha. rewrite He. unfold edge_data. rewrite Ha.
    destruct (g_edges g !! (x, p)) as [b|] eqn:Exp; repeat case_decide; naive_solver.
  - intros y a Hy Hyd Ha. rewrite He. unfold edge_data. rewrite Ha.
    destruct (g_edges g !! (p, y)) as [b|] eqn:Epy; repeat case_decide; naive_solver.
  - rewrite He. repeat case_decide; naive_solver.
Qed.

Lemma merge_duplicate_nodes_spec_witness :
  (graph_ok g_hyp ∧ is_Some (g_nodes g_hyp !! "P1") ∧ is_Some (g_nodes g_hyp !! "C1") ∧ "P1" ≠ "C1") ∧
  g_nodes (merge_duplicate_nodes "P1" "C1" g_hyp).2 !! "C1" = None.
Proof.
  assert (Hok : graph_ok g_hyp) by (apply graph_ok_b_sound; vm_compute; reflexivity).
  assert (Hp : is_Some (g_nodes g_hyp !! "P1")) by (eexists; vm_compute; reflexivity).
  assert (Hd : is_Some (g_nodes g_hyp !! "C1")) by (eexists; vm_compute; reflexivity).
  assert (Hne : "P1" ≠ "C1") by discriminate.
  split; [tauto|].
  apply (proj1 (merge_duplicate_nodes_spec g_hyp "P1" "C1" Hok Hp Hd Hne)).
Defined.

(** C9 (counterexample): merging [C1] into [P1] in [g_loop] reports
    [merged_attributes = ["node_type"; "label"]] although both keys are
    already set (non-null) on [P1], so nothing was merged; it also reports
    one transferred edge, the copy [C1 -> P1] of the self-loop, which the
    deletion of [C1] removes again: the merged graph has no edge at all. *)
Lemma merge_reports_unmerged_keys :
  (merge_duplicate_nodes "P1" "C1" g_loop).1 = OkMerged "P1" "C1" 1 ["node_type"; "label"] ∧
  missing_or_none (node_data g_loop "P1") "node_type" = false ∧
  missing_or_none (node_data g_loop "P1") "label" = false ∧
  number_of_edges (merge_duplicate_nodes "P1" "C1" g_loop).2 = 0.
Proof. vm_compute. repeat split. Qed.

(** C9 (amended): for every successful [merge_duplicate_nodes(primary,
    duplicate)] on a graph the tools hold, [edges_transferred] is the
    number of predecessors [x <> primary] of the duplicate with no edge
    [x -> primary], plus the number of successors [y <> primary] of the
    duplicate with no edge [primary -> y], both counted on the graph before
    the merge (a self-loop on the duplicate is counted although its copy is
    deleted with the duplicate); [merged_attributes] lists every key of the
    duplicate, once each, whether or not it was merged (the dictionary's
    key order is not modelled). *)
Theorem merge_duplicate_nodes_report (g : DiGraph) (p d : string) :
  graph_ok g → is_Some (g_nodes g !! p) → is_Some (g_nodes g !! d) → p ≠ d →
  ∃ ks, (merge_duplicate_nodes p d g).1 =
          OkMerged p d
            (length (filter (fun x => x ≠ p ∧ g_edges g !! (x, p) = None) (predecessors g d)) +
             length (filter (fun y => y ≠ p ∧ g_edges g !! (p, y) = None) (successors g d)))
            ks ∧
        NoDup ks ∧ (∀ k, k ∈ ks ↔ is_Some (node_data g d !! k)).
Proof.
  intros Hok Hp Hd Hpd.
  destruct (merge_result p d g Hok Hp Hd Hpd) as (Hr & _).
  eexists. split; [exact Hr|]. rewrite map_fmap_eq. split.
  - apply NoDup_fst_map_to_list.
  - intros k. rewrite list_elem_of_fmap. split.
    + intros [[k' v] [-> Hin]]. apply elem_of_map_to_list in Hin. by eexists.
    + intros [v Hv]. exists (k, v). split; [done|]. by apply elem_of_map_to_list.
Qed.

Lemma merge_duplicate_nodes_report_witness :
  (graph_ok g_loop ∧ is_Some (g_nodes g_loop !! "P1") ∧ is_Some (g_nodes g_loop !! "C1") ∧ "P1" ≠ "C1") ∧
  ∃ ks, (merge_duplicate_nodes "P1" "C1" g_loop).1 =
          OkMerged "P1" "C1"
            (length (filter (fun x => x ≠ "P1" ∧ g_edges g_loop !! (x, "P1") = None) (predecessors g_loop "C1")) +
             length (filter (fun y => y ≠ "P1" ∧ g_edges g_loop !! ("P1", y) = None) (successors g_loop "C1")))
            ks ∧
        NoDup ks ∧ (∀ k, k ∈ ks ↔ is_Some (node_data g_loop "C1" !! k)).
Proof.
  assert (Hok : graph_ok g_loop) by (apply graph_ok_b_sound; vm_compute; reflexivity).
  assert (Hp : is_Some (g_nodes g_loop !! "P1")) by (eexists; vm_compute; reflexivity).
  assert (Hd : is_Some (g_nodes g_loop !! "C1")) by (eexists; vm_compute; reflexivity).
  assert (Hne : "P1" ≠ "C1") by discriminate.
  split; [tauto|].
  apply (merge_duplicate_nodes_report g_loop "P1" "C1" Hok Hp Hd Hne).
Defined.

(** C5: for every non-empty graph [G] the session can hold (the graph
    [_get_graph] reads back from the stored document), the JSON document
    [save_graph_to_disk] writes is [nx.node_link_data(G)] (edge list under
    the default key ["edges"]), and [load_graph_from_disk] on that document
    rebuilds exactly [G]: the same nodes and edges with the same attribute
    keys and values, hence the same node and edge counts; the graph it
    stores with [_save_graph] (edge list under ["links"]) is read back as
    [G] again.
    ([json.dump] and [json.load] are taken to return the document
    unchanged.  A graph holding a node attribute ["id"] or an edge
    attribute ["source"]/["target"] would lose it, but no session graph
    holds one: the serialisation after every tool call drops them.) *)
Theorem save_load_roundtrip (kg_data : option Value) (G : DiGraph) :
  get_graph kg_data = Some G → number_of_nodes G ≠ 0 →
  save_graph_to_disk G = inr (node_link_data "edges" G) ∧
  load_graph_from_disk (node_link_data "edges" G) = Some G ∧
  get_graph (Some (node_link_data "links" G)) = Some G.
Proof.
  intros Hg Hn. destruct (get_graph_ok kg_data G Hg) as [Hwf Hs].
  assert (Hrt : ∀ k, k ≠ "nodes" → node_link_graph k (node_link_data k G) = Some G)
    by (intros k Hk; rewrite node_link_graph_data by done; by rewrite strip_stripped).
  split; [|split].
  - unfold save_graph_to_disk. apply Nat.eqb_neq in Hn. by rewrite Hn.
  - unfold load_graph_from_disk. by rewrite Hrt.
  - by apply Hrt.
Qed.

Lemma save_load_roundtrip_witness :
  (get_graph (Some (node_link_data "links" g_hyp)) = Some g_hyp ∧ number_of_nodes g_hyp ≠ 0) ∧
  load_graph_from_disk (node_link_data "edges" g_hyp) = Some g_hyp.
Proof.
  assert (Hg : get_graph (Some (node_link_data "links" g_hyp)) = Some g_hyp) by (vm_compute; reflexivity).
  assert (Hn : number_of_nodes g_hyp ≠ 0) by (vm_compute; discriminate).
  split; [tauto|].
  apply (proj1 (proj2 (save_load_roundtrip (Some (node_link_data "links" g_hyp)) g_hyp Hg Hn))).
Defined.

(** C10: whenever [get_patient_overview(patient_id)] succeeds on a graph
    the tools hold, its conditions are the patient's successors of type
    [condition] reached by a [HAS_CONDITION] edge, and
    [research_articles_count] is the sum, over these conditions, of the
    number of [research_article] predecessors of each.  Equivalently, every
    research-article node contributes the number of those conditions it has
    an edge to (of any relationship type): an article linked to [k] of the
    patient's conditions is counted [k] times, so the count is one of
    article-condition links, not of distinct articles. *)
Theorem overview_research_count (g : DiGraph) (patient_id : string) (ov : Overview) :
  graph_ok g → get_patient_overview patient_id g = inr ov →
  ov_conditions ov = patient_conditions g patient_id ∧
  ov_research_articles_count ov = sum_list_with (article_preds g) (ov_conditions ov) ∧
  ov_research_articles_count ov =
    sum_list_with (fun a => if node_type_is g a "research_article"
                            then length (filter (fun c => is_Some (g_edges g !! (a, c))) (ov_conditions ov))
                            else 0)
                  (node_ids g).
Proof.
  intros [Hwf _] Hov. unfold get_patient_overview in Hov.
  destruct (Nat.eqb (number_of_nodes g) 0); [discriminate|].
  destruct (negb (has_node g patient_id)); [discriminate|].
  injection Hov as <-. cbn [ov_conditions ov_research_articles_count].
  assert (Hsum : research_count g (patient_conditions g patient_id) =
                 sum_list_with (article_preds g) (patient_conditions g patient_id))
    by (unfold research_count; by rewrite foldl_add_sum).
  split; [done|]. split; [done|]. rewrite Hsum.
  rewrite (sum_list_with_ext _ _ _ (fun c => article_preds_nodes g c Hwf)).
  rewrite (sum_list_with_ext _ _ _ (fun c => length_filter_sum _ _)).
  rewrite sum_list_with_exchange. apply sum_list_with_ext. intros a.
  destruct (node_type_is g a "research_article").
  - rewrite length_filter_sum. apply sum_list_with_ext. intros c.
    repeat case_bool_decide; tauto.
  - transitivity (sum_list_with (fun _ : string => 0) (patient_conditions g patient_id));
      [|apply sum_list_with_zero].
    apply sum_list_with_ext. intros c. case_bool_decide as C; [by destruct C|done].
Qed.

Lemma overview_research_count_witness :
  (graph_ok g_art ∧
   get_patient_overview "P1" g_art = inr (mkOverview "P1" ["C1"; "C2"] [] 2 4 4)) ∧
  2 = sum_list_with (fun a => if node_type_is g_art a "research_article"
                              then length (filter (fun c => is_Some (g_edges g_art !! (a, c))) ["C1"; "C2"])
                              else 0)
                    (node_ids g_art).
Proof.
  assert (Hok : graph_ok g_art) by (apply graph_ok_b_sound; vm_compute; reflexivity).
  assert (Hov : get_patient_overview "P1" g_art = inr (mkOverview "P1" ["C1"; "C2"] [] 2 4 4))
    by (vm_compute; reflexivity).
  split; [tauto|].
  apply (proj2 (proj2 (overview_research_count g_art "P1" _ Hok Hov))).
Defined.

(** C1 (counterexample): [g_orphan] has exactly one patient node [P1],
    exactly one isolated node [S1], and its other nodes [P1 -> C1] form one
    weakly connected structure; yet the isolated node also makes the graph
    not weakly connected, so [validate_graph_structure] reports a critical
    issue (two components) and [is_valid = false]. *)
Lemma validate_orphan_is_invalid :
  patient_nodes g_orphan = ["P1"] ∧
  filter (fun n => degree g_orphan n = 0) (node_ids g_orphan) = ["S1"] ∧
  validate_graph_structure g_orphan =
    inr (mkValidation false [DisconnectedComponents 2] [OrphanedNodes 1 ["S1"]]).
Proof. vm_compute. repeat split. Qed.

(** C1 (amended): for every graph the tools hold with exactly one patient
    node [p], exactly one isolated (degree-0) node [v], which is not [p],
    and a truthy label on every node, [validate_graph_structure] returns
    [is_valid = false] with exactly one critical issue, the count of weakly
    connected components (the isolated node is a component of its own), and
    exactly one warning, about the orphaned node [v]. *)
Theorem validate_isolated_node (g : DiGraph) (p v : string) :
  graph_ok g → patient_nodes g = [p] → is_Some (g_nodes g !! v) → v ≠ p →
  (∀ n, is_Some (g_nodes g !! n) → (degree g n = 0 ↔ n = v)) →
  (∀ n a, g_nodes g !! n = Some a → truthy (get a "label") = true) →
  validate_graph_structure g =
    inr (mkValidation false [DisconnectedComponents (number_weakly_connected_components g)]
                      [OrphanedNodes 1 [v]]).
Proof.
  intros [Hwf _] Hpat Hv Hvp Hdeg Hlabel.
  assert (Hp : is_Some (g_nodes g !! p)).
  { assert (Hp : p ∈ patient_nodes g) by (rewrite Hpat; left).
    unfold patient_nodes in Hp. apply list_elem_of_filter in Hp as [_ Hp].
    by apply node_ids_elem. }
  assert (Horph : filter (fun n => degree g n = 0) (node_ids g) = [v]).
  { apply list_singleton_of_elems; [apply NoDup_filter, node_ids_NoDup|].
    intros x. rewrite list_elem_of_filter, node_ids_elem. split.
    - intros [Hd Hs]. by apply Hdeg.
    - intros ->. split; [by apply Hdeg|done]. }
  assert (Hlab : filter (fun n => truthy (get (node_data g n) "label") = false) (node_ids g) = []).
  { apply elem_of_nil_inv. intros x Hx. apply list_elem_of_filter in Hx as [Hf Hx].
    apply node_ids_elem in Hx as [a Ha]. unfold node_data in Hf. rewrite Ha, (Hlabel x a Ha) in Hf.
    discriminate. }
  assert (Hwc : is_weakly_connected g = false).
  { apply (isolated_not_weakly_connected g v p); try done. apply Hdeg; done. }
  unfold validate_graph_structure.
  destruct (Nat.eqb_spec (number_of_nodes g) 0) as [H0|_].
  { apply map_size_empty_inv in H0. destruct Hv as [a Hv]. rewrite H0, lookup_empty in Hv. discriminate. }
  rewrite Hpat, Horph, Hlab, Hwc. reflexivity.
Qed.

Lemma validate_isolated_node_witness :
  (graph_ok g_orphan ∧ patient_nodes g_orphan = ["P1"] ∧ is_Some (g_nodes g_orphan !! "S1") ∧
   "S1" ≠ "P1" ∧
   (∀ n, is_Some (g_nodes g_orphan !! n) → (degree g_orphan n = 0 ↔ n = "S1")) ∧
   (∀ n a, g_nodes g_orphan !! n = Some a → truthy (get a "label") = true)) ∧
  validate_graph_structure g_orphan =
    inr (mkValidation false [DisconnectedComponents (number_weakly_connected_components g_orphan)]
                      [OrphanedNodes 1 ["S1"]]).
Proof.
  assert (Hok : graph_ok g_orphan) by (apply graph_ok_b_sound; vm_compute; reflexivity).
  assert (Hpat : patient_nodes g_orphan = ["P1"]) by (vm_compute; reflexivity).
  assert (Hv : is_Some (g_nodes g_orphan !! "S1")) by (eexists; vm_compute; reflexivity).
  assert (Hvp : "S1" ≠ "P1") by discriminate.
  assert (Hids : node_ids g_orphan = ["S1"; "C1"; "P1"]) by (vm_compute; reflexivity).
  assert (Hdeg : ∀ n, is_Some (g_nodes g_orphan !! n) → (degree g_orphan n = 0 ↔ n = "S1")).
  { intros n Hn. apply (proj2 (node_ids_elem g_orphan n)) in Hn. rewrite Hids in Hn.
    do 3 (apply elem_of_cons in Hn as [-> | Hn];
          [vm_compute; split; intros H; (reflexivity || discriminate H) |]).
    exfalso. exact (not_elem_of_nil _ Hn). }
  assert (Hlabel : ∀ n a, g_nodes g_orphan !! n = Some a → truthy (get a "label") = true)
    by (apply labels_truthy_b; vm_compute; reflexivity).
  split; [tauto|].
  apply (validate_isolated_node g_orphan "P1" "S1" Hok Hpat Hv Hvp Hdeg Hlabel).
Defined.

(** C8 (counterexample): in [g_depth] the research nodes reachable from
    [P1] are [A1] and [T1] at distance 2 and [A2] at distance 1 ([A3] is
    not reachable); their mean distance is 5/3, but the reported
    [average_research_depth] is the double [round(5/3, 2)], the double
    nearest to 1.67, which is neither 5/3 nor the double nearest to 5/3. *)
Lemma connectivity_reports_rounded_mean :
  (∃ c, analyze_graph_connectivity g_depth = Some (inr c) ∧
        cn_average_research_depth c = to_double (167 # 100)) ∧
  map (shortest_path_length g_depth "P1") ["A1"; "A2"; "T1"; "A3"] = [Some 2; Some 1; Some 2; None] ∧
  Qeq (mean [2; 1; 2]) (5 # 3) ∧ ¬ Qeq (to_double (167 # 100)) (5 # 3) ∧
  ¬ Qeq (to_double (167 # 100)) (to_double (5 # 3)).
Proof.
  split; [eexists; split; vm_compute; reflexivity|].
  split; [vm_compute; reflexivity|].
  split; [vm_compute; reflexivity|].
  split; intros H; vm_compute in H; discriminate H.
Qed.

(** C8 (amended): whenever [analyze_graph_connectivity] returns metrics,
    the graph has a patient node and the reported [patient_id] is the first
    one [p] (in node order).  Let [R] be the research_article and
    clinical_trial nodes reachable from [p] by a directed path, each listed
    once: exactly the nodes of those two types other than [p] to which
    [nx.shortest_path_length] from [p] is defined, so nodes with no path
    from [p] are left out.  Let [ds] be their shortest path lengths.  Then
    [average_research_depth] is [round(avg, 2)] where [avg] is the mean of
    [ds] as a float (the double nearest to it; [0] when [ds] is empty):
    the exact value of [avg] rounded half to even at two decimals, returned
    as the nearest double, not the mean itself. *)
Theorem connectivity_average_depth (g : DiGraph) (c : Connectivity) :
  analyze_graph_connectivity g = Some (inr c) →
  ∃ p rest R ds,
    patient_nodes g = p :: rest ∧ cn_patient_id c = p ∧
    NoDup R ∧
    (∀ r, r ∈ R ↔ r ≠ p ∧ is_Some (shortest_path_length g p r) ∧
                  (node_type_is g r "research_article" = true ∨
                   node_type_is g r "clinical_trial" = true)) ∧
    Forall2 (fun r d => shortest_path_length g p r = Some d) R ds ∧
    cn_average_research_depth c = py_round2 (to_double (mean ds)).
Proof.
  unfold analyze_graph_connectivity. intros H.
  destruct (Nat.eqb (number_of_nodes g) 0); [discriminate|].
  destruct (patient_nodes g) as [|p rest] eqn:Hpat; [discriminate|].
  injection H as <-.
  set (R := filter (fun n => node_type_is g n "research_article" = true) (descendants g p) ++
            filter (fun n => node_type_is g n "clinical_trial" = true) (descendants g p)).
  assert (HR : ∀ r, r ∈ R ↔ r ≠ p ∧ is_Some (shortest_path_length g p r) ∧
                          (node_type_is g r "research_article" = true ∨
                           node_type_is g r "clinical_trial" = true)).
  { intros r. unfold R. rewrite elem_of_app, !list_elem_of_filter, descendants_elem. tauto. }
  destruct (path_lengths_fold g p R [] (fun r Hr => proj1 (proj2 (proj1 (HR r) Hr))))
    as (ds & Hds & HF).
  exists p, rest, R, ds. split; [done|]. split; [done|]. split; [|split; [done|split; [done|]]].
  - unfold R. apply NoDup_app. split; [apply NoDup_filter, descendants_NoDup|]. split.
    + intros x Hx1 Hx2. apply list_elem_of_filter in Hx1 as [H1 _], Hx2 as [H2 _].
      pose proof (node_type_is_unique g x _ _ H1 H2). discriminate.
    + apply NoDup_filter, descendants_NoDup.
  - cbn [cn_average_research_depth]. unfold path_lengths. fold R. rewrite Hds. done.
Qed.

Lemma connectivity_average_depth_witness :
  analyze_graph_connectivity g_depth =
    Some (inr (mkConnectivity "P1" 2 4 1 2 1 (to_double (167 # 100)) [])) ∧
  ∃ p rest R ds,
    patient_nodes g_depth = p :: rest ∧ "P1" = p ∧
    NoDup R ∧
    (∀ r, r ∈ R ↔ r ≠ p ∧ is_Some (shortest_path_length g_depth p r) ∧
                  (node_type_is g_depth r "research_article" = true ∨
                   node_type_is g_depth r "clinical_trial" = true)) ∧
    Forall2 (fun r d => shortest_path_length g_depth p r = Some d) R ds ∧
    to_double (167 # 100) = py_round2 (to_double (mean ds)).
Proof.
  assert (H : analyze_graph_connectivity g_depth =
                Some (inr (mkConnectivity "P1" 2 4 1 2 1 (to_double (167 # 100)) [])))
    by (vm_compute; reflexivity).
  split; [exact H|].
  apply (connectivity_average_depth g_depth _ H).
Defined.

(** [round(1.225, 2)]: the double nearest to 49/40 lies above it, so
    [round] gives the double 1.23, where rounding the exact rational
    49/40 half to even would give 1.22. *)
Lemma py_round2_above_tie :
  py_round2 (to_double (49 # 40)) = to_double (123 # 100) ∧
  Qlt (49 # 40) (to_double (49 # 40)).
Proof. split; vm_compute; reflexivity. Qed.




(** * Further properties of the tools *)

(** X1: On a well-formed graph, deleting an existing node n reports as edges_removed the number of its incoming plus outgoing edges (a self-loop counted in both), removes exactly those edges and keeps every other edge with its data, and removes n and no other node. *)
Theorem delete_node_edges_removed (g : DiGraph) (n : string) :
  graph_ok g → is_Some (g_nodes g !! n) →
  (delete_node n g).1 = OkDeletedNode n (length (in_edges g n) + length (out_edges g n)) ∧
  number_of_edges (delete_node n g).2 + (length (in_edges g n) + length (out_edges g n)) =
    number_of_edges g + (if has_edge g n n then 1 else 0) ∧
  g_nodes (delete_node n g).2 = delete n (g_nodes g) ∧
  (∀ u v, g_edges (delete_node n g).2 !! (u, v) =
          if decide (u = n ∨ v = n) then None else g_edges g !! (u, v)).
Proof.
  intros Hok [a Ha]. unfold delete_node. rewrite (has_node_true g n a Ha). cbn [negb].
  rewrite save_graph_ok by (by apply remove_node_nx_ok). cbn [fst snd].
  split; [done|]. split; [apply remove_node_nx_edge_count|]. split; [done|].
  intros u v. cbn. rewrite map_lookup_filter.
  destruct (g_edges g !! (u, v)); cbn; repeat case_decide; cbn; naive_solver.
Qed.

Lemma delete_node_edges_removed_witness :
  (graph_ok g_loop ∧ is_Some (g_nodes g_loop !! "C1")) ∧
  (delete_node "C1" g_loop).1 = OkDeletedNode "C1" (length (in_edges g_loop "C1") + length (out_edges g_loop "C1")) ∧
  number_of_edges (delete_node "C1" g_loop).2 + (length (in_edges g_loop "C1") + length (out_edges g_loop "C1")) =
    number_of_edges g_loop + (if has_edge g_loop "C1" "C1" then 1 else 0).
Proof.
  assert (Hok : graph_ok g_loop) by (apply graph_ok_b_sound; vm_compute; reflexivity).
  assert (Hn : is_Some (g_nodes g_loop !! "C1")) by (exists (node_data g_loop "C1"); vm_compute; reflexivity).
  split; [split; assumption|].
  destruct (delete_node_edges_removed g_loop "C1" Hok Hn) as (H1 & H2 & _). split; [exact H1 | exact H2].
Defined.

(** X2: When get_node_relationships succeeds on node n, the incoming list names each predecessor of n exactly once and the outgoing list each successor exactly once, no listed property dictionary holds relationship_type, and total_incoming + total_outgoing is the edges_removed count delete_node would report for n. *)
Theorem get_node_relationships_neighbours (g : DiGraph) (n : string) (r : NodeRels) :
  get_node_relationships n g = inr r →
  NoDup (map re_other (nr_incoming r)) ∧
  (∀ x, x ∈ map re_other (nr_incoming r) ↔ is_Some (g_edges g !! (x, n))) ∧
  NoDup (map re_other (nr_outgoing r)) ∧
  (∀ y, y ∈ map re_other (nr_outgoing r) ↔ is_Some (g_edges g !! (n, y))) ∧
  (∀ e, e ∈ nr_incoming r ++ nr_outgoing r → re_properties e !! "relationship_type" = None) ∧
  (delete_node n g).1 = OkDeletedNode n (nr_total_incoming r + nr_total_outgoing r).
Proof.
  unfold get_node_relationships. destruct (Nat.eqb _ 0); [discriminate|].
  destruct (has_node g n) eqn:Hn; cbn [negb]; [|discriminate]. intros [= <-]. cbn.
  rewrite !map_re_other. split; [apply predecessors_NoDup|]. split; [apply predecessors_elem|].
  split; [apply successors_NoDup|]. split; [apply successors_elem|]. split.
  - intros e He. apply elem_of_app in He as [He|He]; rewrite map_fmap_eq in He;
      apply list_elem_of_fmap in He as [x [-> _]]; apply lookup_delete_eq.
  - unfold delete_node. rewrite Hn. cbn. unfold predecessors, successors. by rewrite !length_map.
Qed.

Lemma get_node_relationships_neighbours_witness :
  let r := match get_node_relationships "C1" g_loop with inr r => r | inl _ => mkNodeRels "" VNull VNull [] [] 0 0 end in
  get_node_relationships "C1" g_loop = inr r ∧
  NoDup (map re_other (nr_incoming r)) ∧
  (∀ x, x ∈ map re_other (nr_incoming r) ↔ is_Some (g_edges g_loop !! (x, "C1"))) ∧
  NoDup (map re_other (nr_outgoing r)) ∧
  (∀ y, y ∈ map re_other (nr_outgoing r) ↔ is_Some (g_edges g_loop !! ("C1", y))) ∧
  (∀ e, e ∈ nr_incoming r ++ nr_outgoing r → re_properties e !! "relationship_type" = None) ∧
  (delete_node "C1" g_loop).1 = OkDeletedNode "C1" (nr_total_incoming r + nr_total_outgoing r).
Proof.
  intros r. assert (H : get_node_relationships "C1" g_loop = inr r) by (vm_compute; reflexivity).
  split; [exact H|]. exact (get_node_relationships_neighbours g_loop "C1" r H).
Defined.



(** X4: On a well-formed graph, delete_relationship on an existing edge succeeds and removes exactly that edge: the nodes and all other edges are unchanged and the edge count drops by one. *)
Theorem delete_relationship_removes_edge (g : DiGraph) (s t : string) :
  graph_ok g → is_Some (g_edges g !! (s, t)) →
  (delete_relationship s t g).1 = OkDeletedEdge s t ∧
  (delete_relationship s t g).2 = mkDiGraph (g_nodes g) (delete (s, t) (g_edges g)) ∧
  S (number_of_edges (delete_relationship s t g).2) = number_of_edges g.
Proof.
  intros Hok He. destruct He as [a Ha]. destruct (proj1 Hok s t a Ha) as [[xs Hs] [xt Ht]].
  unfold delete_relationship. rewrite (has_node_true g s xs Hs), (has_node_true g t xt Ht).
  unfold has_edge. rewrite bool_decide_eq_true_2 by (by eexists). cbn [negb fst snd].
  rewrite save_graph_ok by (by apply remove_edge_nx_ok). split; [done|]. split; [done|].
  unfold number_of_edges. cbn. rewrite map_size_delete, Ha. assert (size (g_edges g) ≠ 0) by (apply (map_size_ne_0_lookup_2 _ (s, t)); by eexists). cbn. lia.
Qed.

Lemma delete_relationship_removes_edge_witness :
  (graph_ok g_hyp ∧ is_Some (g_edges g_hyp !! ("P1", "C1"))) ∧
  (delete_relationship "P1" "C1" g_hyp).1 = OkDeletedEdge "P1" "C1".
Proof.
  assert (Hok : graph_ok g_hyp) by graph_ok_by_eval.
  assert (He : is_Some (g_edges g_hyp !! ("P1", "C1"))) by (exists (edge_data g_hyp "P1" "C1"); vm_compute; reflexivity).
  split; [tauto|]. exact (proj1 (delete_relationship_removes_edge g_hyp "P1" "C1" Hok He)).
Defined.

(** X5: On a well-formed graph, adding a relationship between two existing nodes that have no edge between them, with properties holding none of the keys self, u_of_edge, v_of_edge, and then deleting it gives back exactly the original graph. *)
Theorem add_then_delete_relationship (g : DiGraph) (s t rt : string) (p : option attrs) :
  graph_ok g → is_Some (g_nodes g !! s) → is_Some (g_nodes g !! t) → g_edges g !! (s, t) = None →
  kwargs_clash add_edge_params (default ∅ p) = false →
  delete_relationship s t (add_relationship s t rt p g).2 = (OkDeletedEdge s t, g).
Proof.
  intros Hok Hs Ht He Hc. destruct Hs as [xs Hxs], Ht as [xt Hxt].
  unfold add_relationship. rewrite (has_node_true g s xs Hxs), (has_node_true g t xt Hxt). cbn [negb].
  rewrite props_no_clash by first [exact Hc | clash_free]. cbn [snd].
  rewrite save_add_edge_existing by (done || by eexists).
  set (g1 := mkDiGraph _ _).
  assert (Hok1 : graph_ok g1).
  { destruct Hok as [Hwf [Hsn Hse]]. split; [|split].
    - intros u v b H. cbn in *. destruct (decide ((s, t) = (u, v))) as [Heq|Hne].
      + injection Heq as <- <-. split; by eexists.
      + rewrite lookup_insert_ne in H by done. by apply (Hwf u v b).
    - done.
    - intros e b H. cbn in H. destruct (decide ((s, t) = e)) as [<-|Hne].
      + rewrite lookup_insert_eq in H. injection H as <-. unfold strip_edge.
        rewrite lookup_delete_ne, lookup_delete_eq, lookup_delete_eq by done. done.
      + rewrite lookup_insert_ne in H by done. by apply (Hse e). }
  unfold delete_relationship. rewrite (has_node_true g1 s xs Hxs), (has_node_true g1 t xt Hxt).
  unfold has_edge. cbn. rewrite lookup_insert_eq, bool_decide_eq_true_2 by (by eexists). cbn [negb].
  rewrite save_graph_ok by (by apply remove_edge_nx_ok). unfold remove_edge_nx. cbn.
  rewrite delete_insert_eq, delete_id by done. by destruct g.
Qed.

Lemma add_then_delete_relationship_witness :
  (graph_ok g_hyp ∧ is_Some (g_nodes g_hyp !! "C1") ∧ is_Some (g_nodes g_hyp !! "P1") ∧
   g_edges g_hyp !! ("C1", "P1") = None ∧ kwargs_clash add_edge_params (default ∅ None) = false) ∧
  delete_relationship "C1" "P1" (add_relationship "C1" "P1" "AFFECTS" None g_hyp).2 = (OkDeletedEdge "C1" "P1", g_hyp).
Proof.
  assert (Hok : graph_ok g_hyp) by graph_ok_by_eval.
  assert (Hc : is_Some (g_nodes g_hyp !! "C1")) by node_by_eval g_hyp "C1".
  assert (Hp : is_Some (g_nodes g_hyp !! "P1")) by node_by_eval g_hyp "P1".
  assert (He : g_edges g_hyp !! ("C1", "P1") = None) by (vm_compute; reflexivity).
  assert (Hk : kwargs_clash add_edge_params (default ∅ None) = false) by (vm_compute; reflexivity).
  split; [tauto|]. exact (add_then_delete_relationship g_hyp "C1" "P1" "AFFECTS" None Hok Hc Hp He Hk).
Defined.

(** X6: On a well-formed non-empty graph, when properties holds neither of the keys self and node_for_adding (which make G.add_node raise TypeError), add_node succeeds, keeps the graph well-formed, changes neither the edges nor any other node, and adds a node only if the id was new. On the node, a key given in properties takes that value, otherwise node_type and label are set to the arguments, otherwise the old value stays (an id key is dropped). *)
Theorem add_node_upsert (g : DiGraph) (n t l : string) (p : option attrs) :
  graph_ok g → number_of_nodes g ≠ 0 → kwargs_clash add_node_params (default ∅ p) = false →
  (add_node n t l p g).1 = OkAddedNode t n ∧
  graph_ok (add_node n t l p g).2 ∧
  g_edges (add_node n t l p g).2 = g_edges g ∧
  (∀ m, m ≠ n → g_nodes (add_node n t l p g).2 !! m = g_nodes g !! m) ∧
  number_of_nodes (add_node n t l p g).2 = number_of_nodes g + (if has_node g n then 0 else 1) ∧
  (∀ k, k ≠ "id" →
     node_data (add_node n t l p g).2 n !! k =
     match default ∅ p !! k with
     | Some v => Some v
     | None => if String.eqb k "node_type" then Some (VStr t)
               else if String.eqb k "label" then Some (VStr l) else node_data g n !! k
     end).
Proof. exact (add_node_spec g n t l p). Qed.

Lemma add_node_upsert_witness :
  (graph_ok g_hyp ∧ number_of_nodes g_hyp ≠ 0 ∧ kwargs_clash add_node_params (default ∅ None) = false) ∧
  (add_node "S1" "symptom" "Fatigue" None g_hyp).1 = OkAddedNode "symptom" "S1".
Proof.
  assert (Hok : graph_ok g_hyp) by graph_ok_by_eval.
  assert (Hn : number_of_nodes g_hyp ≠ 0) by (vm_compute; discriminate).
  assert (Hk : kwargs_clash add_node_params (default ∅ None) = false) by (vm_compute; reflexivity).
  split; [tauto|]. exact (proj1 (add_node_upsert g_hyp "S1" "symptom" "Fatigue" None Hok Hn Hk)).
Defined.

(** X7: On a well-formed non-empty graph, adding a node with a fresh id (properties holding neither self nor node_for_adding) and then deleting it gives back exactly the original graph and reports zero edges removed. *)
Theorem add_then_delete_node (g : DiGraph) (n t l : string) (p : option attrs) :
  graph_ok g → number_of_nodes g ≠ 0 → g_nodes g !! n = None →
  kwargs_clash add_node_params (default ∅ p) = false →
  delete_node n (add_node n t l p g).2 = (OkDeletedNode n 0, g).
Proof.
  intros Hok Hn Hfresh Hc. unfold add_node. rewrite (proj2 (Nat.eqb_neq _ 0) Hn).
  rewrite props_no_clash by first [exact Hc | clash_free]. cbn [snd].
  rewrite save_add_node by done. set (g1 := mkDiGraph _ _).
  assert (Hok1 : graph_ok g1) by (by apply add_node_ok_graph).
  assert (Hno : ∀ u v a, g_edges g1 !! (u, v) = Some a → u ≠ n ∧ v ≠ n).
  { intros u v a H. cbn in H. destruct (proj1 Hok u v a H) as [[x Hx] [y Hy]].
    split; intros ->; congruence. }
  unfold delete_node. rewrite (has_node_true g1 n (delete "id" (_ ∪ node_data g n))) by (cbn; apply lookup_insert_eq).
  cbn [negb]. rewrite save_graph_ok by (by apply remove_node_nx_ok).
  assert (Hin : in_edges g1 n = []).
  { apply elem_of_nil_inv. intros [u v] He. apply in_edges_elem in He as [He [a Ha]]. cbn in He.
    apply Hno in Ha. tauto. }
  assert (Hout : out_edges g1 n = []).
  { apply elem_of_nil_inv. intros [u v] He. apply out_edges_elem in He as [He [a Ha]]. cbn in He.
    apply Hno in Ha. tauto. }
  rewrite Hin, Hout. cbn. f_equal. destruct g as [ns es]. unfold remove_node_nx. cbn in *. f_equal.
  - rewrite delete_insert_eq. by apply delete_id.
  - apply map_filter_id. intros [u v] a H. cbn. exact (Hno u v a H).
Qed.

Lemma add_then_delete_node_witness :
  (graph_ok g_hyp ∧ number_of_nodes g_hyp ≠ 0 ∧ g_nodes g_hyp !! "S1" = None ∧
   kwargs_clash add_node_params (default ∅ None) = false) ∧
  delete_node "S1" (add_node "S1" "symptom" "Fatigue" None g_hyp).2 = (OkDeletedNode "S1" 0, g_hyp).
Proof.
  assert (Hok : graph_ok g_hyp) by graph_ok_by_eval.
  assert (Hn : number_of_nodes g_hyp ≠ 0) by (vm_compute; discriminate).
  assert (Hf : g_nodes g_hyp !! "S1" = None) by (vm_compute; reflexivity).
  assert (Hk : kwargs_clash add_node_params (default ∅ None) = false) by (vm_compute; reflexivity).
  split; [tauto|]. exact (add_then_delete_node g_hyp "S1" "symptom" "Fatigue" None Hok Hn Hf Hk).
Defined.

(** X8: On a well-formed non-empty graph containing patient_id, add_patient_medication reports success for both the node and the TAKES_MEDICATION edge, and afterwards get_patient_overview lists medication_<normalised name> (for any lowering function standing for str.lower) among the patient's medications. *)
Theorem add_patient_medication_overview (lower : string → string) (g : DiGraph) (pid name : string) (dosage : option string)
    (side_effects : option (list string)) :
  graph_ok g → number_of_nodes g ≠ 0 → is_Some (g_nodes g !! pid) →
  (add_patient_medication lower pid name dosage side_effects g).1 =
    Joined (OkAddedNode "medication" ("medication_" +:+ lower_replace lower name))
           (OkAddedRel pid ("medication_" +:+ lower_replace lower name) "TAKES_MEDICATION") ∧
  ∃ ov, get_patient_overview pid (add_patient_medication lower pid name dosage side_effects g).2 = inr ov ∧
        "medication_" +:+ lower_replace lower name ∈ ov_medications ov.
Proof.
  intros Hok Hn Hp. set (mid := "medication_" +:+ lower_replace lower name).
  set (props := put_list "side_effects" side_effects (put_str "dosage" dosage ∅)).
  assert (Hprops : props !! "node_type" = None).
  { unfold props. rewrite put_list_lookup_ne, put_str_lookup_ne by done. apply lookup_empty. }
  destruct (add_node_then_link g pid mid "medication" name "TAKES_MEDICATION" props Hok Hn Hp Hprops
                                (medication_props_no_clash dosage side_effects))
    as (R1 & R2 & Hok2 & Hn2 & Hp2 & Ht & Hr & He).
  unfold add_patient_medication. fold mid. fold props.
  destruct (add_node mid "medication" name (Some props) g) as [r1 g1] eqn:E1. cbn [fst snd] in *.
  subst r1. cbv beta iota.
  destruct (add_relationship pid mid "TAKES_MEDICATION" None g1) as [r2 g2] eqn:E2. cbn [fst snd] in *.
  subst r2. split; [done|]. eexists. split.
  - unfold get_patient_overview. rewrite (proj2 (Nat.eqb_neq _ 0) Hn2).
    destruct Hp2 as [x Hx]. rewrite (has_node_true g2 pid x Hx). cbn. reflexivity.
  - cbn. unfold patient_medications. apply list_elem_of_filter. split; [done|]. by apply successors_elem.
Qed.

Lemma add_patient_medication_overview_witness :
  (graph_ok g_hyp ∧ number_of_nodes g_hyp ≠ 0 ∧ is_Some (g_nodes g_hyp !! "P1")) ∧
  (add_patient_medication ascii_lower "P1" "Low Aspirin" (Some "81mg") None g_hyp).1 =
    Joined (OkAddedNode "medication" ("medication_" +:+ lower_replace ascii_lower "Low Aspirin"))
           (OkAddedRel "P1" ("medication_" +:+ lower_replace ascii_lower "Low Aspirin") "TAKES_MEDICATION").
Proof.
  assert (Hok : graph_ok g_hyp) by graph_ok_by_eval.
  assert (Hn : number_of_nodes g_hyp ≠ 0) by (vm_compute; discriminate).
  assert (Hp : is_Some (g_nodes g_hyp !! "P1")) by node_by_eval g_hyp "P1".
  split; [tauto|]. exact (proj1 (add_patient_medication_overview ascii_lower g_hyp "P1" "Low Aspirin" (Some "81mg") None Hok Hn Hp)).
Defined.

(** X9: On a well-formed non-empty graph containing patient_id, add_patient_condition reports success for both the node and the HAS_CONDITION edge, and afterwards get_patient_overview lists condition_<normalised name> (for any lowering function standing for str.lower) among the patient's conditions. *)
Theorem add_patient_condition_overview (lower : string → string) (g : DiGraph) (pid name : string) (icd_code : option string)
    (symptoms : option (list string)) :
  graph_ok g → number_of_nodes g ≠ 0 → is_Some (g_nodes g !! pid) →
  (add_patient_condition lower pid name icd_code symptoms g).1 =
    Joined (OkAddedNode "condition" ("condition_" +:+ lower_replace lower name))
           (OkAddedRel pid ("condition_" +:+ lower_replace lower name) "HAS_CONDITION") ∧
  ∃ ov, get_patient_overview pid (add_patient_condition lower pid name icd_code symptoms g).2 = inr ov ∧
        "condition_" +:+ lower_replace lower name ∈ ov_conditions ov.
Proof.
  intros Hok Hn Hp. set (cid := "condition_" +:+ lower_replace lower name).
  unfold add_patient_condition. fold cid.
  match goal with |- context [add_node cid "condition" name (Some ?P) g] => set (props := P) end.
  assert (Hprops : props !! "node_type" = None).
  { unfold props. destruct icd_code as [c|]; [destruct (String.eqb c "")|];
    destruct symptoms as [[|x l]|]; rewrite ?lookup_insert_ne by done; apply lookup_empty. }
  destruct (add_node_then_link g pid cid "condition" name "HAS_CONDITION" props Hok Hn Hp Hprops
                                (condition_props_no_clash icd_code symptoms))
    as (R1 & R2 & Hok2 & Hn2 & Hp2 & Ht & Hr & He).
  destruct (add_node cid "condition" name (Some props) g) as [r1 g1] eqn:E1. cbn [fst snd] in *.
  subst r1. cbv beta iota.
  destruct (add_relationship pid cid "HAS_CONDITION" None g1) as [r2 g2] eqn:E2. cbn [fst snd] in *.
  subst r2. split; [done|]. eexists. split.
  - unfold get_patient_overview. rewrite (proj2 (Nat.eqb_neq _ 0) Hn2).
    destruct Hp2 as [x Hx]. rewrite (has_node_true g2 pid x Hx). cbn. reflexivity.
  - cbn. unfold patient_conditions. apply list_elem_of_filter. split; [done|]. by apply successors_elem.
Qed.

Lemma add_patient_condition_overview_witness :
  (graph_ok g_alice ∧ number_of_nodes g_alice ≠ 0 ∧ is_Some (g_nodes g_alice !! "P1")) ∧
  (add_patient_condition ascii_lower "P1" "Flu" None None g_alice).1 =
    Joined (OkAddedNode "condition" ("condition_" +:+ lower_replace ascii_lower "Flu"))
           (OkAddedRel "P1" ("condition_" +:+ lower_replace ascii_lower "Flu") "HAS_CONDITION").
Proof.
  assert (Hok : graph_ok g_alice) by graph_ok_by_eval.
  assert (Hn : number_of_nodes g_alice ≠ 0) by (vm_compute; discriminate).
  assert (Hp : is_Some (g_nodes g_alice !! "P1")) by node_by_eval g_alice "P1".
  split; [tauto|]. exact (proj1 (add_patient_condition_overview ascii_lower g_alice "P1" "Flu" None None Hok Hn Hp)).
Defined.

(** X10: On a well-formed graph, after link_article_to_condition links an existing research_article a to an existing node c, find_related_research on c (with max_results at least the number found) lists a with the given relevance and with the given confidence, or the edge's previous confidence when none is given. *)
Theorem link_article_then_find (g : DiGraph) (a c rel : string) (confidence : option Q)
    (max_results : Z) (r : Related) :
  graph_ok g → is_Some (g_nodes g !! a) → is_Some (g_nodes g !! c) →
  node_type_is g a "research_article" = true →
  find_related_research c max_results (link_article_to_condition a c rel confidence g).2 = Some (inr r) →
  (Z.of_nat (rl_total_found r) <= max_results)%Z →
  (link_article_to_condition a c rel confidence g).1 = OkAddedRel a c "STUDIES" ∧
  ∃ x, x ∈ rl_articles r ∧ ar_id x = a ∧ ar_relevance x = VStr rel ∧
       ar_confidence x = match confidence with Some q => VFloat q | None => get (edge_data g a c) "confidence" end.
Proof.
  intros Hok Ha Hc Ht Hf Hmax. unfold link_article_to_condition in *.
  set (props := match confidence with Some q => _ | None => _ end) in *.
  assert (Hcl : kwargs_clash add_edge_params (default ∅ (Some props)) = false).
  { unfold props. destruct confidence; cbv beta iota; cbn [default]; unfold id; clash_free. }
  destruct (add_relationship_spec g a c "STUDIES" (Some props) Hok Ha Hc Hcl) as (R & Hok' & Hn & He & Hs & Hd).
  set (g' := (add_relationship a c "STUDIES" (Some props) g).2) in *.
  split; [done|].
  destruct (find_related_research_spec g' c max_results r Hf) as (_ & _ & Htot & _ & _ & Hmem & _ & Hperm).
  rewrite Htot in Hmax. specialize (Hperm Hmax).
  assert (Hin : a ∈ map ar_id (rl_articles r)).
  { rewrite Hperm. apply list_elem_of_filter. split.
    - unfold node_type_is, node_data. rewrite Hn. exact Ht.
    - apply predecessors_elem. pose proof (Hd "relevance" ltac:(done) ltac:(done)) as H.
      assert (Hrel : props !! "relevance" = Some (VStr rel)).
      { unfold props. destruct confidence; cbv beta iota; rewrite ?lookup_insert_ne by done; apply lookup_insert_eq. }
      cbn [default] in H. unfold id in H. rewrite Hrel in H. unfold edge_data in H.
      destruct (g_edges g' !! (a, c)); [by eexists|]. by rewrite lookup_empty in H. }
  rewrite map_fmap_eq in Hin. apply list_elem_of_fmap in Hin as [x [Hxa Hx]].
  exists x. split; [done|]. split; [done|]. destruct (Hmem x Hx) as [Hxr _].
  rewrite Hxr, <- Hxa. cbn. unfold get. rewrite (Hd "relevance" ltac:(done) ltac:(done)), (Hd "confidence" ltac:(done) ltac:(done)).
  unfold props. cbn. destruct confidence as [q|]; cbn.
  - rewrite lookup_insert_ne, lookup_insert_eq by done. split; [done|]. by rewrite lookup_insert_eq.
  - rewrite lookup_insert_eq. split; [done|]. rewrite lookup_insert_ne, lookup_empty by done.
    cbn. by destruct (edge_data g a c !! "confidence").
Qed.

Lemma link_article_then_find_witness :
  let g' := (link_article_to_condition "A1" "C1" "primary" (Some (9 # 10)) g_art).2 in
  let r := match find_related_research "C1" 10 g' with Some (inr r) => r | _ => mkRelated "" VNull [] 0 end in
  (graph_ok g_art ∧ is_Some (g_nodes g_art !! "A1") ∧ is_Some (g_nodes g_art !! "C1") ∧
   node_type_is g_art "A1" "research_article" = true ∧
   find_related_research "C1" 10 g' = Some (inr r) ∧ (Z.of_nat (rl_total_found r) <= 10)%Z) ∧
  (link_article_to_condition "A1" "C1" "primary" (Some (9 # 10)) g_art).1 = OkAddedRel "A1" "C1" "STUDIES".
Proof.
  intros g' r.
  assert (Hok : graph_ok g_art) by graph_ok_by_eval.
  assert (Ha : is_Some (g_nodes g_art !! "A1")) by node_by_eval g_art "A1".
  assert (Hc : is_Some (g_nodes g_art !! "C1")) by node_by_eval g_art "C1".
  assert (Ht : node_type_is g_art "A1" "research_article" = true) by (vm_compute; reflexivity).
  assert (Hf : find_related_research "C1" 10 g' = Some (inr r)) by (vm_compute; reflexivity).
  assert (Hm : (Z.of_nat (rl_total_found r) <= 10)%Z) by (vm_compute; discriminate).
  split; [tauto|]. exact (proj1 (link_article_then_find g_art "A1" "C1" "primary" (Some (9 # 10)) 10 r Hok Ha Hc Ht Hf Hm)).
Defined.

(** X11: On a well-formed graph, bulk_link_articles_to_conditions never changes the node set. If no link is valid the graph is unchanged and one error is reported per link; otherwise the links added, the error lines shown (at most 5) and the count of further errors add up to the number of links. *)
Theorem bulk_link_accounting (g : DiGraph) (links : list attrs) :
  graph_ok g →
  g_nodes (bulk_link_articles_to_conditions links g).2 = g_nodes g ∧
  match (bulk_link_articles_to_conditions links g).1 with
  | NoValidLinks errors => (bulk_link_articles_to_conditions links g).2 = g ∧ length errors = length links
  | LinksAdded (OkBulk added []) shown more =>
      length added + length shown + more = length links ∧ length shown ≤ 5
  | LinksAdded _ _ _ => False
  end.
Proof.
  intros Hok. unfold bulk_link_articles_to_conditions.
  pose proof (bulk_link_loop_count g links 0 ([], [])) as Hc.
  pose proof (bulk_link_loop_valid g links 0 ([], []) (Forall_nil_2 _)) as Hv.
  destruct (bulk_link_loop g 0 links ([], [])) as [rels errs].
  cbn [fst snd length] in Hc, Hv.
  destruct rels as [|rd rels'] eqn:Er.
  - cbn [fst snd length] in Hc |- *. split; [done|]. split; [done|]. lia.
  - rewrite <- Er in Hv, Hc |- *. unfold bulk_add_relationships.
    pose proof (bulk_rels_loop_valid rels 0 [] [] g Hv) as Hl.
    destruct (bulk_rels_loop 0 rels ([], [], g)) as [[added errors'] h'].
    destruct Hl as (Hlen & -> & Hn & He). cbn [length] in Hlen.
    assert (Hwf : wf h').
    { intros u v b Hb. rewrite Hn. destruct (He u v b Hb) as [H|H]; [|done]. by apply (proj1 Hok u v b). }
    rewrite save_graph_wf by done. cbn [fst snd]. split.
    + cbn. rewrite Hn. pose proof (strip_stripped g (proj2 Hok)) as E. unfold strip in E.
      destruct g as [ns es]. cbn in *. by injection E.
    + rewrite length_take. split; lia.
Qed.

Lemma bulk_link_accounting_witness :
  let links := [<["article_id" := VStr "A1"]> (<["condition_id" := VStr "C1"]> ∅);
                <["article_id" := VStr "X"]> (<["condition_id" := VStr "C1"]> ∅)] in
  graph_ok g_art ∧
  (bulk_link_articles_to_conditions links g_art).1 =
    LinksAdded (OkBulk ["A1"] []) [EndpointMissing 1 "Article" (VStr "X")] 0 ∧
  g_nodes (bulk_link_articles_to_conditions links g_art).2 = g_nodes g_art.
Proof.
  intros links. assert (Hok : graph_ok g_art) by graph_ok_by_eval.
  split; [exact Hok|]. split; [vm_compute; reflexivity|].
  pose proof (bulk_link_accounting g_art links Hok) as H. destruct H as [H _].
  exact H.
Defined.

(** X12: When export_graph_summary succeeds, total_nodes and total_edges are the graph's node and edge counts, the per-type counts are positive and add up to those totals, and every node's node_type and every edge's relationship_type (default 'unknown') is a key of the matching table, up to Python key equality. *)
Theorem export_graph_summary_counts (g : DiGraph) (s : Summary) :
  export_graph_summary g = Some (inr s) →
  sm_total_nodes s = number_of_nodes g ∧ sm_total_edges s = number_of_edges g ∧
  sum_list_with snd (sm_nodes_by_type s) = sm_total_nodes s ∧
  sum_list_with snd (sm_edges_by_type s) = sm_total_edges s ∧
  (∀ e, e ∈ sm_nodes_by_type s ++ sm_edges_by_type s → 0 < e.2) ∧
  (∀ n a, g_nodes g !! n = Some a →
     ∃ x, x ∈ (sm_nodes_by_type s).*1 ∧ key_eq x (get_default a "node_type" (VStr "unknown")) = true) ∧
  (∀ u v a, g_edges g !! (u, v) = Some a →
     ∃ x, x ∈ (sm_edges_by_type s).*1 ∧ key_eq x (get_default a "relationship_type" (VStr "unknown")) = true).
Proof.
  unfold export_graph_summary. destruct (Nat.eqb _ 0); [discriminate|].
  destruct (count_by _) as [nt|] eqn:Ent; [|discriminate].
  destruct (count_by (map _ (edge_list g))) as [et|] eqn:Eet; [|discriminate].
  intros [= <-]. cbn.
  destruct (count_by_spec _ _ Ent) as (Hns & Hnp & Hnin).
  destruct (count_by_spec _ _ Eet) as (Hes & Hep & Hein).
  rewrite length_map in Hns, Hes. rewrite length_map_to_list in Hns. unfold edge_list in Hes.
  rewrite length_map_to_list in Hes.
  split; [done|]. split; [done|]. split; [done|]. split; [done|]. split.
  - intros e He. apply elem_of_app in He as [He|He]; [by apply Hnp|by apply Hep].
  - split.
    + intros n a Ha. apply Hnin. rewrite map_fmap_eq. apply list_elem_of_fmap.
      exists (n, a). split; [done|]. by apply elem_of_map_to_list.
    + intros u v a Ha. apply Hein. rewrite map_fmap_eq. apply list_elem_of_fmap.
      exists ((u, v), a). split; [done|]. unfold edge_list. by apply elem_of_map_to_list.
Qed.

Lemma export_graph_summary_counts_witness :
  let s := match export_graph_summary g_art with Some (inr s) => s | _ => mkSummary 0 0 [] [] true end in
  export_graph_summary g_art = Some (inr s) ∧
  sm_total_nodes s = number_of_nodes g_art ∧ sm_total_edges s = number_of_edges g_art.
Proof.
  intros s. assert (H : export_graph_summary g_art = Some (inr s)) by (vm_compute; reflexivity).
  split; [exact H|]. pose proof (export_graph_summary_counts g_art s H) as Hc. destruct Hc as (H1 & H2 & _).
  split; [exact H1|exact H2].
Defined.

(** X13: export_graph_summary returns a summary (it does not raise) on every non-empty graph whose node_type and relationship_type values are all hashable, that is, none is a list or a dict. *)
Theorem export_graph_summary_defined (g : DiGraph) :
  number_of_nodes g ≠ 0 →
  (∀ n a, g_nodes g !! n = Some a → hashable (get_default a "node_type" (VStr "unknown")) = true) →
  (∀ e a, g_edges g !! e = Some a → hashable (get_default a "relationship_type" (VStr "unknown")) = true) →
  ∃ s, export_graph_summary g = Some (inr s).
Proof.
  intros Hn Hnt Het. unfold export_graph_summary. rewrite (proj2 (Nat.eqb_neq _ 0) Hn).
  destruct (count_by_hashable (map (fun na : string * attrs => get_default na.2 "node_type" (VStr "unknown"))
                                   (map_to_list (g_nodes g)))) as [nt Hnt'].
  { apply Forall_forall. intros k Hk. rewrite map_fmap_eq in Hk. apply list_elem_of_fmap in Hk as [[n a] [-> Hin]].
    apply elem_of_map_to_list in Hin. by apply (Hnt n a). }
  destruct (count_by_hashable (map (fun ea : (string * string) * attrs => get_default ea.2 "relationship_type" (VStr "unknown"))
                                   (edge_list g))) as [et Het'].
  { apply Forall_forall. intros k Hk. rewrite map_fmap_eq in Hk. apply list_elem_of_fmap in Hk as [[e a] [-> Hin]].
    apply elem_of_map_to_list in Hin. by apply (Het e a). }
  rewrite Hnt', Het'. by eexists.
Qed.

Lemma export_graph_summary_defined_witness :
  (number_of_nodes g_art ≠ 0 ∧
   (∀ n a, g_nodes g_art !! n = Some a → hashable (get_default a "node_type" (VStr "unknown")) = true) ∧
   (∀ e a, g_edges g_art !! e = Some a → hashable (get_default a "relationship_type" (VStr "unknown")) = true)) ∧
  ∃ s, export_graph_summary g_art = Some (inr s).
Proof.
  assert (Hn : number_of_nodes g_art ≠ 0) by (vm_compute; discriminate).
  assert (Hnt : ∀ n a, g_nodes g_art !! n = Some a → hashable (get_default a "node_type" (VStr "unknown")) = true).
  { intros n a Ha. apply elem_of_map_to_list in Ha.
    assert (Hb : forallb (fun na : string * attrs => hashable (get_default na.2 "node_type" (VStr "unknown")))
                   (map_to_list (g_nodes g_art)) = true) by (vm_compute; reflexivity).
    rewrite forallb_forall in Hb. apply list_elem_of_In in Ha. exact (Hb _ Ha). }
  assert (Het : ∀ e a, g_edges g_art !! e = Some a → hashable (get_default a "relationship_type" (VStr "unknown")) = true).
  { intros e a Ha. apply elem_of_map_to_list in Ha.
    assert (Hb : forallb (fun ea : (string * string) * attrs => hashable (get_default ea.2 "relationship_type" (VStr "unknown")))
                   (map_to_list (g_edges g_art)) = true) by (vm_compute; reflexivity).
    rewrite forallb_forall in Hb. apply list_elem_of_In in Ha. exact (Hb _ Ha). }
  split; [tauto|]. exact (export_graph_summary_defined g_art Hn Hnt Het).
Defined.

(** X14: When check_node_completeness succeeds on node n it reports n's id, and is_complete is false exactly when n is a patient with a falsy name, a condition or medication with no incoming edge, or a research_article with no outgoing edge. *)
Theorem check_node_completeness_complete (g : DiGraph) (n : string) (c : Completeness) :
  check_node_completeness n g = inr c →
  cp_node_id c = n ∧
  (cp_is_complete c = false ↔
   (node_type_is g n "patient" = true ∧ truthy (get (node_data g n) "name") = false) ∨
   (node_type_is g n "condition" = true ∧ ∀ x, g_edges g !! (x, n) = None) ∨
   (node_type_is g n "medication" = true ∧ ∀ x, g_edges g !! (x, n) = None) ∨
   (node_type_is g n "research_article" = true ∧ ∀ y, g_edges g !! (n, y) = None)).
Proof.
  unfold check_node_completeness. destruct (Nat.eqb _ 0); [discriminate|].
  destruct (has_node g n); cbn [negb]; [|discriminate]. intros [= <-].
  split; [unfold completeness_of; by destruct (type_checks _ _ _ _ _)|].
  rewrite cp_is_complete_of. pose proof (completeness_issues false g n) as H.
  destruct (cp_issues (completeness_of false g n)) as [|i l]; cbn.
  - split; [discriminate|]. intros HH. exfalso. by apply H.
  - split; [intros _|done]. rewrite <- !in_edges_nil, <- !out_edges_nil in H |- *.
    match goal with |- ?P => destruct (decide P) as [D|D]; [done|] end.
    by apply H in D.
Qed.

Lemma check_node_completeness_complete_witness :
  let c := match check_node_completeness "S1" g_orphan with inr c => c | inl _ => completeness_of false g_orphan "S1" end in
  check_node_completeness "S1" g_orphan = inr c ∧ cp_node_id c = "S1".
Proof.
  intros c. assert (H : check_node_completeness "S1" g_orphan = inr c) by (vm_compute; reflexivity).
  split; [exact H|]. pose proof (check_node_completeness_complete g_orphan "S1" c H) as Hc.
  destruct Hc as [Hc _]. exact Hc.
Defined.

(** X15: On a non-empty graph, bulk_check_node_completeness on the list [n] of one existing node returns one checked entry whose issues and is_complete agree with check_node_completeness on n; the two reports are identical unless n is a clinical_trial. *)
Theorem bulk_check_single_agrees (g : DiGraph) (n : string) :
  number_of_nodes g ≠ 0 → is_Some (g_nodes g !! n) →
  ∃ s c c', bulk_check_node_completeness (Some [n]) None g = inr (s, [EntryChecked (get (node_data g n) "label") c]) ∧
    check_node_completeness n g = inr c' ∧
    cp_issues c = cp_issues c' ∧ cp_is_complete c = cp_is_complete c' ∧
    (node_type_is g n "clinical_trial" = false → c = c').
Proof.
  intros Hn [a Ha]. unfold bulk_check_node_completeness, check_node_completeness.
  rewrite (proj2 (Nat.eqb_neq _ 0) Hn), (has_node_true g n a Ha). cbn [negb nodes_to_check foldl].
  unfold bulk_check_step. rewrite (has_node_true g n a Ha). cbn [negb app].
  eexists _, (completeness_of true g n), (completeness_of false g n). split; [reflexivity|].
  split; [done|]. apply completeness_trials.
Qed.

Lemma bulk_check_single_agrees_witness :
  (number_of_nodes g_hyp ≠ 0 ∧ is_Some (g_nodes g_hyp !! "C1")) ∧
  ∃ s c c', bulk_check_node_completeness (Some ["C1"]) None g_hyp =
              inr (s, [EntryChecked (get (node_data g_hyp "C1") "label") c]) ∧
    check_node_completeness "C1" g_hyp = inr c' ∧
    cp_issues c = cp_issues c' ∧ cp_is_complete c = cp_is_complete c' ∧
    (node_type_is g_hyp "C1" "clinical_trial" = false → c = c').
Proof.
  assert (Hn : number_of_nodes g_hyp ≠ 0) by (vm_compute; discriminate).
  assert (Hs : is_Some (g_nodes g_hyp !! "C1")) by node_by_eval g_hyp "C1".
  split; [split; [exact Hn|exact Hs]|]. exact (bulk_check_single_agrees g_hyp "C1" Hn Hs).
Defined.

(** X16: When bulk_check_node_completeness succeeds it returns one entry per node to check; total_checked counts the entries for existing nodes, complete_nodes + nodes_with_issues = total_checked, nodes_with_suggestions <= total_checked, and the per-type issue and suggestion counts add up to nodes_with_issues and nodes_with_suggestions. With no node_ids, every entry is checked, and with no type filter as well, total_checked is the number of nodes. *)
Theorem bulk_check_summary (g : DiGraph) (node_id_list : option (list string)) (node_type_filter : option string)
    (s : CheckSummary) (entries : list CheckEntry) :
  bulk_check_node_completeness node_id_list node_type_filter g = inr (s, entries) →
  length entries = length (nodes_to_check node_id_list node_type_filter g) ∧
  cs_total_checked s = length (filter (fun e => entry_checked e = true) entries) ∧
  cs_complete_nodes s + cs_nodes_with_issues s = cs_total_checked s ∧
  cs_nodes_with_suggestions s ≤ cs_total_checked s ∧
  sum_list_with snd (cs_issues_by_type s) = cs_nodes_with_issues s ∧
  sum_list_with snd (cs_suggestions_by_type s) = cs_nodes_with_suggestions s ∧
  (node_id_list = None → cs_total_checked s = length entries) ∧
  (node_id_list = None → node_type_filter = None → cs_total_checked s = number_of_nodes g).
Proof.
  unfold bulk_check_node_completeness. destruct (Nat.eqb _ 0); [discriminate|]. intros [= Hf].
  pose proof (bulk_check_fold_inv g (nodes_to_check node_id_list node_type_filter g)
                (mkCheckSummary 0 0 0 0 [] []) [] eq_refl ltac:(cbn; lia) eq_refl eq_refl eq_refl) as H.
  rewrite Hf in H. destruct H as (H1 & H2 & H3 & H4 & H5 & H6 & H7). cbn in H6, H7.
  assert (Hall : node_id_list = None → Forall (fun x => has_node g x = true) (nodes_to_check node_id_list node_type_filter g)).
  { intros ->. apply Forall_forall. intros x Hx. unfold has_node. apply bool_decide_eq_true.
    apply node_ids_elem. destruct node_type_filter as [t|]; cbn in Hx; [|done].
    by apply list_elem_of_filter in Hx as [_ Hx]. }
  split; [done|]. split; [done|]. split; [done|]. split; [done|]. split; [done|]. split; [done|]. split.
  - intros Hn. rewrite (H7 (Hall Hn)), H6. done.
  - intros Hn Ht. rewrite (H7 (Hall Hn)). subst. cbn. unfold node_ids, number_of_nodes.
    by rewrite length_map, length_map_to_list.
Qed.

Lemma bulk_check_summary_witness :
  let r := match bulk_check_node_completeness None None g_art with
           | inr r => r | inl _ => (mkCheckSummary 0 0 0 0 [] [], []) end in
  bulk_check_node_completeness None None g_art = inr (r.1, r.2) ∧
  cs_total_checked r.1 = number_of_nodes g_art.
Proof.
  intros r. assert (H : bulk_check_node_completeness None None g_art = inr (r.1, r.2)) by (vm_compute; reflexivity).
  split; [exact H|]. pose proof (bulk_check_summary g_art None None r.1 r.2 H) as Hb.
  destruct Hb as (_ & _ & _ & _ & _ & _ & _ & Hb). exact (Hb eq_refl eq_refl).
Defined.

(** X17: When list_all_nodes_by_type succeeds, count is the number of listed nodes, the listed ids are distinct and are exactly the nodes whose node_type equals the requested type, and each entry carries the node's label and, as properties, the node's attributes without node_type and label. *)
Theorem list_all_nodes_by_type_spec (t : string) (g : DiGraph) (l : NodeListing) :
  list_all_nodes_by_type t g = inr l →
  nl_node_type l = t ∧ nl_count l = length (nl_nodes l) ∧
  NoDup (map (fun e => e.1.1) (nl_nodes l)) ∧
  (∀ x, x ∈ map (fun e => e.1.1) (nl_nodes l) ↔ is_Some (g_nodes g !! x) ∧ node_type_is g x t = true) ∧
  (∀ e, e ∈ nl_nodes l →
     e.1.2 = get (node_data g e.1.1) "label" ∧
     e.2 !! "node_type" = None ∧ e.2 !! "label" = None ∧
     ∀ k, k ≠ "node_type" → k ≠ "label" → e.2 !! k = node_data g e.1.1 !! k).
Proof.
  unfold list_all_nodes_by_type. destruct (Nat.eqb _ 0); [discriminate|]. intros [= <-]. cbn.
  rewrite map_map. cbn. rewrite list_fmap_id.
  split; [done|]. split; [by rewrite length_map|]. split.
  { apply NoDup_filter, node_ids_NoDup. }
  split.
  { intros x. rewrite list_elem_of_filter, node_ids_elem. tauto. }
  intros e He. apply list_elem_of_In, in_map_iff in He as [n [<- _]]. cbn.
  split; [done|]. split; [|split].
  - apply map_lookup_filter_None. right. intros x _ [H _]. by apply H.
  - apply map_lookup_filter_None. right. intros x _ [_ H]. by apply H.
  - intros k Hk1 Hk2. destruct (node_data g n !! k) eqn:Hk.
    + apply map_lookup_filter_Some. cbn. tauto.
    + apply map_lookup_filter_None. by left.
Qed.

Lemma list_all_nodes_by_type_spec_witness :
  let l := match list_all_nodes_by_type "condition" g_art with inr l => l | inl _ => mkNodeListing "" 0 [] end in
  list_all_nodes_by_type "condition" g_art = inr l ∧ nl_count l = length (nl_nodes l).
Proof.
  intros l. assert (H : list_all_nodes_by_type "condition" g_art = inr l) by (vm_compute; reflexivity).
  split; [exact H|]. pose proof (list_all_nodes_by_type_spec "condition" g_art l H) as Hs.
  destruct Hs as (_ & Hs & _). exact Hs.
Defined.

(** X18: On a graph whose nodes have no id attribute and whose edges have no source or target attribute, the Cytoscape export has one node element per node and one edge element per edge; node elements carry the node id and its label (default the id), edge elements carry their edge's endpoints and the id edge_<i> unless the edge has its own id attribute, and if no edge has one the edge ids are distinct. *)
Theorem export_cytoscape_elements (g : DiGraph) (ns es : list attrs) :
  stripped g →
  export_graph_as_cytoscape_json g = inr (ns, es) →
  length ns = number_of_nodes g ∧ length es = number_of_edges g ∧
  map (fun el => el !! "id") ns = map (fun n => Some (VStr n)) (node_ids g) ∧
  (∀ el, el ∈ ns → ∃ n a, g_nodes g !! n = Some a ∧
     el !! "id" = Some (VStr n) ∧ el !! "label" = Some (get_default a "label" (VStr n))) ∧
  (∀ i el, es !! i = Some el → ∃ u v a, g_edges g !! (u, v) = Some a ∧
     el !! "source" = Some (VStr u) ∧ el !! "target" = Some (VStr v) ∧
     (a !! "id" = None → el !! "id" = Some (VStr ("edge_" +:+ pretty i)))) ∧
  ((∀ e a, g_edges g !! e = Some a → a !! "id" = None) → NoDup (map (fun el => el !! "id") es)).
Proof.
  intros [HsN HsE]. unfold export_graph_as_cytoscape_json. destruct (Nat.eqb _ 0); [discriminate|].
  intros [= <- <-].
  assert (He : ∀ i el, imap (fun i (ea : (string * string) * attrs) => cyto_edge i ea.1.1 ea.1.2 ea.2) (edge_list g) !! i = Some el →
            ∃ u v a, g_edges g !! (u, v) = Some a ∧
              el !! "source" = Some (VStr u) ∧ el !! "target" = Some (VStr v) ∧
              (a !! "id" = None → el !! "id" = Some (VStr ("edge_" +:+ pretty i)))).
  { intros i el Hi. apply list_lookup_imap_Some in Hi as [[[u v] a] [Hl ->]]. cbn.
    assert (Hg : g_edges g !! (u, v) = Some a).
    { apply elem_of_map_to_list. apply list_elem_of_lookup_2 in Hl. exact Hl. }
    destruct (HsE _ _ Hg) as [Hs Ht]. exists u, v, a. split; [done|]. by apply cyto_edge_lookup. }
  split; [by rewrite length_map, length_map_to_list|].
  split; [unfold number_of_edges, edge_list; by rewrite length_imap, length_map_to_list|].
  split.
  { unfold node_ids. rewrite !map_map. apply map_ext_in. intros [n a] Hn. cbn.
    apply list_elem_of_In, elem_of_map_to_list in Hn. apply (cyto_node_lookup n a (HsN _ _ Hn)). }
  split.
  { intros el Hel. apply list_elem_of_In, in_map_iff in Hel as [[n a] [<- Hn]].
    apply list_elem_of_In, elem_of_map_to_list in Hn. exists n, a. split; [done|].
    apply (cyto_node_lookup n a (HsN _ _ Hn)). }
  split; [exact He|].
  intros Hid. apply NoDup_alt. intros i j x Hi Hj.
  rewrite list_lookup_fmap in Hi, Hj.
  destruct (_ !! i) as [eli|] eqn:Ei; [|discriminate]. destruct (_ !! j) as [elj|] eqn:Ej; [|discriminate].
  cbn in Hi, Hj. injection Hi as <-. injection Hj as Hj.
  destruct (He i eli Ei) as (u & v & a & Ha & _ & _ & Hia).
  destruct (He j elj Ej) as (u' & v' & a' & Ha' & _ & _ & Hja).
  rewrite (Hia (Hid _ _ Ha)), (Hja (Hid _ _ Ha')) in Hj. injection Hj as Hj.
  cbn [String.append] in Hj. symmetry. exact (pretty_nat_inj _ _ Hj).
Qed.

Lemma export_cytoscape_elements_witness :
  let r := match export_graph_as_cytoscape_json g_art with inr r => r | inl _ => ([], []) end in
  stripped g_art ∧ export_graph_as_cytoscape_json g_art = inr (r.1, r.2) ∧
  length r.2 = number_of_edges g_art.
Proof.
  intros r. assert (Hok : graph_ok g_art) by graph_ok_by_eval.
  assert (H : export_graph_as_cytoscape_json g_art = inr (r.1, r.2)) by (vm_compute; reflexivity).
  split; [exact (proj2 Hok)|]. split; [exact H|].
  pose proof (export_cytoscape_elements g_art r.1 r.2 (proj2 Hok) H) as Hc.
  destruct Hc as (_ & Hc & _). exact Hc.
Defined.

(** X19: On a well-formed graph, empty or not, initialize_patient_graph upserts the patient node: it sets node_type patient, name, and label 'Patient: <name>', keeps the node's other attributes, keeps all edges and other nodes, adds a node only if the id was new, and leaves the graph well-formed. *)
Theorem initialize_patient_graph_upsert (g : DiGraph) (pid name : string) :
  graph_ok g →
  let g' := (initialize_patient_graph pid name g).2 in
  (initialize_patient_graph pid name g).1 = OkAddedNode "patient" pid ∧
  graph_ok g' ∧ g_edges g' = g_edges g ∧
  (∀ m, m ≠ pid → g_nodes g' !! m = g_nodes g !! m) ∧
  number_of_nodes g' = number_of_nodes g + (if has_node g pid then 0 else 1) ∧
  node_data g' pid !! "node_type" = Some (VStr "patient") ∧
  node_data g' pid !! "name" = Some (VStr name) ∧
  node_data g' pid !! "label" = Some (VStr ("Patient: " +:+ name)) ∧
  (∀ k, k ≠ "id" → k ≠ "node_type" → k ≠ "name" → k ≠ "label" → node_data g' pid !! k = node_data g pid !! k).
Proof.
  intros Hok g'. unfold g', initialize_patient_graph. cbn [fst snd].
  rewrite save_add_node by done. split; [done|]. split; [by apply add_node_ok_graph|].
  split; [done|]. split; [|split].
  - intros m Hm. cbn. by rewrite lookup_insert_ne by congruence.
  - unfold number_of_nodes, has_node. cbn. rewrite map_size_insert.
    destruct (g_nodes g !! pid) eqn:E.
    + rewrite bool_decide_eq_true_2 by (by eexists). cbn. lia.
    + rewrite bool_decide_eq_false_2 by (intros [? ?]; congruence). cbn. lia.
  - match goal with |- context [node_data (mkDiGraph (<[pid := ?b]> _) _) pid] =>
      assert (Hd : node_data (mkDiGraph (<[pid := b]> (g_nodes g)) (g_edges g)) pid = b)
        by (unfold node_data; cbn; by rewrite lookup_insert_eq) end.
    rewrite !Hd, !(lookup_delete_ne _ "id") by done.
    split; [|split; [|split]].
    + rewrite lookup_union_l'; [by rewrite lookup_insert_eq|]. rewrite lookup_insert_eq. by eexists.
    + rewrite lookup_union_l'; [by rewrite lookup_insert_ne, lookup_insert_eq|].
      rewrite lookup_insert_ne, lookup_insert_eq by done. by eexists.
    + rewrite lookup_union_l'; [by rewrite (lookup_insert_ne _ "node_type"), (lookup_insert_ne _ "name"), lookup_insert_eq|].
      rewrite (lookup_insert_ne _ "node_type"), (lookup_insert_ne _ "name"), lookup_insert_eq by done. by eexists.
    + intros k H1 H2 H3 H4. rewrite lookup_delete_ne by done.
      rewrite lookup_union_r by (rewrite !lookup_insert_ne by done; apply lookup_empty). done.
Qed.

Lemma initialize_patient_graph_upsert_witness :
  graph_ok g_hyp ∧
  (initialize_patient_graph "P1" "Alice B." g_hyp).1 = OkAddedNode "patient" "P1".
Proof.
  assert (Hok : graph_ok g_hyp) by graph_ok_by_eval.
  split; [exact Hok|]. pose proof (initialize_patient_graph_upsert g_hyp "P1" "Alice B." Hok) as H.
  destruct H as [H _]. exact H.
Defined.

(** X20: On a well-formed non-empty graph, add_research_article uses and reports the id article_<hash(title) mod 10^8>, adds a node only if that id was new, gives it node_type research_article with title and label equal to the article title, and leaves the edges and all other nodes unchanged. *)
Theorem add_research_article_upsert (h : Z) (title : string) (authors : option (list string))
    (pd journal url abstract : option string) (keywords : option (list string)) (g : DiGraph) :
  graph_ok g → number_of_nodes g ≠ 0 →
  let aid := "article_" +:+ pretty (h mod 10 ^ 8)%Z in
  let r := add_research_article h title authors pd journal url abstract keywords g in
  r.1 = (OkAddedNode "research_article" aid, aid) ∧
  graph_ok r.2 ∧ g_edges r.2 = g_edges g ∧
  (∀ m, m ≠ aid → g_nodes r.2 !! m = g_nodes g !! m) ∧
  number_of_nodes r.2 = number_of_nodes g + (if has_node g aid then 0 else 1) ∧
  node_type_is r.2 aid "research_article" = true ∧
  node_data r.2 aid !! "title" = Some (VStr title) ∧
  node_data r.2 aid !! "label" = Some (VStr title).
Proof. exact (add_research_article_spec h title authors pd journal url abstract keywords g). Qed.

Lemma add_research_article_upsert_witness :
  (graph_ok g_hyp ∧ number_of_nodes g_hyp ≠ 0) ∧
  (add_research_article 123456789 "Aspirin and blood pressure" None None None None None None g_hyp).1 =
    (OkAddedNode "research_article" "article_23456789", "article_23456789").
Proof.
  assert (Hok : graph_ok g_hyp) by graph_ok_by_eval.
  assert (Hn : number_of_nodes g_hyp ≠ 0) by (vm_compute; discriminate).
  split; [tauto|].
  pose proof (add_research_article_upsert 123456789 "Aspirin and blood pressure" None None None None None None g_hyp Hok Hn) as H.
  destruct H as [H _]. exact H.
Defined.

(** X21: Two add_research_article calls whose title hashes agree modulo 10^8 get the same article id: the second call adds no node and overwrites the stored title with its own title. *)
Theorem add_research_article_collision (h1 h2 : Z) (t1 t2 : string)
    (au1 au2 : option (list string)) (pd1 pd2 j1 j2 u1 u2 ab1 ab2 : option string)
    (kw1 kw2 : option (list string)) (g : DiGraph) :
  graph_ok g → number_of_nodes g ≠ 0 → (h1 mod 10 ^ 8 = h2 mod 10 ^ 8)%Z →
  let r1 := add_research_article h1 t1 au1 pd1 j1 u1 ab1 kw1 g in
  let r2 := add_research_article h2 t2 au2 pd2 j2 u2 ab2 kw2 r1.2 in
  r2.1.2 = r1.1.2 ∧
  number_of_nodes r2.2 = number_of_nodes r1.2 ∧
  node_data r2.2 r1.1.2 !! "title" = Some (VStr t2).
Proof.
  intros Hok Hn Hh r1 r2.
  destruct (add_research_article_spec h1 t1 au1 pd1 j1 u1 ab1 kw1 g Hok Hn) as (R1 & Hok1 & _ & _ & Hs1 & Ht1 & _).
  fold r1 in R1, Hok1, Hs1, Ht1. cbv zeta in R1, Hs1, Ht1.
  assert (Hn1 : number_of_nodes r1.2 ≠ 0) by (rewrite Hs1; lia).
  destruct (add_research_article_spec h2 t2 au2 pd2 j2 u2 ab2 kw2 r1.2 Hok1 Hn1) as (R2 & _ & _ & _ & Hs2 & _ & Ht2 & _).
  fold r2 in R2, Hs2, Ht2. cbv zeta in R2, Hs2, Ht2. rewrite <- Hh in R2, Hs2, Ht2.
  rewrite R1, R2. cbn. split; [done|]. split; [|done].
  rewrite Hs2. unfold node_type_is in Ht1. unfold has_node.
  rewrite bool_decide_eq_true_2; [lia|]. unfold node_data in Ht1.
  destruct (g_nodes r1.2 !! _); [by eexists|]. discriminate.
Qed.

Lemma add_research_article_collision_witness :
  (graph_ok g_hyp ∧ number_of_nodes g_hyp ≠ 0 ∧ (5 mod 10 ^ 8 = 100000005 mod 10 ^ 8)%Z) ∧
  let r1 := add_research_article 5 "Study A" None None None None None None g_hyp in
  let r2 := add_research_article 100000005 "Study B" None None None None None None r1.2 in
  number_of_nodes r2.2 = number_of_nodes r1.2.
Proof.
  assert (Hok : graph_ok g_hyp) by graph_ok_by_eval.
  assert (Hn : number_of_nodes g_hyp ≠ 0) by (vm_compute; discriminate).
  assert (Hh : (5 mod 10 ^ 8 = 100000005 mod 10 ^ 8)%Z) by reflexivity.
  split; [tauto|].
  pose proof (add_research_article_collision 5 100000005 "Study A" "Study B" None None None None None None
                None None None None None None g_hyp Hok Hn Hh) as H.
  destruct H as [_ [H _]]. exact H.
Defined.

(** X22: On a well-formed non-empty graph, add_clinical_trial upserts the trial node with node_type clinical_trial and title and label equal to the trial title; a phase, status or url that is None or empty leaves the node's previous value for that key in place instead of clearing it. *)
Theorem add_clinical_trial_upsert (tid title : string) (phase status : option string)
    (conditions interventions : option (list string)) (url : option string) (g : DiGraph) :
  graph_ok g → number_of_nodes g ≠ 0 →
  let r := add_clinical_trial tid title phase status conditions interventions url g in
  let keep (o : option string) (k : string) :=
    match o with Some s => if String.eqb s "" then node_data g tid !! k else Some (VStr s)
               | None => node_data g tid !! k end in
  r.1 = OkAddedNode "clinical_trial" tid ∧ graph_ok r.2 ∧ g_edges r.2 = g_edges g ∧
  number_of_nodes r.2 = number_of_nodes g + (if has_node g tid then 0 else 1) ∧
  node_type_is r.2 tid "clinical_trial" = true ∧
  node_data r.2 tid !! "title" = Some (VStr title) ∧
  node_data r.2 tid !! "label" = Some (VStr title) ∧
  node_data r.2 tid !! "phase" = keep phase "phase" ∧
  node_data r.2 tid !! "status" = keep status "status" ∧
  node_data r.2 tid !! "url" = keep url "url".
Proof.
  intros Hok Hn r keep. unfold r, add_clinical_trial.
  match goal with |- context [add_node tid "clinical_trial" title (Some ?P) g] => set (props := P) end.
  assert (Hcl : kwargs_clash add_node_params (default ∅ (Some props)) = false).
  { cbn [default]. unfold id, props. apply kwargs_clash_none.
    clash_free_keys_with ltac:(first [rewrite put_list_lookup_ne by done | rewrite put_str_lookup_ne by done]). }
  destruct (add_node_spec g tid "clinical_trial" title (Some props) Hok Hn Hcl) as (R & Hok' & He & _ & Hs & Hd).
  assert (Hne : ∀ k, k ≠ "url" → k ≠ "interventions" → k ≠ "conditions" → props !! k =
             put_str "status" status (put_str "phase" phase (<["title" := VStr title]> ∅)) !! k).
  { intros k H1 H2 H3. unfold props. by rewrite put_str_lookup_ne, !put_list_lookup_ne. }
  split; [done|]. split; [done|]. split; [done|]. split; [done|]. split; [|split; [|split; [|split; [|split]]]].
  - unfold node_type_is, get. rewrite (Hd "node_type" ltac:(done)). cbn.
    rewrite Hne by done. rewrite !put_str_lookup_ne, lookup_insert_ne by done. done.
  - rewrite (Hd "title" ltac:(done)). cbn. rewrite Hne by done.
    rewrite !put_str_lookup_ne, lookup_insert_eq by done. done.
  - rewrite (Hd "label" ltac:(done)). cbn. rewrite Hne by done.
    rewrite !put_str_lookup_ne, lookup_insert_ne by done. done.
  - rewrite (Hd "phase" ltac:(done)). cbn. rewrite Hne by done.
    rewrite put_str_lookup_ne, put_str_lookup_eq, lookup_insert_ne by done. unfold keep.
    destruct phase as [s|]; [destruct (String.eqb s "")|]; done.
  - rewrite (Hd "status" ltac:(done)). cbn. rewrite Hne by done.
    rewrite put_str_lookup_eq, put_str_lookup_ne, lookup_insert_ne by done. unfold keep.
    destruct status as [s|]; [destruct (String.eqb s "")|]; cbn; try done.
    all: destruct phase as [s'|]; [destruct (String.eqb s' "")|]; cbn; rewrite ?lookup_insert_ne by done; done.
  - rewrite (Hd "url" ltac:(done)). cbn. unfold props. rewrite put_str_lookup_eq.
    rewrite !put_list_lookup_ne, !put_str_lookup_ne, lookup_insert_ne by done. unfold keep.
    destruct url as [s|]; [destruct (String.eqb s "")|]; done.
Qed.

Lemma add_clinical_trial_upsert_witness :
  (graph_ok g_hyp ∧ number_of_nodes g_hyp ≠ 0) ∧
  (add_clinical_trial "NCT01" "Aspirin trial" (Some "Phase 3") None None None None g_hyp).1 =
    OkAddedNode "clinical_trial" "NCT01".
Proof.
  assert (Hok : graph_ok g_hyp) by graph_ok_by_eval.
  assert (Hn : number_of_nodes g_hyp ≠ 0) by (vm_compute; discriminate).
  split; [tauto|].
  pose proof (add_clinical_trial_upsert "NCT01" "Aspirin trial" (Some "Phase 3") None None None None g_hyp Hok Hn) as H.
  destruct H as [H _]. exact H.
Defined.

(** X23: When find_related_research succeeds on condition c, total_found is the number of research_article predecessors of c; the articles returned are distinct such predecessors, each with its edge's data, in descending order of confidence as Python compares the sort keys (shown when no key is a list or a dict), their number is total_found cut by Python's [:max_results] slice, and when total_found <= max_results they are all of them. *)
Theorem find_related_research_ranked (g : DiGraph) (c : string) (max_results : Z) (r : Related) :
  find_related_research c max_results g = Some (inr r) →
  rl_condition_id r = c ∧ is_Some (g_nodes g !! c) ∧
  rl_total_found r = article_preds g c ∧
  ((∀ p, p ∈ predecessors g c → node_type_is g p "research_article" = true →
         hashable (article_key (article_ref g c p)) = true) →
   Sorted (desc_rel article_lt) (rl_articles r)) ∧
  NoDup (map ar_id (rl_articles r)) ∧
  (∀ x, x ∈ rl_articles r →
     x = article_ref g c (ar_id x) ∧ is_Some (g_edges g !! (ar_id x, c)) ∧
     node_type_is g (ar_id x) "research_article" = true) ∧
  Z.of_nat (length (rl_articles r)) =
    (if Z.leb 0 max_results then Z.min max_results (Z.of_nat (article_preds g c))
     else Z.max 0 (Z.of_nat (article_preds g c) + max_results)) ∧
  ((Z.of_nat (article_preds g c) <= max_results)%Z →
   map ar_id (rl_articles r) ≡ₚ filter (fun p => node_type_is g p "research_article" = true) (predecessors g c)).
Proof. exact (find_related_research_spec g c max_results r). Qed.

Lemma find_related_research_ranked_witness :
  let r := match find_related_research "C1" 10 g_art with Some (inr r) => r | _ => mkRelated "" VNull [] 0 end in
  find_related_research "C1" 10 g_art = Some (inr r) ∧ rl_total_found r = article_preds g_art "C1".
Proof.
  intros r. assert (H : find_related_research "C1" 10 g_art = Some (inr r)) by (vm_compute; reflexivity).
  split; [exact H|]. pose proof (find_related_research_ranked g_art "C1" 10 r H) as Hr.
  destruct Hr as (_ & _ & Hr & _). exact Hr.
Defined.

(** X24: On a well-formed graph, bulk_add_relationships reports added and error entries that add up to the number of inputs, never changes the node set, keeps every existing edge, keeps the graph well-formed, and adds at most as many edges as entries it reports added. *)
Theorem bulk_add_relationships_accounting (rels : list attrs) (g : DiGraph) :
  graph_ok g →
  let r := bulk_add_relationships rels g in
  match r.1 with
  | OkBulk added errors =>
      length added + length errors = length rels ∧
      number_of_edges g ≤ number_of_edges r.2 ≤ number_of_edges g + length added
  | _ => False
  end ∧
  graph_ok r.2 ∧ g_nodes r.2 = g_nodes g ∧
  (∀ e, is_Some (g_edges g !! e) → is_Some (g_edges r.2 !! e)).
Proof.
  intros Hok r. unfold r, bulk_add_relationships.
  pose proof (bulk_rels_loop_inv rels 0 [] [] g (proj1 Hok)) as H.
  destruct (bulk_rels_loop 0 rels ([], [], g)) as [[added errors] h].
  destruct H as (H1 & _ & H3 & H4 & H5 & Hsz & H6). cbn [fst snd length] in *.
  rewrite save_graph_wf by done.
  split.
  - split; [lia|]. unfold number_of_edges, strip. cbn. rewrite map_size_fmap. lia.
  - split; [by apply strip_wf_ok|]. split.
    + unfold strip. cbn. rewrite H4. pose proof (strip_stripped g (proj2 Hok)) as E.
      destruct g as [ns es]. unfold strip in E. cbn in *. by injection E as En _.
    + intros e He. cbn. rewrite lookup_fmap. destruct (H5 e He) as [x Hx]. rewrite Hx. by eexists.
Qed.

Lemma bulk_add_relationships_accounting_witness :
  let rels := [<["source_id" := VStr "C1"]> (<["target_id" := VStr "P1"]> (<["relationship_type" := VStr "AFFECTS"]> ∅));
               <["target_id" := VStr "P1"]> ∅] in
  graph_ok g_hyp ∧
  g_nodes (bulk_add_relationships rels g_hyp).2 = g_nodes g_hyp.
Proof.
  intros rels. assert (Hok : graph_ok g_hyp) by graph_ok_by_eval.
  split; [exact Hok|]. pose proof (bulk_add_relationships_accounting rels g_hyp Hok) as H.
  destruct H as (_ & _ & H & _). exact H.
Defined.
